(** * netsuite-cli: a shallow embedding of the [cmd] package

    The Go program is embedded function by function.  Go strings are byte
    sequences, modelled by [string] (a list of 8-bit [ascii] values); Go's
    [int] and [rune] are modelled by [Z].  The parts of the Go standard
    library the program calls are modelled in modules named after their
    packages ([utf8], [unicode], [strings], [strconv], [filepath]); the
    program itself is in module [cmd].  Console, file system, subprocesses
    and the clock are reached through an explicit world state. *)

From Stdlib Require Import ZArith List String Ascii Bool Lia Sorted.
Import ListNotations.
Local Open Scope string_scope.
Local Open Scope Z_scope.

Set Implicit Arguments.

(** ** Bytes *)

(** The value of a byte, as Go's [int(b)]. *)
Definition byteZ (c : ascii) : Z := Z.of_N (N_of_ascii c).

(** The byte of a value below 256, as Go's [byte(z)]. *)
Definition zbyte (z : Z) : ascii := ascii_of_N (Z.to_N (z mod 256)).

(** [lo <= b <= hi] on byte values. *)
Definition inRange (lo hi : Z) (c : ascii) : bool :=
  (lo <=? byteZ c) && (byteZ c <=? hi).

(** [len(s)] as an [int]. *)
Definition len (s : string) : Z := Z.of_nat (String.length s).

(** [s[n:]]. *)
Fixpoint drop (n : nat) (s : string) : string :=
  match n, s with
  | O, _ => s
  | S _, EmptyString => EmptyString
  | S n', String _ t => drop n' t
  end.

(** [s[:n]]. *)
Fixpoint take (n : nat) (s : string) : string :=
  match n, s with
  | O, _ => EmptyString
  | S _, EmptyString => EmptyString
  | S n', String c t => String c (take n' t)
  end.

(** [strings.Map] over bytes, for the byte-wise loops of the library. *)
Fixpoint mapBytes (f : ascii -> ascii) (s : string) : string :=
  match s with
  | EmptyString => EmptyString
  | String c t => String (f c) (mapBytes f t)
  end.

Fixpoint forallBytes (p : ascii -> bool) (s : string) : bool :=
  match s with
  | EmptyString => true
  | String c t => p c && forallBytes p t
  end.

Fixpoint rev_string_onto (s acc : string) : string :=
  match s with
  | EmptyString => acc
  | String c t => rev_string_onto t (String c acc)
  end.

Definition rev_string (s : string) : string := rev_string_onto s EmptyString.

(** The tables of package [unicode] the program reaches beyond ASCII.  They
    are data of the Go distribution, not of this repository, so they are
    taken as a parameter: every theorem holds whatever the tables say. *)
Class UnicodeTables : Type := {
  (** [unicode.To(unicode.LowerCase, r)] for [r > unicode.MaxASCII] *)
  tblToLower : Z -> Z;
  (** [unicode.IsUpper r], [unicode.IsLower r], [unicode.IsDigit r] for
      [r > unicode.MaxASCII] *)
  tblIsUpper : Z -> bool;
  tblIsLower : Z -> bool;
  tblIsDigit : Z -> bool
}.

(** ** Package [unicode/utf8] *)
Module utf8.

Definition RuneError : Z := 0xFFFD.
Definition RuneSelf : Z := 0x80.
Definition MaxRune : Z := 0x10FFFF.
Definition UTFMax : nat := 4.

(** The [first] table with its accept ranges: for a leading byte, the
    length of the sequence and the range the second byte must lie in;
    [None] for a byte that starts no sequence. *)
Definition first (b0 : ascii) : option (nat * Z * Z) :=
  let x := byteZ b0 in
  if x <? 0x80 then Some (1%nat, 0, 0)
  else if x <? 0xC2 then None
  else if x <=? 0xDF then Some (2%nat, 0x80, 0xBF)
  else if x =? 0xE0 then Some (3%nat, 0xA0, 0xBF)
  else if x =? 0xED then Some (3%nat, 0x80, 0x9F)
  else if x <=? 0xEF then Some (3%nat, 0x80, 0xBF)
  else if x =? 0xF0 then Some (4%nat, 0x90, 0xBF)
  else if x <=? 0xF3 then Some (4%nat, 0x80, 0xBF)
  else if x =? 0xF4 then Some (4%nat, 0x80, 0x8F)
  else None.

(** [utf8.DecodeRuneInString]: the rune and its width in bytes; an invalid
    or short sequence decodes to [(RuneError, 1)], the empty string to
    [(RuneError, 0)].  The masks and shifts of the function are written as
    remainders and products: [b & 0x3F] is [b mod 64], [x << 6] is
    [x * 64], and the fields joined by [|] do not overlap. *)
Definition DecodeRuneInString (s : string) : Z * nat :=
  match s with
  | EmptyString => (RuneError, 0%nat)
  | String b0 t =>
    match first b0 with
    | None => (RuneError, 1%nat)
    | Some (1%nat, _, _) => (byteZ b0, 1%nat)
    | Some (sz, lo, hi) =>
      match t with
      | String b1 t1 =>
        if negb (inRange lo hi b1) then (RuneError, 1%nat)
        else if (sz =? 2)%nat
        then ((byteZ b0 mod 32) * 64 + byteZ b1 mod 64, 2%nat)
        else
          match t1 with
          | String b2 t2 =>
            if negb (inRange 0x80 0xBF b2) then (RuneError, 1%nat)
            else if (sz =? 3)%nat
            then ((byteZ b0 mod 16) * 4096 + (byteZ b1 mod 64) * 64
                  + byteZ b2 mod 64, 3%nat)
            else
              match t2 with
              | String b3 _ =>
                if negb (inRange 0x80 0xBF b3) then (RuneError, 1%nat)
                else ((byteZ b0 mod 8) * 262144 + (byteZ b1 mod 64) * 4096
                      + (byteZ b2 mod 64) * 64 + byteZ b3 mod 64, 4%nat)
              | EmptyString => (RuneError, 1%nat)
              end
          | EmptyString => (RuneError, 1%nat)
          end
      | EmptyString => (RuneError, 1%nat)
      end
    end
  end.

(** [utf8.RuneStart]. *)
Definition RuneStart (b : ascii) : bool := negb (byteZ b / 64 =? 2).

(** [utf8.DecodeLastRuneInString]: backs up over at most [UTFMax - 1]
    continuation bytes and decodes forward; the sequence must end where the
    string ends. *)
Definition DecodeLastRuneInString (s : string) : Z * nat :=
  let end_ := len s in
  if end_ =? 0 then (RuneError, 0%nat)
  else
    match String.get (Z.to_nat (end_ - 1)) s with
    | None => (RuneError, 0%nat)
    | Some c =>
      if byteZ c <? RuneSelf then (byteZ c, 1%nat)
      else
        let lim := Z.max (end_ - Z.of_nat UTFMax) 0 in
        (* for start--; start >= lim; start-- { if RuneStart(s[start]) { break } } *)
        let fix back (k : nat) (start : Z) : Z :=
          match k with
          | O => start
          | S k' =>
            if start <? lim then start
            else
              match String.get (Z.to_nat start) s with
              | Some b => if RuneStart b then start else back k' (start - 1)
              | None => start
              end
          end in
        let start := back UTFMax (end_ - 2) in
        let start := if start <? 0 then 0 else start in
        let '(r, size) := DecodeRuneInString (drop (Z.to_nat start) s) in
        if start + Z.of_nat size =? end_ then (r, size) else (RuneError, 1%nat)
    end.

(** [utf8.AppendRune] onto the empty string: a negative value, a surrogate
    and a value above [MaxRune] are encoded as [RuneError].  Shifts and
    masks are written as quotients and remainders. *)
Definition EncodeRune (r : Z) : string :=
  let enc3 (r : Z) :=
    String (zbyte (0xE0 + r / 4096))
      (String (zbyte (0x80 + (r / 64) mod 64))
        (String (zbyte (0x80 + r mod 64)) EmptyString)) in
  if (0 <=? r) && (r <=? 0x7F) then String (zbyte r) EmptyString
  else if (0 <=? r) && (r <=? 0x7FF) then
    String (zbyte (0xC0 + r / 64))
      (String (zbyte (0x80 + r mod 64)) EmptyString)
  else if (r <? 0) || (MaxRune <? r) || ((0xD800 <=? r) && (r <=? 0xDFFF))
  then enc3 RuneError
  else if r <=? 0xFFFF then enc3 r
  else
    String (zbyte (0xF0 + r / 262144))
      (String (zbyte (0x80 + (r / 4096) mod 64))
        (String (zbyte (0x80 + (r / 64) mod 64))
          (String (zbyte (0x80 + r mod 64)) EmptyString))).

(** The runes of a string in order, as [for _, c := range s] yields them
    (and as [[]rune(s)] converts).  The fuel is the byte length: every step
    consumes at least one byte. *)
Fixpoint runesFuel (fuel : nat) (s : string) : list Z :=
  match fuel with
  | O => []
  | S fuel' =>
    match s with
    | EmptyString => []
    | _ =>
      let '(r, w) := DecodeRuneInString s in
      r :: runesFuel fuel' (drop w s)
    end
  end.

Definition runes (s : string) : list Z := runesFuel (String.length s) s.

End utf8.

(** ** Package [unicode] *)
Module unicode.
Section Tables.
Context {U : UnicodeTables}.

Definition MaxASCII : Z := 0x7F.
Definition MaxLatin1 : Z := 0xFF.

(** [unicode.ToLower]: ASCII is decided in place, the rest by the case
    tables. *)
Definition ToLower (r : Z) : Z :=
  if r <=? MaxASCII then
    if (65 <=? r) && (r <=? 90) then r + 32 else r
  else tblToLower r.

Definition IsUpper (r : Z) : bool :=
  if r <=? MaxASCII then (65 <=? r) && (r <=? 90) else tblIsUpper r.

Definition IsLower (r : Z) : bool :=
  if r <=? MaxASCII then (97 <=? r) && (r <=? 122) else tblIsLower r.

(** [unicode.IsDigit]: below [MaxLatin1] only ['0'..'9']. *)
Definition IsDigit (r : Z) : bool :=
  if r <=? MaxLatin1 then (48 <=? r) && (r <=? 57) else tblIsDigit r.

End Tables.

(** [unicode.IsSpace]: the Latin-1 cases of the function and the
    [White_Space] range table beyond. *)
Definition IsSpace (r : Z) : bool :=
  if (0 <=? r) && (r <=? 0xFF) then
    ((9 <=? r) && (r <=? 13)) || (r =? 32) || (r =? 0x85) || (r =? 0xA0)
  else
    (r =? 0x1680) || ((0x2000 <=? r) && (r <=? 0x200A)) || (r =? 0x2028)
    || (r =? 0x2029) || (r =? 0x202F) || (r =? 0x205F) || (r =? 0x3000).

End unicode.

(** ** Package [strings] *)
Module strings.

(** The [asciiSpace] table of package [strings]. *)
Definition asciiSpace (c : ascii) : bool :=
  let x := byteZ c in
  ((9 <=? x) && (x <=? 13)) || (x =? 32).

Definition isASCIIByte (c : ascii) : bool := byteZ c <? utf8.RuneSelf.

Definition isASCII (s : string) : bool := forallBytes isASCIIByte s.

(** The byte loop of [ToLower]'s ASCII path: [c += 'a' - 'A'] on ['A'..'Z']. *)
Definition lowerByte (c : ascii) : ascii :=
  if inRange 65 90 c then zbyte (byteZ c + 32) else c.

(** [strings.Map]: every rune of [s], invalid bytes as [utf8.RuneError],
    is replaced by the encoding of its image; a negative image is dropped.
    (Go copies the bytes of an unchanged valid rune, which are its
    encoding.) *)
Definition Map (mapping : Z -> Z) (s : string) : string :=
  fold_right (fun c acc => let r := mapping c in
                           if 0 <=? r then utf8.EncodeRune r ++ acc else acc)
             EmptyString (utf8.runes s).

Section Tables.
Context {U : UnicodeTables}.

(** [strings.ToLower]. *)
Definition ToLower (s : string) : string :=
  if isASCII s then mapBytes lowerByte s
  else Map unicode.ToLower s.

End Tables.

(** [indexFunc(s, f, false)] as the suffix it leaves: [TrimLeftFunc]. *)
Fixpoint TrimLeftFuncFuel (fuel : nat) (f : Z -> bool) (s : string) : string :=
  match fuel with
  | O => EmptyString
  | S fuel' =>
    match s with
    | EmptyString => EmptyString
    | _ =>
      let '(r, w) := utf8.DecodeRuneInString s in
      if f r then TrimLeftFuncFuel fuel' f (drop w s) else s
    end
  end.

Definition TrimLeftFunc (s : string) (f : Z -> bool) : string :=
  TrimLeftFuncFuel (String.length s) f s.

(** [lastIndexFunc(s, f, false)] followed by the slice of [TrimRightFunc]:
    runes are decoded from the end while [f] holds. *)
Fixpoint TrimRightFuncFuel (fuel : nat) (f : Z -> bool) (s : string) : string :=
  match fuel with
  | O => EmptyString
  | S fuel' =>
    match s with
    | EmptyString => EmptyString
    | _ =>
      let '(r, size) := utf8.DecodeLastRuneInString s in
      if f r then TrimRightFuncFuel fuel' f (take (String.length s - size) s) else s
    end
  end.

Definition TrimRightFunc (s : string) (f : Z -> bool) : string :=
  TrimRightFuncFuel (String.length s) f s.

Definition TrimFunc (s : string) (f : Z -> bool) : string :=
  TrimRightFunc (TrimLeftFunc s f) f.

(** The second loop of [TrimSpace], on the reversed remainder: ASCII
    spaces are cut from the end; at a non-ASCII byte the rest goes to
    [TrimRightFunc]. *)
Fixpoint trimSpaceStop (rs : string) : string :=
  match rs with
  | EmptyString => EmptyString
  | String c t =>
    if negb (isASCIIByte c) then TrimRightFunc (rev_string rs) unicode.IsSpace
    else if asciiSpace c then trimSpaceStop t
    else rev_string rs
  end.

(** [strings.TrimSpace]: the first loop cuts ASCII spaces from the start; at
    a non-ASCII byte the rest goes to [TrimFunc]. *)
Fixpoint TrimSpace (s : string) : string :=
  match s with
  | EmptyString => EmptyString
  | String c t =>
    if negb (isASCIIByte c) then TrimFunc s unicode.IsSpace
    else if asciiSpace c then TrimSpace t
    else trimSpaceStop (rev_string s)
  end.

(** [strings.HasPrefix]. *)
Fixpoint HasPrefix (s prefix : string) : bool :=
  match prefix, s with
  | EmptyString, _ => true
  | String p pt, String c t => Ascii.eqb p c && HasPrefix t pt
  | String _ _, EmptyString => false
  end.

(** [strings.ReplaceAll] with a non-empty [old]: non-overlapping
    occurrences from the left. *)
Fixpoint replaceFuel (fuel : nat) (s old new : string) : string :=
  match fuel with
  | O => s
  | S fuel' =>
    match s with
    | EmptyString => EmptyString
    | String c t =>
      if HasPrefix s old
      then new ++ replaceFuel fuel' (drop (String.length old) s) old new
      else String c (replaceFuel fuel' t old new)
    end
  end.

(** [strings.ReplaceAll] with an empty [old]: [new] before every rune and at
    the end. *)
Fixpoint insertFuel (fuel : nat) (s new : string) : string :=
  match fuel with
  | O => EmptyString
  | S fuel' =>
    match s with
    | EmptyString => EmptyString
    | _ =>
      let '(_, w) := utf8.DecodeRuneInString s in
      take w s ++ new ++ insertFuel fuel' (drop w s) new
    end
  end.

Definition ReplaceAll (s old new : string) : string :=
  match old with
  | EmptyString => new ++ insertFuel (String.length s) s new
  | _ => replaceFuel (String.length s) s old new
  end.

(** [strings.Count] with a non-empty [substr]: non-overlapping occurrences. *)
Fixpoint countFuel (fuel : nat) (s substr : string) : Z :=
  match fuel with
  | O => 0
  | S fuel' =>
    match s with
    | EmptyString => 0
    | String _ t =>
      if HasPrefix s substr
      then 1 + countFuel fuel' (drop (String.length substr) s) substr
      else countFuel fuel' t substr
    end
  end.

Definition Count (s substr : string) : Z :=
  match substr with
  | EmptyString => Z.of_nat (List.length (utf8.runes s)) + 1
  | _ => countFuel (String.length s) s substr
  end.

(** [strings.Repeat]; the program never passes a negative count (Go
    panics there). *)
Definition Repeat (s : string) (count : Z) : string :=
  Nat.iter (Z.to_nat count) (fun acc => s ++ acc) EmptyString.

Fixpoint containsByte (c : ascii) (s : string) : bool :=
  match s with
  | EmptyString => false
  | String d t => Ascii.eqb c d || containsByte c t
  end.

(** [strings.ContainsAny] for a set of ASCII characters: some byte of [s]
    is in [chars]. *)
Fixpoint ContainsAny (s chars : string) : bool :=
  match s with
  | EmptyString => false
  | String c t => containsByte c chars || ContainsAny t chars
  end.

Fixpoint trimLeftBytes (cutset s : string) : string :=
  match s with
  | EmptyString => EmptyString
  | String c t => if containsByte c cutset then trimLeftBytes cutset t else s
  end.

(** [strings.Trim] for a cutset of ASCII characters: bytes of the cutset
    are cut from both ends. *)
Definition Trim (s cutset : string) : string :=
  rev_string (trimLeftBytes cutset (rev_string (trimLeftBytes cutset s))).

(** [strings.Split] with a one-byte separator. *)
Fixpoint splitByte (sep : ascii) (s : string) : list string :=
  match s with
  | EmptyString => [EmptyString]
  | String c t =>
    if Ascii.eqb c sep then EmptyString :: splitByte sep t
    else match splitByte sep t with
         | x :: r => String c x :: r
         | [] => [String c EmptyString]
         end
  end.

(** [strings.Join]. *)
Fixpoint Join (elems : list string) (sep : string) : string :=
  match elems with
  | [] => EmptyString
  | [x] => x
  | x :: r => x ++ sep ++ Join r sep
  end.

End strings.

(** ** Package [strconv] *)
Module strconv.

Definition MaxInt : Z := 2 ^ 63 - 1.
Definition MinInt : Z := - 2 ^ 63.

(** The value of a run of decimal digits, [None] when a byte is no digit. *)
Fixpoint digitsFrom (acc : Z) (s : string) : option Z :=
  match s with
  | EmptyString => Some acc
  | String c t =>
    if inRange 48 57 c then digitsFrom (acc * 10 + (byteZ c - 48)) t else None
  end.

(** [strconv.Atoi] on a 64-bit platform, [None] standing for [err != nil]
    (a syntax error or a value out of the range of [int]): an optional sign
    and at least one decimal digit, nothing else; no underscores in base
    10.  The short-input path of the function and its [ParseInt] path agree
    on this. *)
Definition Atoi (s : string) : option Z :=
  let '(neg, body) :=
    match s with
    | String c t =>
      if Ascii.eqb c "-"%char then (true, t)
      else if Ascii.eqb c "+"%char then (false, t)
      else (false, s)
    | EmptyString => (false, s)
    end in
  match body with
  | EmptyString => None
  | _ =>
    match digitsFrom 0 body with
    | None => None
    | Some n =>
      let v := if neg then - n else n in
      if (MinInt <=? v) && (v <=? MaxInt) then Some v else None
    end
  end.

(** The digits of a natural number, least significant first in [acc]. *)
Fixpoint digitsOnto (fuel : nat) (n : Z) (acc : string) : string :=
  match fuel with
  | O => acc
  | S fuel' =>
    let acc' := String (zbyte (48 + n mod 10)) acc in
    if n <? 10 then acc' else digitsOnto fuel' (n / 10) acc'
  end.

(** [strconv.Itoa], which is also what the verb [%d] of package [fmt]
    prints. *)
Definition Itoa (n : Z) : string :=
  if n <? 0 then String "-"%char (digitsOnto 20 (- n) EmptyString)
  else digitsOnto 20 n EmptyString.

End strconv.

(** ** Package [path/filepath], on a system whose separator is [/] *)
Module filepath.

Definition Separator : string := "/".

Definition dot : string := ".".
Definition dotdot : string := "..".

(** One step of [Clean] over a path element.  [out] holds the elements
    written so far, last first; [dd] counts the leading [..] elements, which
    a later [..] cannot remove. *)
Definition cleanStep (rooted : bool) (st : list string * nat) (e : string)
  : list string * nat :=
  let '(out, dd) := st in
  if String.eqb e EmptyString || String.eqb e dot then (out, dd)
  else if String.eqb e dotdot then
    if (dd <? List.length out)%nat then (tl out, dd)
    else if rooted then (out, dd)
    else (dotdot :: out, S dd)
  else (e :: out, dd).

(** [filepath.Clean]: empty and [.] elements are dropped, an inner [..]
    removes the element before it, a rooted path drops a leading [..], and
    the empty result is [.]. *)
Definition Clean (path : string) : string :=
  match path with
  | EmptyString => dot
  | String c _ =>
    let rooted := Ascii.eqb c "/"%char in
    let '(out, _) :=
      fold_left (cleanStep rooted) (strings.splitByte "/"%char path) ([], O) in
    let body := strings.Join (rev out) Separator in
    if rooted then Separator ++ body
    else match body with EmptyString => dot | _ => body end
  end.

(** [filepath.Join]: the elements from the first non-empty one on, joined
    by the separator and cleaned; the empty string when all are empty. *)
Fixpoint Join (elem : list string) : string :=
  match elem with
  | [] => EmptyString
  | EmptyString :: r => Join r
  | _ => Clean (strings.Join elem Separator)
  end.

(** [filepath.IsAbs]. *)
Definition IsAbs (path : string) : bool := strings.HasPrefix path Separator.

End filepath.


(** The newline, Go's ["\n"]. *)
Definition nl : string := String "010"%char EmptyString.

(** The double quote. *)
Definition dquote : string := String "034"%char EmptyString.

(** ** Go's [int] *)

(** Two's-complement wrap-around of 64-bit [int] arithmetic. *)
Definition wrap (z : Z) : Z := (z + 2 ^ 63) mod 2 ^ 64 - 2 ^ 63.
Definition intAdd (a b : Z) : Z := wrap (a + b).
Definition intSub (a b : Z) : Z := wrap (a - b).
Definition intMul (a b : Z) : Z := wrap (a * b).
(** [a / b] truncates toward zero. *)
Definition intDiv (a b : Z) : Z := wrap (Z.quot a b).

(** ** The world outside the process *)

(** A Go [error]: what [os.IsNotExist] answers on it and its message. *)
Record goerror : Type := mkError { IsNotExist : bool; Message : string }.

(** A value or an error, for Go's [(T, error)] results. *)
Inductive result (A : Type) : Type :=
| Ok (a : A)
| Err (e : goerror).
Arguments Ok {A} a.
Arguments Err {A} e.

(** [os.DirEntry], as far as the program reads it. *)
Record DirEntry : Type := mkDirEntry { Name : string; IsDir : bool }.

(** [exec.Cmd]: the program, its arguments and the directory it runs in
    (empty: the caller's). *)
Record Cmd : Type := mkCmd { cmdName : string; cmdArgs : list string; cmdDir : string }.

(** The operating system, as the program observes it.  [FS] is the state of
    everything outside the process (files, environment, installed tools);
    the answers may depend on the working directory [cwd], and the calls
    that change that state return the new one.  Nothing is assumed of the
    answers. *)
Class OS (FS : Type) : Type := {
  sys_Getwd_err : FS -> string -> option goerror;
  sys_UserHomeDir : FS -> result string;
  (** [os.Stat]: [Ok d] when the path exists, [d] telling a directory *)
  sys_Stat : FS -> string -> string -> result bool;
  sys_ReadFile : FS -> string -> string -> result string;
  (** [os.ReadDir]: the entries in directory order *)
  sys_ReadDir : FS -> string -> string -> result (list DirEntry);
  sys_MkdirAll : FS -> string -> string -> option goerror * FS;
  sys_WriteFile : FS -> string -> string -> string -> option goerror * FS;
  sys_Chdir_err : FS -> string -> string -> option goerror;
  (** [exec.LookPath]: whether [err == nil] *)
  sys_LookPath : FS -> string -> string -> bool;
  (** [Run] of [exec.Cmd] *)
  sys_Run : FS -> string -> Cmd -> option goerror * FS;
  (** [user.Current]: the user name when [err == nil && currentUser != nil] *)
  sys_CurrentUser : FS -> option string;
  (** [time.Now().Format("2006-01-02")] *)
  sys_Today : FS -> string
}.

(** What the process did to the world, in order. *)
Inductive Event : Type :=
| EvMkdirAll (path : string) (ok : bool)
| EvWriteFile (path data : string) (ok : bool)
| EvChdir (path : string) (ok : bool)
| EvRun (c : Cmd) (ok : bool)
| EvSleep (seconds : Z).

(** The state a run threads: the outside world, the working directory, what
    reading standard input will deliver (one element per successful read of
    the descriptor; a terminal delivers a line at a time), what was printed
    and what was done. *)
Record World (FS : Type) : Type := mkWorld {
  fs : FS;
  cwd : string;
  stdin : list string;
  stdout : list string;
  events : list Event
}.
Arguments mkWorld {FS} _ _ _ _ _.
Arguments fs {FS} _.
Arguments cwd {FS} _.
Arguments stdin {FS} _.
Arguments stdout {FS} _.
Arguments events {FS} _.

(** How a computation ends: it returns, the process exits ([os.Exit], which
    runs no deferred call), it panics (an index out of range), or the
    model's fuel ran out. *)
Inductive Outcome (A : Type) : Type :=
| Returned (a : A)
| Exited (code : Z)
| Panicked
| OutOfFuel.
Arguments Returned {A} a.
Arguments Exited {A} code.
Arguments Panicked {A}.
Arguments OutOfFuel {A}.

Definition Prog (FS A : Type) : Type := World FS -> Outcome A * World FS.

(** One pass through the body of a [for] loop: [continue] with the next
    state, or leave the loop with a result. *)
Inductive LoopStep (S R : Type) : Type :=
| Continue (s : S)
| Break (r : R).
Arguments Continue {S R} s.
Arguments Break {S R} r.

Section Monad.
Context {FS : Type}.

Definition ret {A} (a : A) : Prog FS A := fun w => (Returned a, w).

Definition bind {A B} (m : Prog FS A) (k : A -> Prog FS B) : Prog FS B :=
  fun w =>
    match m w with
    | (Returned a, w') => k a w'
    | (Exited c, w') => (Exited c, w')
    | (Panicked, w') => (Panicked, w')
    | (OutOfFuel, w') => (OutOfFuel, w')
    end.

(** [os.Exit(code)]. *)
Definition os_Exit {A} (code : Z) : Prog FS A := fun w => (Exited code, w).

Definition diverge {A} : Prog FS A := fun w => (OutOfFuel, w).

Definition panic {A} : Prog FS A := fun w => (Panicked, w).

Definition getWorld : Prog FS (World FS) := fun w => (Returned w, w).

(** [fmt.Print(s)]. *)
Definition Print (s : string) : Prog FS unit :=
  fun w => (Returned tt, mkWorld (fs w) (cwd w) (stdin w) (stdout w ++ [s])%list (events w)).

(** [fmt.Println(s)]. *)
Definition Println (s : string) : Prog FS unit := Print (s ++ nl).

Definition logEvent (e : Event) : Prog FS unit :=
  fun w => (Returned tt, mkWorld (fs w) (cwd w) (stdin w) (stdout w) (events w ++ [e])%list).

(** [time.Sleep(n * time.Second)]. *)
Definition time_Sleep (seconds : Z) : Prog FS unit := logEvent (EvSleep seconds).

(** [defer f] around the rest of a function body: [f] runs when the body
    returns or panics, and does not run when the process exits inside the
    body ([os.Exit] terminates the program at once). *)
Definition defer {A} (f : Prog FS unit) (body : Prog FS A) : Prog FS A :=
  fun w =>
    match body w with
    | (Returned a, w') =>
      match f w' with
      | (Returned _, w'') => (Returned a, w'')
      | (Exited c, w'') => (Exited c, w'')
      | (Panicked, w'') => (Panicked, w'')
      | (OutOfFuel, w'') => (OutOfFuel, w'')
      end
    | (Exited c, w') => (Exited c, w')
    | (Panicked, w') =>
      match f w' with
      | (Exited c, w'') => (Exited c, w'')
      | (OutOfFuel, w'') => (OutOfFuel, w'')
      | (_, w'') => (Panicked, w'')
      end
    | (OutOfFuel, w') => (OutOfFuel, w')
    end.

(** [for { body }], at most [fuel] passes. *)
Fixpoint forLoop {S R} (fuel : nat) (body : S -> Prog FS (LoopStep S R)) (s : S)
  : Prog FS R :=
  match fuel with
  | O => diverge
  | S fuel' =>
    fun w =>
      match body s w with
      | (Returned (Continue s'), w') => forLoop fuel' body s' w'
      | (Returned (Break r), w') => (Returned r, w')
      | (Exited c, w') => (Exited c, w')
      | (Panicked, w') => (Panicked, w')
      | (OutOfFuel, w') => (OutOfFuel, w')
      end
  end.

End Monad.

Declare Scope prog_scope.
Delimit Scope prog_scope with prog.
Notation "x <- m ;; k" := (bind m (fun x => k))
  (at level 61, m at next level, right associativity) : prog_scope.
Notation "' p <- m ;; k" := (bind m (fun x => let p := x in k))
  (at level 61, p pattern, m at next level, right associativity) : prog_scope.
Notation "m ;; k" := (bind m (fun _ => k))
  (at level 61, right associativity) : prog_scope.
Local Open Scope prog_scope.

(** ** Standard input through [bufio.Reader] *)
Section Stdin.
Context {FS : Type}.

(** [s] up to and including its first newline, and the rest; [None] when
    [s] holds no newline. *)
Fixpoint cutLine (s : string) : option (string * string) :=
  match s with
  | EmptyString => None
  | String c t =>
    if Ascii.eqb c "010"%char then Some (String c EmptyString, t)
    else match cutLine t with
         | Some (l, r) => Some (String c l, r)
         | None => None
         end
  end.

(** The loop of [ReadString]: more input is read until the buffer holds a
    newline; at the end of input the error is [io.EOF]. *)
Fixpoint fillLine (buf : string) (input : list string) {struct input}
  : result string * string * list string :=
  match cutLine buf with
  | Some (l, r) => (Ok l, r, input)
  | None =>
    match input with
    | [] => (Err (mkError false "EOF"), EmptyString, [])
    | chunk :: input' => fillLine (buf ++ chunk) input'
    end
  end.

(** [bufio.NewReader(os.Stdin)]: a reader is its buffer, empty at first.
    What an earlier reader had buffered stays with that reader. *)
Definition bufio_NewReader : string := EmptyString.

(** [reader.ReadString('\n')]: the line with its newline, and the reader
    after the call. *)
Definition ReadString (reader : string) : Prog FS (result string * string) :=
  fun w =>
    let '(r, buf, input) := fillLine reader (stdin w) in
    (Returned (r, buf), mkWorld (fs w) (cwd w) input (stdout w) (events w)).

End Stdin.

(** ** Package [cmd]: the program *)
Module cmd.

(** *** config.go *)

(** [ProjectConfig]: the configuration of one project. *)
Record ProjectConfig : Type := mkProjectConfig {
  pc_ProjectName : string;
  pc_CompanyName : string;
  pc_UserName : string;
  pc_UserEmail : string
}.

(** [UserConfig]: the configuration of the user. *)
Record UserConfig : Type := mkUserConfig {
  uc_CompanyName : string;
  uc_UserName : string;
  uc_UserEmail : string
}.

(** [TemplateData]: what a script template is rendered with. *)
Record TemplateData : Type := mkTemplateData {
  Project : string;
  ProjectName : string;
  Description : string;
  Date : string;
  CompanyName : string;
  UserName : string;
  UserEmail : string;
  ScriptName : string;
  ScriptId : string;
  ScriptPath : string;
  DeploymentId : string;
  RecordType : string
}.

(** The library calls whose results the program only passes on, and the
    files embedded in the binary, which are not part of the sources at
    hand: JSON coding of the two configuration records, the embedded
    template files, and [text/template]. *)
Class Lib : Type := {
  json_Unmarshal_ProjectConfig : string -> result ProjectConfig;
  json_Unmarshal_UserConfig : string -> result UserConfig;
  json_MarshalIndent_ProjectConfig : ProjectConfig -> result string;
  json_MarshalIndent_UserConfig : UserConfig -> result string;
  (** [templateFS.ReadFile] and [initTemplateFS.ReadFile] *)
  templateFS_ReadFile : string -> result string;
  initTemplateFS_ReadFile : string -> result string;
  (** [template.New(name).Parse(text)]: its error, if any *)
  template_Parse : string -> option goerror;
  (** [tmpl.Execute(&buf, data)] of a parsed text: the bytes of [buf] *)
  template_Execute : string -> TemplateData -> result string;
  template_Execute_map : string -> list (string * string) -> result string
}.

Section Program.
Context {U : UnicodeTables} {L : Lib} {FS : Type} {os : OS FS}.

(** [fmt.Errorf(format, err)] with the verb [%v]: a new error with the
    message extended; [os.IsNotExist] does not hold of it. *)
Definition Errorf (prefix : string) (err : goerror) : goerror :=
  mkError false (prefix ++ Message err).

(** [os.Getwd]. *)
Definition os_Getwd : Prog FS (result string) :=
  fun w =>
    match sys_Getwd_err (fs w) (cwd w) with
    | Some e => (Returned (Err e), w)
    | None => (Returned (Ok (cwd w)), w)
    end.

Definition os_UserHomeDir : Prog FS (result string) :=
  fun w => (Returned (sys_UserHomeDir (fs w)), w).

Definition os_Stat (path : string) : Prog FS (result bool) :=
  fun w => (Returned (sys_Stat (fs w) (cwd w) path), w).

Definition os_ReadFile (path : string) : Prog FS (result string) :=
  fun w => (Returned (sys_ReadFile (fs w) (cwd w) path), w).

Definition os_ReadDir (path : string) : Prog FS (result (list DirEntry)) :=
  fun w => (Returned (sys_ReadDir (fs w) (cwd w) path), w).

Definition isNone {A} (o : option A) : bool :=
  match o with None => true | Some _ => false end.

Definition os_MkdirAll (path : string) : Prog FS (option goerror) :=
  fun w =>
    let '(e, fs') := sys_MkdirAll (fs w) (cwd w) path in
    (Returned e,
     mkWorld fs' (cwd w) (stdin w) (stdout w)
             (events w ++ [EvMkdirAll path (isNone e)])%list).

Definition os_WriteFile (path data : string) : Prog FS (option goerror) :=
  fun w =>
    let '(e, fs') := sys_WriteFile (fs w) (cwd w) path data in
    (Returned e,
     mkWorld fs' (cwd w) (stdin w) (stdout w)
             (events w ++ [EvWriteFile path data (isNone e)])%list).

(** [os.Chdir]: on success the working directory is the path, taken from
    the old working directory when it is relative. *)
Definition os_Chdir (path : string) : Prog FS (option goerror) :=
  fun w =>
    let e := sys_Chdir_err (fs w) (cwd w) path in
    let cwd' :=
      match e with
      | Some _ => cwd w
      | None => if filepath.IsAbs path then path else filepath.Join [cwd w; path]
      end in
    (Returned e,
     mkWorld (fs w) cwd' (stdin w) (stdout w)
             (events w ++ [EvChdir path (isNone e)])%list).

Definition exec_LookPath (file : string) : Prog FS bool :=
  fun w => (Returned (sys_LookPath (fs w) (cwd w) file), w).

Definition exec_Run (c : Cmd) : Prog FS (option goerror) :=
  fun w =>
    let '(e, fs') := sys_Run (fs w) (cwd w) c in
    (Returned e,
     mkWorld fs' (cwd w) (stdin w) (stdout w)
             (events w ++ [EvRun c (isNone e)])%list).

Definition user_Current : Prog FS (option string) :=
  fun w => (Returned (sys_CurrentUser (fs w)), w).

Definition time_Today : Prog FS string :=
  fun w => (Returned (sys_Today (fs w)), w).

(** [LoadConfig] reads the project configuration from the [.netsuite-cli]
    file in the current directory. *)
Definition LoadConfig : Prog FS (result ProjectConfig) :=
  r <- os_Getwd ;;
  match r with
  | Err err => ret (Err (Errorf "error getting current directory: " err))
  | Ok cwd_ =>
    let configPath := filepath.Join [cwd_; ".netsuite-cli"] in
    st <- os_Stat configPath ;;
    if match st with Err err => IsNotExist err | Ok _ => false end
    then ret (Err (mkError false ".netsuite-cli file not found. Please run 'create' first"))
    else
      rd <- os_ReadFile configPath ;;
      match rd with
      | Err err => ret (Err (Errorf "error reading config file: " err))
      | Ok data =>
        match json_Unmarshal_ProjectConfig data with
        | Err err => ret (Err (Errorf "error parsing config file: " err))
        | Ok config => ret (Ok config)
        end
      end
  end.

(** [SaveConfig] writes the project configuration to the [.netsuite-cli]
    file in the given directory. *)
Definition SaveConfig (dir : string) (config : ProjectConfig) : Prog FS (option goerror) :=
  let configPath := filepath.Join [dir; ".netsuite-cli"] in
  match json_MarshalIndent_ProjectConfig config with
  | Err err => ret (Some (Errorf "error marshaling config: " err))
  | Ok data =>
    e <- os_WriteFile configPath data ;;
    match e with
    | Some err => ret (Some (Errorf "error writing config file: " err))
    | None => ret None
    end
  end.

(** [LoadUserConfig] reads the user configuration from the [.netsuite-cli]
    file in the home directory; [Ok None] is Go's [(nil, nil)]. *)
Definition LoadUserConfig : Prog FS (result (option UserConfig)) :=
  r <- os_UserHomeDir ;;
  match r with
  | Err err => ret (Err (Errorf "error getting home directory: " err))
  | Ok homeDir =>
    let configPath := filepath.Join [homeDir; ".netsuite-cli"] in
    st <- os_Stat configPath ;;
    if match st with Err err => IsNotExist err | Ok _ => false end
    then ret (Ok None)
    else
      rd <- os_ReadFile configPath ;;
      match rd with
      | Err err => ret (Err (Errorf "error reading config file: " err))
      | Ok data =>
        match json_Unmarshal_UserConfig data with
        | Err err => ret (Err (Errorf "error parsing config file: " err))
        | Ok config => ret (Ok (Some config))
        end
      end
  end.

(** [SaveUserConfig] writes the user configuration to the [.netsuite-cli]
    file in the home directory. *)
Definition SaveUserConfig (config : UserConfig) : Prog FS (option goerror) :=
  r <- os_UserHomeDir ;;
  match r with
  | Err err => ret (Some (Errorf "error getting home directory: " err))
  | Ok homeDir =>
    let configPath := filepath.Join [homeDir; ".netsuite-cli"] in
    match json_MarshalIndent_UserConfig config with
    | Err err => ret (Some (Errorf "error marshaling config: " err))
    | Ok data =>
      e <- os_WriteFile configPath data ;;
      match e with
      | Some err => ret (Some (Errorf "error writing config file: " err))
      | None => ret None
      end
    end
  end.

(** [GetCompanyPrefix] generates a 3-letter prefix from the company name. *)
Definition GetCompanyPrefix (companyName : string) : string :=
  let companyName := strings.TrimSpace companyName in
  if len companyName =? 0 then "com"
  else
    let prefix := strings.ToLower companyName in
    if len prefix >? 3 then take 3 prefix else prefix.

(** *** add.go *)

Definition scriptTypeConfigs : list (string * string) :=
  [ ("bundle", "Bundle scripts can be of type customization or configuration, allowing you to group related scripts together");
    ("client", "Client scripts are executed by predefined event triggers in the client browser, enabling you to customize the user interface");
    ("formclient", "Form Client scripts are attached to forms, allowing you to add custom logic and functionality to form submissions");
    ("mapreduce", "Map/Reduce scripts are designed to handle large amounts of data, making them ideal for data processing and analysis tasks");
    ("massupdate", "Mass update scripts allow you to programmatically perform custom updates to fields that are not available through general mass updates");
    ("portlet", "Portlet scripts are run on the server and are rendered in the NetSuite dashboard, providing a way to customize the dashboard with custom functionality");
    ("restlet", "RESTlet is a SuiteScript that you make available for other applications to call, enabling integration with external services and systems");
    ("scheduled", "Scheduled scripts are executed (processed) with SuiteCloud Processors, allowing you to automate tasks and processes at specific times or intervals");
    ("suitelet", "Suitelets are extensions of the SuiteScript API that allow you to build custom NetSuite pages and backend logic");
    ("userevent", "User event scripts are executed when users perform actions on records, such as create, load, update, copy, delete, or submit, enabling you to automate tasks");
    ("workflowaction", "Workflow action scripts are good for custom logic or managing sublist fields which are not currently available");
    ("common", "Holds TypeScript definitions for your scripts, providing a way to define the structure and types of your code") ].

(** [ScriptTemplates] holds the content for TypeScript and XML templates. *)
Record ScriptTemplates : Type := mkScriptTemplates { TypeScript : string; XML : string }.

(** A Go map with string keys, read only. *)
Fixpoint mapLookup (m : list (string * string)) (k : string) : option string :=
  match m with
  | [] => None
  | (k', v) :: r => if String.eqb k k' then Some v else mapLookup r k
  end.

Definition recordTypeMap : list (string * string) :=
  [ ("client", "clientscript");
    ("mapreduce", "mapreducescript");
    ("massupdate", "massupdatescript");
    ("portlet", "portlet");
    ("restlet", "restlet");
    ("scheduled", "scheduledscript");
    ("suitelet", "suitelet");
    ("userevent", "usereventscript");
    ("workflowaction", "workflowactionscript") ].

(** [getRecordType] maps a script type to its NetSuite record type. *)
Definition getRecordType (scriptType : string) : string :=
  match mapLookup recordTypeMap scriptType with
  | Some recordType => recordType
  | None => ""
  end.

(** The last byte of a string. *)
Fixpoint lastByte (s : string) : option ascii :=
  match s with
  | EmptyString => None
  | String c EmptyString => Some c
  | String _ t => lastByte t
  end.

(** The state of the loop of [toSnakeCase]: the builder, [prevLower], and
    the index [i]. *)
Definition snakeStep (st : string * bool * Z) (r : Z) : string * bool * Z :=
  let '(result, prevLower, i) := st in
  if unicode.IsUpper r then
    let result := if (i >? 0) && prevLower then result ++ "_" else result in
    (result ++ utf8.EncodeRune (unicode.ToLower r), false, i + 1)
  else if unicode.IsLower r || unicode.IsDigit r then
    (result ++ utf8.EncodeRune r, true, i + 1)
  else
    let result :=
      if (i >? 0) && (len result >? 0)
         && negb (match lastByte result with
                  | Some c => Ascii.eqb c "_"%char
                  | None => false
                  end)
      then result ++ "_" else result in
    (result, false, i + 1).

(** [regexp.MustCompile(`_+`).ReplaceAllString(s, "_")]. *)
Fixpoint collapseUnderscores (s : string) : string :=
  match s with
  | EmptyString => EmptyString
  | String c t =>
    if Ascii.eqb c "_"%char && strings.HasPrefix t "_"
    then collapseUnderscores t
    else String c (collapseUnderscores t)
  end.

(** [toSnakeCase] converts a string to snake_case. *)
Definition toSnakeCase (s : string) : string :=
  if String.eqb s "" then ""
  else
    let runes := utf8.runes s in
    let '(result, _, _) := fold_left snakeStep runes (EmptyString, false, 0) in
    let snake := collapseUnderscores result in
    let snake := strings.Trim snake "_" in
    strings.ToLower snake.

(** [GetTemplates] retrieves the TypeScript and XML templates for a script
    type. *)
Definition GetTemplates (scriptType : string) : Prog FS ScriptTemplates :=
  let tsPath := "templates/" ++ scriptType ++ ".ts.tmpl" in
  let xmlPath := "templates/" ++ scriptType ++ ".xml.tmpl" in
  tsContent <-
    match templateFS_ReadFile tsPath with
    | Err err =>
      Print ("Warning: Could not read TypeScript template for " ++ scriptType
             ++ ": " ++ Message err ++ nl) ;;
      ret ""
    | Ok c => ret c
    end ;;
  xmlContent <-
    match templateFS_ReadFile xmlPath with
    | Err err =>
      Print ("Warning: Could not read XML template for " ++ scriptType
             ++ ": " ++ Message err ++ nl) ;;
      ret ""
    | Ok c => ret c
    end ;;
  ret (mkScriptTemplates tsContent xmlContent).

(** [renderAndWrite] renders a template with data and writes it to the
    path. *)
Definition renderAndWrite (path tmplStr : string) (data : TemplateData) : Prog FS unit :=
  match template_Parse tmplStr with
  | Some err => Print ("Error parsing template: " ++ Message err ++ nl) ;; os_Exit 1
  | None =>
    match template_Execute tmplStr data with
    | Err err => Print ("Error executing template: " ++ Message err ++ nl) ;; os_Exit 1
    | Ok buf =>
      e <- os_WriteFile path buf ;;
      match e with
      | Some err =>
        Print ("Error writing file " ++ path ++ ": " ++ Message err ++ nl) ;; os_Exit 1
      | None => ret tt
      end
    end
  end.

(** The loop [for _, path := range possiblePaths] of the two directory
    finders: the first path that is an existing directory. *)
Fixpoint firstExistingDir (possiblePaths : list string) : Prog FS (option string) :=
  match possiblePaths with
  | [] => ret None
  | path :: rest =>
    st <- os_Stat path ;;
    match st with
    | Ok true => ret (Some path)
    | _ => firstExistingDir rest
    end
  end.

Definition statOk (st : result bool) : bool :=
  match st with Ok _ => true | Err _ => false end.

(** [findSuiteScriptsDir] locates the SuiteScripts directory in the
    project. *)
Definition findSuiteScriptsDir : Prog FS (result string) :=
  let possiblePaths :=
    ["src/FileCabinet/SuiteScripts"; "src/SuiteScripts"; "SuiteScripts"] in
  found <- firstExistingDir possiblePaths ;;
  match found with
  | Some path => ret (Ok path)
  | None =>
    st1 <- os_Stat "src/FileCabinet" ;;
    basePath <-
      (if statOk st1 then ret "src/FileCabinet/SuiteScripts"
       else
         st2 <- os_Stat "src" ;;
         if statOk st2 then ret "src/SuiteScripts" else ret "SuiteScripts") ;;
    e <- os_MkdirAll basePath ;;
    match e with
    | Some err => ret (Err (Errorf "failed to create SuiteScripts directory: " err))
    | None => ret (Ok basePath)
    end
  end.

(** [findObjectsDir] locates the Objects directory in the project. *)
Definition findObjectsDir : Prog FS (result string) :=
  let possiblePaths := ["src/Objects"; "Objects"] in
  found <- firstExistingDir possiblePaths ;;
  match found with
  | Some path => ret (Ok path)
  | None =>
    st <- os_Stat "src" ;;
    let basePath := if statOk st then "src/Objects" else "Objects" in
    e <- os_MkdirAll basePath ;;
    match e with
    | Some err => ret (Err (Errorf "failed to create Objects directory: " err))
    | None => ret (Ok basePath)
    end
  end.

(** [FolderOption] represents a folder selection option in the interactive
    menu. *)
Record FolderOption : Type := mkFolderOption {
  Path : string;
  Display : string;
  FullPath : string
}.

(** The option [findAllFolders] appends for the directory entry [name] met
    under [relativePath], and the relative path of that entry. *)
Definition entryRelativePath (relativePath name : string) : string :=
  if negb (String.eqb relativePath "") then filepath.Join [relativePath; name] else name.

Definition folderOption (fullPath relativePath name : string) : FolderOption :=
  let entryRelativePath := entryRelativePath relativePath name in
  let netSuitePath := strings.ReplaceAll entryRelativePath filepath.Separator "/" in
  let depth := strings.Count entryRelativePath filepath.Separator in
  let indent := strings.Repeat "  " depth in
  let displayName := indent ++ name in
  let displayName :=
    if depth >? 0 then displayName ++ " (" ++ netSuitePath ++ ")" else displayName in
  mkFolderOption netSuitePath displayName (filepath.Join [fullPath; name]).

(** [findAllFolders] recursively finds all directories starting from
    [baseDir].  The fuel bounds the depth of the recursion; [None] when it
    runs out. *)
Fixpoint findAllFolders (fuel : nat) (fs_ : FS) (cwd_ : string)
         (baseDir relativePath : string) : option (list FolderOption) :=
  match fuel with
  | O => None
  | S fuel' =>
    let fullPath :=
      if negb (String.eqb relativePath "") then filepath.Join [baseDir; relativePath]
      else baseDir in
    match sys_ReadDir fs_ cwd_ fullPath with
    | Err _ => Some []
    | Ok entries =>
      (fix range (entries : list DirEntry) (folders : list FolderOption)
         : option (list FolderOption) :=
         match entries with
         | [] => Some folders
         | entry :: rest =>
           if IsDir entry then
             let folders :=
               (folders ++ [folderOption fullPath relativePath (Name entry)])%list in
             match findAllFolders fuel' fs_ cwd_ baseDir
                                  (entryRelativePath relativePath (Name entry)) with
             | None => None
             | Some subfolders => range rest (folders ++ subfolders)%list
             end
           else range rest folders
         end) entries []
    end
  end.

Definition pageSize : Z := 20.

Definition lenL {A} (l : list A) : Z := Z.of_nat (List.length l).

(** [l[i]]: out of range is a panic. *)
Definition index {A} (l : list A) (i : Z) : option A :=
  if i <? 0 then None else nth_error l (Z.to_nat i).

(** [for i := start; i < end; i++ { fmt.Printf("  %d. %s\n", i+1, folders[i].Display) }],
    the fuel being [end - start]. *)
Fixpoint printEntries (n : nat) (folders : list FolderOption) (i : Z) : Prog FS unit :=
  match n with
  | O => ret tt
  | S n' =>
    match index folders i with
    | None => panic
    | Some f =>
      Print ("  " ++ strconv.Itoa (intAdd i 1) ++ ". " ++ Display f ++ nl) ;;
      printEntries n' folders (intAdd i 1)
    end
  end.

(** What one pass of the menu loop writes before it reads. *)
Definition menuDisplay (folders : list FolderOption) (totalPages currentPage : Z)
  : Prog FS unit :=
  Print nl ;;
  Println "Available folders under SuiteScripts:" ;;
  Println "  0. SuiteScripts (root)" ;;
  Println (strings.Repeat "-" 60) ;;
  let start := intMul currentPage pageSize in
  let end_ := intAdd start pageSize in
  let end_ := if end_ >? lenL folders then lenL folders else end_ in
  printEntries (Z.to_nat (end_ - start)) folders start ;;
  (if totalPages >? 1 then
     Print (nl ++ "Page " ++ strconv.Itoa (intAdd currentPage 1) ++ " of "
            ++ strconv.Itoa totalPages) ;;
     (if currentPage >? 0 then Print " (p: previous page" else ret tt) ;;
     (if currentPage <? intSub totalPages 1 then
        if currentPage >? 0 then Print ", n: next page" else Print " (n: next page"
      else ret tt) ;;
     (if (currentPage >? 0) || (currentPage <? intSub totalPages 1)
      then Print ")" else ret tt)
   else ret tt) ;;
  Print (nl ++ "Select folder (0 for root, number to select") ;;
  (if totalPages >? 1 then Print ", 'n' for next page, 'p' for previous page"
   else ret tt) ;;
  Print "): ".

(** The body of the loop of [displayScrollableMenu]; the loop state is the
    reader and [currentPage]. *)
Definition menuBody (folders : list FolderOption) (scriptPathPrefix : string)
           (totalPages : Z) (st : string * Z)
  : Prog FS (LoopStep (string * Z) (string * string)) :=
  let '(reader, currentPage) := st in
  menuDisplay folders totalPages currentPage ;;
  rd <- ReadString reader ;;
  let '(r, reader) := rd in
  match r with
  | Err err => Print ("Error reading selection: " ++ Message err ++ nl) ;; os_Exit 1
  | Ok input =>
    let input := strings.TrimSpace (strings.ToLower input) in
    if (totalPages >? 1) && String.eqb input "n" && (currentPage <? intSub totalPages 1)
    then ret (Continue (reader, intAdd currentPage 1))
    else if (totalPages >? 1) && String.eqb input "p" && (currentPage >? 0)
    then ret (Continue (reader, intSub currentPage 1))
    else
      match strconv.Atoi input with
      | None =>
        Print "Invalid selection. Please enter a number" ;;
        (if totalPages >? 1 then Print " or 'n'/'p' for navigation" else ret tt) ;;
        Println "" ;;
        time_Sleep 1 ;;
        ret (Continue (reader, currentPage))
      | Some selection =>
        if selection =? 0 then ret (Break ("", scriptPathPrefix))
        else if (selection <? 1) || (selection >? lenL folders) then
          Print ("Invalid selection. Please choose between 0 and "
                 ++ strconv.Itoa (lenL folders) ++ nl) ;;
          time_Sleep 1 ;;
          ret (Continue (reader, currentPage))
        else
          match index folders (intSub selection 1) with
          | None => panic
          | Some f => ret (Break (Path f, scriptPathPrefix))
          end
      end
  end.

(** [totalPages := (len(folders) + pageSize - 1) / pageSize]. *)
Definition totalPagesOf (folders : list FolderOption) : Z :=
  intDiv (intSub (intAdd (lenL folders) pageSize) 1) pageSize.

(** The bytes standard input still holds. *)
Definition pending (input : list string) : nat :=
  fold_right (fun chunk n => (String.length chunk + n)%nat) O input.

(** [displayScrollableMenu] shows a scrollable menu of folder options to
    the user.  Every pass of the loop that continues has consumed a line,
    so the bytes still to be read bound the number of passes. *)
Definition displayScrollableMenu (folders : list FolderOption) (scriptPathPrefix : string)
  : Prog FS (string * string) :=
  let reader := bufio_NewReader in
  let currentPage := 0 in
  let totalPages := totalPagesOf folders in
  fun w =>
    forLoop (S (pending (stdin w))) (menuBody folders scriptPathPrefix totalPages)
            (reader, currentPage) w.

(** [selectScriptFolder] allows the user to interactively select a folder
    for the script. *)
Definition selectScriptFolder (depth : nat) (suiteScriptsDir : string)
  : Prog FS (string * string) :=
  w <- getWorld ;;
  match findAllFolders depth (fs w) (cwd w) suiteScriptsDir "" with
  | None => diverge
  | Some folders =>
    let scriptPathPrefix := "SuiteScripts/" in
    if lenL folders =? 0 then
      let reader := bufio_NewReader in
      Print (nl ++ "No folders found under SuiteScripts. Place script in SuiteScripts root? (y/n): ") ;;
      rd <- ReadString reader ;;
      let '(r, reader) := rd in
      match r with
      | Err err => Print ("Error reading response: " ++ Message err ++ nl) ;; os_Exit 1
      | Ok response =>
        let response := strings.TrimSpace (strings.ToLower response) in
        if negb (String.eqb response "y") && negb (String.eqb response "yes") then
          Println "Cancelled. Script not created." ;;
          os_Exit 0
        else ret ("", scriptPathPrefix)
      end
    else displayScrollableMenu folders scriptPathPrefix
  end.

(** [scriptId := strings.ReplaceAll(strings.ToLower(scriptName), " ", "_")]. *)
Definition scriptIdOf (scriptName : string) : string :=
  strings.ReplaceAll (strings.ToLower scriptName) " " "_".

(** [deploymentId := "customdeploy_" + scriptId]. *)
Definition deploymentIdOf (scriptId : string) : string := "customdeploy_" ++ scriptId.

(** [runAdd] executes the logic for adding a new script.  [depth] is the
    fuel of the folder search. *)
Definition runAdd (depth : nat) (scriptType : string) (args : list string) : Prog FS unit :=
  lc <- LoadConfig ;;
  match lc with
  | Err err =>
    Print ("Error: " ++ Message err ++ nl) ;;
    Println "Not a project folder. Please run 'netsuite-cli create'" ;;
    os_Exit 1
  | Ok config =>
    let scriptName := match args with a :: _ => a | [] => "" end in
    let projectName := pc_ProjectName config in
    let defaultScriptName := toSnakeCase projectName in
    scriptName <-
      (if String.eqb scriptName "" then
         let reader := bufio_NewReader in
         Print "Enter script name" ;;
         (if negb (String.eqb defaultScriptName "")
          then Print (" (default: " ++ defaultScriptName ++ ")") else ret tt) ;;
         Print ": " ;;
         rd <- ReadString reader ;;
         let '(r, reader) := rd in
         match r with
         | Err err => Print ("Error reading script name: " ++ Message err ++ nl) ;; os_Exit 1
         | Ok line =>
           let scriptName := strings.TrimSpace line in
           ret (if String.eqb scriptName "" then defaultScriptName else scriptName)
         end
       else ret scriptName) ;;
    if String.eqb scriptName "" then
      Println "Error: Script name is required" ;; os_Exit 1
    else
    let companyName := pc_CompanyName config in
    let userName := pc_UserName config in
    let userEmail := pc_UserEmail config in
    let reader := bufio_NewReader in
    let defaultDescription := scriptName ++ " description" in
    Print "Enter script description" ;;
    (if negb (String.eqb defaultDescription "")
     then Print (" (default: " ++ defaultDescription ++ ")") else ret tt) ;;
    Print ": " ;;
    rd <- ReadString reader ;;
    let '(r, reader) := rd in
    match r with
    | Err err => Print ("Error reading description: " ++ Message err ++ nl) ;; os_Exit 1
    | Ok description =>
    let description := strings.TrimSpace description in
    let description := if String.eqb description "" then defaultDescription else description in
    recordType <-
      (if String.eqb scriptType "userevent" || String.eqb scriptType "workflowaction" then
         Print "Enter record type (e.g., CUSTOMER, SALESORDER, INVOICE): " ;;
         rd <- ReadString reader ;;
         let '(r, reader) := rd in
         match r with
         | Err err => Print ("Error reading record type: " ++ Message err ++ nl) ;; os_Exit 1
         | Ok recordTypeInput =>
           let recordType := strings.TrimSpace recordTypeInput in
           if String.eqb recordType "" then
             Println ("Error: Record type is required for " ++ scriptType ++ " scripts") ;;
             os_Exit 1
           else ret recordType
         end
       else ret "") ;;
    let scriptId := scriptIdOf scriptName in
    let deploymentId := deploymentIdOf scriptId in
    let companyPrefix := GetCompanyPrefix companyName in
    let prefixedFileName := companyPrefix ++ "_" ++ scriptName in
    let tsFileNameWithType := prefixedFileName ++ "_" ++ scriptType in
    today <- time_Today ;;
    let data :=
      mkTemplateData projectName projectName description today companyName userName
                     userEmail scriptName ("customscript_" ++ scriptId)
                     ("SuiteScripts/" ++ projectName ++ "/" ++ tsFileNameWithType ++ ".ts")
                     deploymentId recordType in
    templates <- GetTemplates scriptType ;;
    sd <- findSuiteScriptsDir ;;
    match sd with
    | Err err => Print ("Error: " ++ Message err ++ nl) ;; os_Exit 1
    | Ok suiteScriptsDir =>
    sel <- selectScriptFolder depth suiteScriptsDir ;;
    let '(selectedFolder, scriptPathPrefix) := sel in
    let osPath := strings.ReplaceAll selectedFolder "/" filepath.Separator in
    let targetDir := filepath.Join [suiteScriptsDir; osPath] in
    e <- os_MkdirAll targetDir ;;
    match e with
    | Some err =>
      Print ("Error creating directory " ++ targetDir ++ ": " ++ Message err ++ nl) ;;
      os_Exit 1
    | None =>
    let data :=
      if negb (String.eqb selectedFolder "") then
        mkTemplateData (Project data) (ProjectName data) (Description data) (Date data)
                       (CompanyName data) (UserName data) (UserEmail data)
                       (ScriptName data) (ScriptId data)
                       (scriptPathPrefix ++ selectedFolder ++ "/" ++ tsFileNameWithType ++ ".ts")
                       (DeploymentId data) (RecordType data)
      else
        mkTemplateData (Project data) (ProjectName data) (Description data) (Date data)
                       (CompanyName data) (UserName data) (UserEmail data)
                       (ScriptName data) (ScriptId data)
                       (scriptPathPrefix ++ tsFileNameWithType ++ ".ts")
                       (DeploymentId data) (RecordType data) in
    let tsFileName := tsFileNameWithType ++ ".ts" in
    let tsPath := filepath.Join [targetDir; tsFileName] in
    renderAndWrite tsPath (TypeScript templates) data ;;
    Print ("Created " ++ tsPath ++ nl) ;;
    if negb (String.eqb (XML templates) "") && negb (String.eqb scriptType "common") then
      od <- findObjectsDir ;;
      match od with
      | Err err => Print ("Error: " ++ Message err ++ nl) ;; os_Exit 1
      | Ok objectsDir =>
        let recordType := getRecordType scriptType in
        if String.eqb recordType "" then
          Print ("Warning: No record type found for script type '" ++ scriptType
                 ++ "'. XML file not created." ++ nl)
        else
          let xmlTargetDir := filepath.Join [objectsDir; projectName; recordType] in
          e <- os_MkdirAll xmlTargetDir ;;
          match e with
          | Some err =>
            Print ("Error creating XML directory " ++ xmlTargetDir ++ ": "
                   ++ Message err ++ nl) ;;
            os_Exit 1
          | None =>
            let xmlFileName := prefixedFileName ++ ".xml" in
            let xmlPath := filepath.Join [xmlTargetDir; xmlFileName] in
            renderAndWrite xmlPath (XML templates) data ;;
            Print ("Created " ++ xmlPath ++ nl)
          end
      end
    else ret tt
    end
    end
    end
  end.

(** *** init.go *)

(** [getSuiteCloudCommand] checks for the availability of the suitecloud
    CLI command. *)
Definition getSuiteCloudCommand : Prog FS string :=
  ok1 <- exec_LookPath "suitecloud" ;;
  if ok1 then ret "suitecloud"
  else
    ok2 <- exec_LookPath "suitecloud.cmd" ;;
    if ok2 then ret "suitecloud.cmd" else ret "".

(** [createFile] creates a file with the given content. *)
Definition createFile (path content : string) : Prog FS unit :=
  e <- os_WriteFile path content ;;
  match e with
  | Some err => Print ("Error creating " ++ path ++ ": " ++ Message err ++ nl) ;; os_Exit 1
  | None => ret tt
  end.

(** [createFileFromTemplate] creates a file by executing a template with
    the data. *)
Definition createFileFromTemplate (path templatePath : string)
           (data : list (string * string)) : Prog FS unit :=
  match initTemplateFS_ReadFile templatePath with
  | Err err =>
    Print ("Error reading template " ++ templatePath ++ ": " ++ Message err ++ nl) ;;
    os_Exit 1
  | Ok tmplContent =>
    match template_Parse tmplContent with
    | Some err =>
      Print ("Error parsing template " ++ templatePath ++ ": " ++ Message err ++ nl) ;;
      os_Exit 1
    | None =>
      match template_Execute_map tmplContent data with
      | Err err =>
        Print ("Error executing template " ++ templatePath ++ ": " ++ Message err ++ nl) ;;
        os_Exit 1
      | Ok buf =>
        e <- os_WriteFile path buf ;;
        match e with
        | Some err =>
          Print ("Error creating " ++ path ++ ": " ++ Message err ++ nl) ;; os_Exit 1
        | None => ret tt
        end
      end
    end
  end.

(** The prompt [runInit] repeats three times, for the company name, the
    user name and the user email: the trimmed answer, the default when the
    answer is empty, and exit status 1 when both are empty.  [what] is
    [company name], [user name] or [user email], [What] the same
    capitalised. *)
Definition promptWithDefault (reader what What default : string)
  : Prog FS (string * string) :=
  Print ("Enter " ++ what) ;;
  (if negb (String.eqb default "") then Print (" (default: " ++ default ++ ")")
   else ret tt) ;;
  Print ": " ;;
  rd <- ReadString reader ;;
  let '(r, reader) := rd in
  match r with
  | Err err => Print ("Error reading " ++ what ++ ": " ++ Message err ++ nl) ;; os_Exit 1
  | Ok answer =>
    let answer := strings.TrimSpace answer in
    if String.eqb answer "" then
      if negb (String.eqb default "") then ret (default, reader)
      else Println ("Error: " ++ What ++ " cannot be empty.") ;; os_Exit 1
    else ret (answer, reader)
  end.

(** The characters a project name may not contain. *)
Definition invalidNameChars : string := "<>:" ++ dquote ++ "/\|?*".

(** The check mark, U+2713. *)
Definition checkMark : string :=
  String "226"%char (String "156"%char (String "147"%char EmptyString)).

(** [runInit] executes the project initialization process.  The three
    arguments are the values of the flags [--name], [--skip-setup] and
    [--output]. *)
Definition runInit (projectNameFlag : string) (skipSetupFlag : bool)
           (outputDirFlag : string) : Prog FS unit :=
  suiteCloudCmd <- getSuiteCloudCommand ;;
  if String.eqb suiteCloudCmd "" then
    Println "Error: suitecloud CLI is not available in the command line." ;;
    Println "Please install it using: npm install -g @oracle/suitecloud-cli" ;;
    os_Exit 1
  else
  lu <- LoadUserConfig ;;
  userConfig <-
    match lu with
    | Err err =>
      Print ("Warning: Failed to load user configuration: " ++ Message err ++ nl) ;;
      ret None
    | Ok uc => ret uc
    end ;;
  let projectName := strings.TrimSpace projectNameFlag in
  projectName <-
    (if String.eqb projectName "" then
       let reader := bufio_NewReader in
       Print "Enter project name: " ;;
       rd <- ReadString reader ;;
       let '(r, reader) := rd in
       match r with
       | Err err => Print ("Error reading project name: " ++ Message err ++ nl) ;; os_Exit 1
       | Ok line => ret (strings.TrimSpace line)
       end
     else ret projectName) ;;
  if String.eqb projectName "" then
    Println "Error: Project name cannot be empty." ;;
    Println "Use --name or -n flag to specify project name, or provide it interactively." ;;
    os_Exit 1
  else
  let reader := bufio_NewReader in
  let defaultCompanyName :=
    match userConfig with
    | Some uc => if negb (String.eqb (uc_CompanyName uc) "") then uc_CompanyName uc else ""
    | None => ""
    end in
  a1 <- promptWithDefault reader "company name" "Company name" defaultCompanyName ;;
  let '(companyName, reader) := a1 in
  let fromCurrentUser : Prog FS string :=
    cu <- user_Current ;;
    match cu with
    | Some username =>
      match strings.splitByte "\"%char username with
      | _ :: p1 :: _ => ret p1
      | _ => ret username
      end
    | None => ret ""
    end in
  defaultUserName <-
    match userConfig with
    | Some uc =>
      if negb (String.eqb (uc_UserName uc) "") then ret (uc_UserName uc)
      else fromCurrentUser
    | None => fromCurrentUser
    end ;;
  a2 <- promptWithDefault reader "user name" "User name" defaultUserName ;;
  let '(userName, reader) := a2 in
  let defaultUserEmail :=
    match userConfig with
    | Some uc => if negb (String.eqb (uc_UserEmail uc) "") then uc_UserEmail uc else ""
    | None => ""
    end in
  a3 <- promptWithDefault reader "user email" "User email" defaultUserEmail ;;
  let '(userEmail, reader) := a3 in
  if strings.ContainsAny projectName invalidNameChars then
    Println "Error: Project name contains invalid characters." ;; os_Exit 1
  else
  gw <- os_Getwd ;;
  match gw with
  | Err err => Print ("Error getting current directory: " ++ Message err ++ nl) ;; os_Exit 1
  | Ok wd =>
  let outputDir := outputDirFlag in
  let outputDir :=
    if String.eqb outputDir "." then wd
    else if negb (filepath.IsAbs outputDir) then filepath.Join [wd; outputDir]
    else outputDir in
  let projectDir := filepath.Join [outputDir; projectName] in
  st <- os_Stat projectDir ;;
  if statOk st then
    Print ("Error: Project directory '" ++ projectDir ++ "' already exists." ++ nl) ;;
    os_Exit 1
  else
  let projectType := "ACCOUNTCUSTOMIZATION" in
  Print ("Creating project '" ++ projectName ++ "' (type: " ++ projectType ++ ")..." ++ nl) ;;
  gw2 <- os_Getwd ;;
  match gw2 with
  | Err err => Print ("Error getting current directory: " ++ Message err ++ nl) ;; os_Exit 1
  | Ok originalDir =>
  ce <- os_Chdir outputDir ;;
  match ce with
  | Some err =>
    Print ("Error changing to output directory: " ++ Message err ++ nl) ;; os_Exit 1
  | None =>
  defer (os_Chdir originalDir ;; ret tt) (
  let createCmd :=
    mkCmd suiteCloudCmd
          ["project:create"; "--type"; projectType; "--projectname"; projectName] "" in
  re <- exec_Run createCmd ;;
  match re with
  | Some err => Print ("Error creating project: " ++ Message err ++ nl) ;; os_Exit 1
  | None =>
  st2 <- os_Stat projectDir ;;
  if match st2 with Err err => IsNotExist err | Ok _ => false end then
    Print ("Error: Project directory '" ++ projectDir ++ "' was not created." ++ nl) ;;
    os_Exit 1
  else
  let suiteScriptsDir := filepath.Join [projectDir; "src"; "FileCabinet"; "SuiteScripts"] in
  let projectFolderPath := filepath.Join [suiteScriptsDir; projectName] in
  m1 <- os_MkdirAll projectFolderPath ;;
  match m1 with
  | Some err =>
    Print ("Warning: Failed to create project folder in SuiteScripts: " ++ Message err ++ nl)
  | None => Print ("Created project folder: " ++ projectFolderPath ++ nl)
  end ;;
  let objectsDir := filepath.Join [projectDir; "src"; "Objects"] in
  let objectsProjectFolderPath := filepath.Join [objectsDir; projectName] in
  m2 <- os_MkdirAll objectsProjectFolderPath ;;
  match m2 with
  | Some err =>
    Print ("Warning: Failed to create project folder in Objects: " ++ Message err ++ nl)
  | None => Print ("Created project folder: " ++ objectsProjectFolderPath ++ nl)
  end ;;
  Println "Generating configuration files..." ;;
  let templateData := [("ProjectName", projectName)] in
  createFileFromTemplate (filepath.Join [projectDir; "package.json"])
                         "templates/package.json.tmpl" templateData ;;
  createFileFromTemplate (filepath.Join [projectDir; "suitecloud.config.js"])
                         "templates/suitecloud.config.js.tmpl" templateData ;;
  createFileFromTemplate (filepath.Join [projectDir; "tsconfig.json"])
                         "templates/tsconfig.json.tmpl" templateData ;;
  createFileFromTemplate (filepath.Join [projectDir; ".gitignore"])
                         "templates/.gitignore.tmpl" templateData ;;
  (if negb skipSetupFlag then
     Println "Setting up account..." ;;
     let setupCmd := mkCmd suiteCloudCmd ["account:setup"] projectDir in
     se <- exec_Run setupCmd ;;
     match se with
     | Some err =>
       Print ("Warning: Account setup encountered an error: " ++ Message err ++ nl) ;;
       Print ("You can run 'suitecloud account:setup' manually in the project directory." ++ nl)
     | None => Println "Account setup completed successfully."
     end
   else Println "Skipping account setup (--skip-setup flag used).") ;;
  let config := mkProjectConfig projectName companyName userName userEmail in
  sc <- SaveConfig projectDir config ;;
  match sc with
  | Some err => Print ("Warning: Failed to save configuration: " ++ Message err ++ nl)
  | None => Println "Configuration saved to .netsuite-cli file"
  end ;;
  let userConfigToSave := mkUserConfig companyName userName userEmail in
  su <- SaveUserConfig userConfigToSave ;;
  match su with
  | Some err => Print ("Warning: Failed to save user configuration: " ++ Message err ++ nl)
  | None => Println "User configuration saved to .netsuite-cli file"
  end ;;
  Print (nl ++ checkMark ++ " Initialization complete!" ++ nl) ;;
  Print ("Project created at: " ++ projectDir ++ nl) ;;
  Print ("To get started, run: cd " ++ projectDir ++ nl)
  end)
  end
  end
  end.

End Program.
End cmd.

(** ** A concrete world

    A small in-memory operating system, library and Unicode table, on
    which the program can be run by evaluation. *)
Module Demo.

(** The case table of the Latin-1 letters: [U+00C0..U+00DE] without the
    multiplication sign are upper case, 32 below their lower case. *)
Definition latin1Upper (r : Z) : bool :=
  (0xC0 <=? r) && (r <=? 0xDE) && negb (r =? 0xD7).

#[export] Instance latin1Tables : UnicodeTables := {|
  tblToLower := fun r => if latin1Upper r then r + 32 else r;
  tblIsUpper := latin1Upper;
  tblIsLower := fun r => (0xDF <=? r) && (r <=? 0xFF) && negb (r =? 0xF7);
  tblIsDigit := fun _ => false
|}.

(** The state of the in-memory system: the directories with their
    listings, the directories that cannot be read, the files with their
    contents, the home directory, the programs on the search path, whether
    running a program fails, the user and the date. *)
Record MemFS : Type := mkMemFS {
  m_dirs : list (string * list DirEntry);
  m_unreadable : list string;
  m_files : list (string * string);
  m_home : option string;
  m_tools : list string;
  m_run_fails : bool;
  m_user : option string;
  m_today : string
}.

Definition absolute (cwd_ path : string) : string :=
  if filepath.IsAbs path then filepath.Clean path else filepath.Join [cwd_; path].

Fixpoint assoc {A} (l : list (string * A)) (k : string) : option A :=
  match l with
  | [] => None
  | (k', v) :: r => if String.eqb k k' then Some v else assoc r k
  end.

Definition mem (l : list string) (k : string) : bool :=
  existsb (String.eqb k) l.

Definition ENOENT : goerror := mkError true "no such file or directory".
Definition EACCES : goerror := mkError false "permission denied".

Definition withDirs (m : MemFS) (d : list (string * list DirEntry)) : MemFS :=
  mkMemFS d (m_unreadable m) (m_files m) (m_home m) (m_tools m) (m_run_fails m)
          (m_user m) (m_today m).

Definition withFiles (m : MemFS) (f : list (string * string)) : MemFS :=
  mkMemFS (m_dirs m) (m_unreadable m) f (m_home m) (m_tools m) (m_run_fails m)
          (m_user m) (m_today m).

Definition memStat (m : MemFS) (cwd_ path : string) : result bool :=
  let p := absolute cwd_ path in
  match assoc (m_dirs m) p with
  | Some _ => Ok true
  | None => match assoc (m_files m) p with
            | Some _ => Ok false
            | None => Err ENOENT
            end
  end.

Definition memMkdir (m : MemFS) (p : string) : MemFS :=
  match assoc (m_dirs m) p with
  | Some _ => m
  | None => withDirs m ((p, []) :: m_dirs m)
  end.

#[export] Instance memOS : OS MemFS := {|
  sys_Getwd_err := fun _ _ => None;
  sys_UserHomeDir := fun m =>
    match m_home m with
    | Some h => Ok h
    | None => Err (mkError false "$HOME is not defined")
    end;
  sys_Stat := memStat;
  sys_ReadFile := fun m cwd_ path =>
    match assoc (m_files m) (absolute cwd_ path) with
    | Some data => Ok data
    | None => Err ENOENT
    end;
  sys_ReadDir := fun m cwd_ path =>
    let p := absolute cwd_ path in
    if mem (m_unreadable m) p then Err EACCES
    else match assoc (m_dirs m) p with
         | Some entries => Ok entries
         | None => Err ENOENT
         end;
  sys_MkdirAll := fun m cwd_ path => (None, memMkdir m (absolute cwd_ path));
  sys_WriteFile := fun m cwd_ path data =>
    (None, withFiles m ((absolute cwd_ path, data) :: m_files m));
  sys_Chdir_err := fun m cwd_ path =>
    match assoc (m_dirs m) (absolute cwd_ path) with
    | Some _ => None
    | None => Some ENOENT
    end;
  sys_LookPath := fun m _ file => mem (m_tools m) file;
  sys_Run := fun m cwd_ c =>
    if m_run_fails m then (Some (mkError false "exit status 1"), m)
    else
      match cmdArgs c with
      | ["project:create"; "--type"; _; "--projectname"; name] =>
        (None, memMkdir m (absolute cwd_ name))
      | _ => (None, m)
      end;
  sys_CurrentUser := m_user;
  sys_Today := m_today
|}.

(** A library whose JSON coder knows one project and whose templates
    render to their text followed by the script identifier and the record
    type. *)
Definition acme : cmd.ProjectConfig :=
  cmd.mkProjectConfig "acme-proj" "Acme" "jdoe" "jdoe@x.com".

Definition demoTemplates : list (string * string) :=
  [ ("templates/suitelet.ts.tmpl", "suitelet ts");
    ("templates/suitelet.xml.tmpl", "suitelet xml");
    ("templates/userevent.ts.tmpl", "userevent ts");
    ("templates/userevent.xml.tmpl", "userevent xml");
    ("templates/bundle.ts.tmpl", "bundle ts");
    ("templates/package.json.tmpl", "package");
    ("templates/suitecloud.config.js.tmpl", "config");
    ("templates/tsconfig.json.tmpl", "tsconfig");
    ("templates/.gitignore.tmpl", "ignore") ].

Definition readTemplate (path : string) : result string :=
  match assoc demoTemplates path with
  | Some t => Ok t
  | None => Err (mkError true ("open " ++ path ++ ": file does not exist"))
  end.

#[export] Instance demoLib : cmd.Lib := {|
  cmd.json_Unmarshal_ProjectConfig := fun data =>
    if String.eqb data "acme" then Ok acme
    else Err (mkError false "invalid character");
  cmd.json_Unmarshal_UserConfig := fun data =>
    if String.eqb data "acme" then Ok (cmd.mkUserConfig "Acme" "jdoe" "jdoe@x.com")
    else Err (mkError false "invalid character");
  cmd.json_MarshalIndent_ProjectConfig := fun _ => Ok "acme";
  cmd.json_MarshalIndent_UserConfig := fun _ => Ok "acme";
  cmd.templateFS_ReadFile := readTemplate;
  cmd.initTemplateFS_ReadFile := readTemplate;
  cmd.template_Parse := fun _ => None;
  cmd.template_Execute := fun t d =>
    Ok (t ++ " " ++ cmd.ScriptId d ++ " " ++ cmd.RecordType d);
  cmd.template_Execute_map := fun t _ => Ok t
|}.

(** A project directory [/work/acme-proj] as [create] leaves it, with the
    listing of its SuiteScripts directory as a parameter. *)
Definition projectFS (scripts : list (string * list DirEntry)) (unreadable : list string)
  : MemFS :=
  mkMemFS
    ([ ("/home/jdoe", []);
       ("/work", [mkDirEntry "acme-proj" true]);
       ("/work/acme-proj", [mkDirEntry "src" true]);
       ("/work/acme-proj/src", [mkDirEntry "FileCabinet" true; mkDirEntry "Objects" true]);
       ("/work/acme-proj/src/FileCabinet", [mkDirEntry "SuiteScripts" true]);
       ("/work/acme-proj/src/Objects", [mkDirEntry "acme-proj" true]);
       ("/work/acme-proj/src/Objects/acme-proj", []) ] ++ scripts)%list
    unreadable
    [("/work/acme-proj/.netsuite-cli", "acme")]
    (Some "/home/jdoe") ["suitecloud"] false (Some "jdoe") "2024-05-01".

Definition scriptsRoot : string := "/work/acme-proj/src/FileCabinet/SuiteScripts".

(** A world in the project directory with the given input. *)
Definition projectWorld (scripts : list (string * list DirEntry)) (unreadable : list string)
           (input : list string) : World MemFS :=
  mkWorld (projectFS scripts unreadable) "/work/acme-proj" input [] [].

(** [n] directory entries named [d1 .. dn]. *)
Definition manyDirs (n : nat) : list DirEntry :=
  map (fun k => mkDirEntry ("d" ++ strconv.Itoa (Z.of_nat k)) true) (seq 1 n).

(** The project with 25 folders under SuiteScripts, and what
    [findAllFolders] finds there. *)
Definition menuWorld (input : list string) : World MemFS :=
  projectWorld [(scriptsRoot, manyDirs 25)] [] input.

Definition demoFolders : list cmd.FolderOption :=
  match cmd.findAllFolders 2 (fs (menuWorld [])) "/work/acme-proj"
                           "src/FileCabinet/SuiteScripts" "" with
  | Some l => l
  | None => []
  end.

(** The project with no folder under SuiteScripts. *)
Definition emptyWorld (input : list string) : World MemFS :=
  projectWorld [(scriptsRoot, [])] [] input.

(** The project with the folders [lib], [lib/utils] and [vendor] under
    SuiteScripts, [vendor] unreadable. *)
Definition treeWorld (input : list string) : World MemFS :=
  projectWorld
    [ (scriptsRoot, [mkDirEntry "README.md" false; mkDirEntry "lib" true;
                     mkDirEntry "vendor" true]);
      (scriptsRoot ++ "/lib", [mkDirEntry "utils" true; mkDirEntry "a.ts" false]);
      (scriptsRoot ++ "/lib/utils", []);
      (scriptsRoot ++ "/vendor", [mkDirEntry "hidden" true]) ]
    [scriptsRoot ++ "/vendor"] input.

(** A working directory [/work] with an output directory [out], for
    [create]; [fails] tells whether running [suitecloud] fails. *)
Definition initWorld (fails : bool) (input : list string) : World MemFS :=
  mkWorld
    (mkMemFS [("/home/jdoe", []); ("/work", [mkDirEntry "out" true]); ("/work/out", [])]
             [] [] (Some "/home/jdoe") ["suitecloud"] fails (Some "jdoe") "2024-05-01")
    "/work" input [] [].

(** The answers to the prompts of [create]: the company, the default user
    name, the email. *)
Definition initAnswers : list string := ["Acme" ++ nl; nl; "jdoe@x.com" ++ nl].

(** The command [create] runs first. *)
Definition createCmd : Cmd :=
  mkCmd "suitecloud"
        ["project:create"; "--type"; "ACCOUNTCUSTOMIZATION"; "--projectname"; "newproj"]
        "".

End Demo.

(** * The vocabulary of the properties *)

Unset Implicit Arguments.

Section WorldVocabulary.
Context {FS : Type}.

(** The world with more output, with other input, with one more event. *)
Definition addOut (w : World FS) (out : list string) : World FS :=
  mkWorld (fs w) (cwd w) (stdin w) (stdout w ++ out)%list (events w).

Definition setIn (w : World FS) (input : list string) : World FS :=
  mkWorld (fs w) (cwd w) input (stdout w) (events w).

Definition addEv (w : World FS) (e : Event) : World FS :=
  mkWorld (fs w) (cwd w) (stdin w) (stdout w) (events w ++ [e])%list.

(** Computations that only print. *)
Definition printsOnly (m : Prog FS unit) : Prop :=
  forall w, exists out, m w = (Returned tt, addOut w out).

End WorldVocabulary.

(** The length of a slice leaves room for [len(folders) + pageSize] in an
    [int] (a slice of three-string records is far shorter). *)
Definition folders_fit (folders : list cmd.FolderOption) : Prop :=
  cmd.lenL folders + cmd.pageSize <= strconv.MaxInt.

(** What the menu prints when the line read is no number and no page
    change. *)
Definition notANumber (totalPages : Z) : list string :=
  ["Invalid selection. Please enter a number"]
  ++ (if totalPages >? 1 then [" or 'n'/'p' for navigation"] else [])
  ++ ["" ++ nl].

(** What the menu prints when the number read is no entry. *)
Definition outOfRange (folders : list cmd.FolderOption) : list string :=
  ["Invalid selection. Please choose between 0 and "
   ++ strconv.Itoa (cmd.lenL folders) ++ nl].

(** The question [selectScriptFolder] asks when there is no folder. *)
Definition rootQuestion : string :=
  nl ++ "No folders found under SuiteScripts. Place script in SuiteScripts root? (y/n): ".

(** What it prints when the answer is no affirmative. *)
Definition cancelledMessage : string := "Cancelled. Script not created." ++ nl.

(** Whether an answer is an affirmative: ["y"] or ["yes"] once lowercased
    and trimmed. *)
Definition affirmative {U : UnicodeTables} (line : string) : bool :=
  let response := strings.TrimSpace (strings.ToLower line) in
  String.eqb response "y" || String.eqb response "yes".

(** The root-placement question: asked through a fresh reader; an
    affirmative answer selects the root, any other answer ends the process
    with status 0, the end of input with status 1. *)
Definition rootPlacement {U : UnicodeTables} {FS : Type} (w : World FS)
  : Outcome (string * string) * World FS :=
  let w1 := addOut w [rootQuestion] in
  match fillLine bufio_NewReader (stdin w) with
  | (Err e, _, rest) =>
    (Exited 1, addOut (setIn w1 rest) ["Error reading response: " ++ Message e ++ nl])
  | (Ok line, _, rest) =>
    if affirmative line then (Returned (EmptyString, "SuiteScripts/"), setIn w1 rest)
    else (Exited 0, addOut (setIn w1 rest) [cancelledMessage])
  end.

(** ** The phases of [runAdd] *)

(** What [runAdd] has settled when it turns to the folder selection: the
    configuration loaded, the script name, the description, the record type
    asked for ([userevent] and [workflowaction] only), the date, the
    templates, and the SuiteScripts directory. *)
Record Prelude : Type := mkPrelude {
  pre_config : cmd.ProjectConfig;
  pre_scriptName : string;
  pre_description : string;
  pre_recordType : string;
  pre_today : string;
  pre_templates : cmd.ScriptTemplates;
  pre_suiteScriptsDir : string
}.

Section Phases.
Context {U : UnicodeTables} {L : cmd.Lib} {FS : Type} {os : OS FS}.
Local Open Scope prog_scope.

(** [runAdd] up to the call of [selectScriptFolder]. *)
Definition runAddPrelude (scriptType : string) (args : list string) : Prog FS Prelude :=
  lc <- cmd.LoadConfig ;;
  match lc with
  | Err err =>
    Print ("Error: " ++ Message err ++ nl) ;;
    Println "Not a project folder. Please run 'netsuite-cli create'" ;;
    os_Exit 1
  | Ok config =>
    let scriptName := match args with a :: _ => a | [] => "" end in
    let projectName := cmd.pc_ProjectName config in
    let defaultScriptName := cmd.toSnakeCase projectName in
    scriptName <-
      (if String.eqb scriptName "" then
         let reader := bufio_NewReader in
         Print "Enter script name" ;;
         (if negb (String.eqb defaultScriptName "")
          then Print (" (default: " ++ defaultScriptName ++ ")") else ret tt) ;;
         Print ": " ;;
         rd <- ReadString reader ;;
         let '(r, reader) := rd in
         match r with
         | Err err => Print ("Error reading script name: " ++ Message err ++ nl) ;; os_Exit 1
         | Ok line =>
           let scriptName := strings.TrimSpace line in
           ret (if String.eqb scriptName "" then defaultScriptName else scriptName)
         end
       else ret scriptName) ;;
    if String.eqb scriptName "" then
      Println "Error: Script name is required" ;; os_Exit 1
    else
    let reader := bufio_NewReader in
    let defaultDescription := scriptName ++ " description" in
    Print "Enter script description" ;;
    (if negb (String.eqb defaultDescription "")
     then Print (" (default: " ++ defaultDescription ++ ")") else ret tt) ;;
    Print ": " ;;
    rd <- ReadString reader ;;
    let '(r, reader) := rd in
    match r with
    | Err err => Print ("Error reading description: " ++ Message err ++ nl) ;; os_Exit 1
    | Ok description =>
    let description := strings.TrimSpace description in
    let description := if String.eqb description "" then defaultDescription else description in
    recordType <-
      (if String.eqb scriptType "userevent" || String.eqb scriptType "workflowaction" then
         Print "Enter record type (e.g., CUSTOMER, SALESORDER, INVOICE): " ;;
         rd <- ReadString reader ;;
         let '(r, reader) := rd in
         match r with
         | Err err => Print ("Error reading record type: " ++ Message err ++ nl) ;; os_Exit 1
         | Ok recordTypeInput =>
           let recordType := strings.TrimSpace recordTypeInput in
           if String.eqb recordType "" then
             Println ("Error: Record type is required for " ++ scriptType ++ " scripts") ;;
             os_Exit 1
           else ret recordType
         end
       else ret "") ;;
    today <- cmd.time_Today ;;
    templates <- cmd.GetTemplates scriptType ;;
    sd <- cmd.findSuiteScriptsDir ;;
    match sd with
    | Err err => Print ("Error: " ++ Message err ++ nl) ;; os_Exit 1
    | Ok suiteScriptsDir =>
      ret (mkPrelude config scriptName description recordType today templates
                     suiteScriptsDir)
    end
    end
  end.

(** The names [runAdd] derives from what the prelude settled. *)
Definition companyPrefixOf (p : Prelude) : string :=
  cmd.GetCompanyPrefix (cmd.pc_CompanyName (pre_config p)).

Definition prefixedFileNameOf (p : Prelude) : string :=
  companyPrefixOf p ++ "_" ++ pre_scriptName p.

Definition tsFileNameOf (scriptType : string) (p : Prelude) : string :=
  (prefixedFileNameOf p ++ "_" ++ scriptType) ++ ".ts".

(** The directory the primary artifact goes to, and its path. *)
Definition targetDirOf (p : Prelude) (selectedFolder : string) : string :=
  filepath.Join [pre_suiteScriptsDir p;
                 strings.ReplaceAll selectedFolder "/" filepath.Separator].

Definition tsPathOf (scriptType : string) (p : Prelude) (selectedFolder : string) : string :=
  filepath.Join [targetDirOf p selectedFolder; tsFileNameOf scriptType p].

(** The directory the secondary artifact goes to, and its path. *)
Definition xmlTargetDirOf (scriptType : string) (p : Prelude) (objectsDir : string) : string :=
  filepath.Join [objectsDir; cmd.pc_ProjectName (pre_config p);
                 cmd.getRecordType scriptType].

Definition xmlPathOf (scriptType : string) (p : Prelude) (objectsDir : string) : string :=
  filepath.Join [xmlTargetDirOf scriptType p objectsDir; prefixedFileNameOf p ++ ".xml"].

(** The data both templates are rendered with. *)
Definition templateDataOf (scriptType : string) (p : Prelude) (sel : string * string)
  : cmd.TemplateData :=
  let projectName := cmd.pc_ProjectName (pre_config p) in
  let scriptId := cmd.scriptIdOf (pre_scriptName p) in
  let tsFileNameWithType := prefixedFileNameOf p ++ "_" ++ scriptType in
  cmd.mkTemplateData projectName projectName (pre_description p) (pre_today p)
    (cmd.pc_CompanyName (pre_config p)) (cmd.pc_UserName (pre_config p))
    (cmd.pc_UserEmail (pre_config p)) (pre_scriptName p) ("customscript_" ++ scriptId)
    (if negb (String.eqb (fst sel) "")
     then snd sel ++ fst sel ++ "/" ++ tsFileNameWithType ++ ".ts"
     else snd sel ++ tsFileNameWithType ++ ".ts")
    (cmd.deploymentIdOf scriptId) (pre_recordType p).

(** [runAdd] after the call of [selectScriptFolder]. *)
Definition runAddFinish (scriptType : string) (p : Prelude) (sel : string * string)
  : Prog FS unit :=
  let targetDir := targetDirOf p (fst sel) in
  let data := templateDataOf scriptType p sel in
  let tsPath := tsPathOf scriptType p (fst sel) in
  e <- cmd.os_MkdirAll targetDir ;;
  match e with
  | Some err =>
    Print ("Error creating directory " ++ targetDir ++ ": " ++ Message err ++ nl) ;;
    os_Exit 1
  | None =>
    cmd.renderAndWrite tsPath (cmd.TypeScript (pre_templates p)) data ;;
    Print ("Created " ++ tsPath ++ nl) ;;
    if negb (String.eqb (cmd.XML (pre_templates p)) "")
       && negb (String.eqb scriptType "common") then
      od <- cmd.findObjectsDir ;;
      match od with
      | Err err => Print ("Error: " ++ Message err ++ nl) ;; os_Exit 1
      | Ok objectsDir =>
        if String.eqb (cmd.getRecordType scriptType) "" then
          Print ("Warning: No record type found for script type '" ++ scriptType
                 ++ "'. XML file not created." ++ nl)
        else
          let xmlTargetDir := xmlTargetDirOf scriptType p objectsDir in
          e <- cmd.os_MkdirAll xmlTargetDir ;;
          match e with
          | Some err =>
            Print ("Error creating XML directory " ++ xmlTargetDir ++ ": "
                   ++ Message err ++ nl) ;;
            os_Exit 1
          | None =>
            let xmlPath := xmlPathOf scriptType p objectsDir in
            cmd.renderAndWrite xmlPath (cmd.XML (pre_templates p)) data ;;
            Print ("Created " ++ xmlPath ++ nl)
          end
      end
    else ret tt
  end.

(** [runAdd] as its three phases in sequence. *)
Definition runAddPhases (depth : nat) (scriptType : string) (args : list string)
  : Prog FS unit :=
  p <- runAddPrelude scriptType args ;;
  sel <- cmd.selectScriptFolder depth (pre_suiteScriptsDir p) ;;
  runAddFinish scriptType p sel.

End Phases.

(** ** Events *)

Definition isWrite (e : Event) : bool :=
  match e with EvWriteFile _ _ _ => true | _ => false end.

Definition isSleep (e : Event) : Prop :=
  match e with EvSleep _ => True | _ => False end.

(** A directory creation that is not a file write. *)
Definition isMkdir (e : Event) : Prop :=
  match e with EvMkdirAll _ _ => True | _ => False end.

(** A computation that leaves the outside world and the working directory
    as they are, except for events satisfying [P], which it appends. *)
Definition adds {FS A : Type} (P : Event -> Prop) (m : Prog FS A) : Prop :=
  forall w o w', m w = (o, w') ->
    exists l, events w' = (events w ++ l)%list /\ Forall P l.

(** Whether [runAdd] goes on to the secondary artifact: the XML template is
    not empty, the category is not [common], and it has a record-type
    tag. *)
Definition secondaryApplies (scriptType : string) (p : Prelude) : bool :=
  negb (String.eqb (cmd.XML (pre_templates p)) "")
  && negb (String.eqb scriptType "common")
  && negb (String.eqb (cmd.getRecordType scriptType) "").

(** What locating the objects root appends when it returns [dir]: nothing
    when the directory was found, its creation when it was not. *)
Inductive objectsRootEvents (dir : string) : list Event -> Prop :=
| objectsRootFound :
    In dir ["src/Objects"; "Objects"] -> objectsRootEvents dir []
| objectsRootCreated :
    In dir ["src/Objects"; "Objects"] -> objectsRootEvents dir [EvMkdirAll dir true].

(** The events of the secondary artifact under the objects root [dir]. *)
Definition secondaryEvents {U : UnicodeTables} (scriptType : string) (p : Prelude)
           (dir xmlText : string) : list Event :=
  [EvMkdirAll (xmlTargetDirOf scriptType p dir) true;
   EvWriteFile (xmlPathOf scriptType p dir) xmlText true].

(** The events of the primary artifact. *)
Definition primaryEvents {U : UnicodeTables} (scriptType : string) (p : Prelude)
           (selectedFolder tsText : string) : list Event :=
  [EvMkdirAll (targetDirOf p selectedFolder) true;
   EvWriteFile (tsPathOf scriptType p selectedFolder) tsText true].

(** The question [runAdd] asks for the record type. *)
Definition recordTypeQuestion : string :=
  "Enter record type (e.g., CUSTOMER, SALESORDER, INVOICE): ".

(** The categories for which [runAdd] asks the record type. *)
Definition asksRecordType (scriptType : string) : bool :=
  String.eqb scriptType "userevent" || String.eqb scriptType "workflowaction".

(** ** Directory trees *)

(** A directory as the folder search meets it: one that cannot be read, or
    its entries in the order of the listing, each a file or a directory. *)
Inductive Dir : Type :=
| Unreadable : Dir
| Listing : Entries -> Dir
with Entries : Type :=
| NoMore : Entries
| FileEntry : string -> Entries -> Entries
| SubDir : string -> Dir -> Entries -> Entries.

Scheme Dir_mut := Induction for Dir Sort Prop
  with Entries_mut := Induction for Entries Sort Prop.
Combined Scheme Dir_Entries_ind from Dir_mut, Entries_mut.

(** What [os.ReadDir] returns for the entries. *)
Fixpoint entriesOf (es : Entries) : list DirEntry :=
  match es with
  | NoMore => []
  | FileEntry name rest => mkDirEntry name false :: entriesOf rest
  | SubDir name _ rest => mkDirEntry name true :: entriesOf rest
  end.

(** The depth of a tree, counting the directory itself. *)
Fixpoint height (d : Dir) : nat :=
  match d with
  | Unreadable => 1
  | Listing es => S (heightAll es)
  end
with heightAll (es : Entries) : nat :=
  match es with
  | NoMore => 0
  | FileEntry _ rest => heightAll rest
  | SubDir _ sub rest => Nat.max (height sub) (heightAll rest)
  end.

(** The path [findAllFolders] reads for a relative path. *)
Definition fullPathOf (baseDir relativePath : string) : string :=
  if negb (String.eqb relativePath "") then filepath.Join [baseDir; relativePath]
  else baseDir.

Section Trees.
Context {FS : Type} {os : OS FS}.
Variables (fs_ : FS) (cwd_ : string) (baseDir : string).

(** The file system holds the tree [d] at the relative path: reading the
    directory gives the entries of [d] (or fails, for [Unreadable]), and
    every subdirectory of [d] is held at its own relative path. *)
Fixpoint holds (relativePath : string) (d : Dir) : Prop :=
  match d with
  | Unreadable =>
    exists e, sys_ReadDir fs_ cwd_ (fullPathOf baseDir relativePath) = Err e
  | Listing es =>
    sys_ReadDir fs_ cwd_ (fullPathOf baseDir relativePath) = Ok (entriesOf es)
    /\ holdsAll relativePath es
  end
with holdsAll (relativePath : string) (es : Entries) : Prop :=
  match es with
  | NoMore => True
  | FileEntry _ rest => holdsAll relativePath rest
  | SubDir name sub rest =>
    holds (cmd.entryRelativePath relativePath name) sub /\ holdsAll relativePath rest
  end.

(** The pre-order walk of a tree: every directory, then what is below it,
    then its later siblings.  Each folder comes with its address, the
    positions in the listings on the way to it. *)
Fixpoint walk (relativePath : string) (d : Dir) : list (list nat * cmd.FolderOption) :=
  match d with
  | Unreadable => []
  | Listing es => walkAll relativePath O es
  end
with walkAll (relativePath : string) (i : nat) (es : Entries)
  : list (list nat * cmd.FolderOption) :=
  match es with
  | NoMore => []
  | FileEntry _ rest => walkAll relativePath (S i) rest
  | SubDir name sub rest =>
    (([i], cmd.folderOption (fullPathOf baseDir relativePath) relativePath name)
       :: map (fun af => (i :: fst af, snd af))
              (walk (cmd.entryRelativePath relativePath name) sub)
       ++ walkAll relativePath (S i) rest)%list
  end.

End Trees.

(** Addresses in pre-order: an address comes before those it is a proper
    prefix of (a directory before what is below it), and before those that
    branch off to a later entry of some listing (siblings, with all below
    them, in listing order). *)
Inductive before : list nat -> list nat -> Prop :=
| before_below : forall i a, before [] (i :: a)
| before_sibling : forall i j a b, (i < j)%nat -> before (i :: a) (j :: b)
| before_inside : forall i a b, before a b -> before (i :: a) (i :: b).

(** The number of directories in a tree that the search reaches: those
    not below a directory that cannot be read. *)
Fixpoint reachable (d : Dir) : nat :=
  match d with
  | Unreadable => 0
  | Listing es => reachableAll es
  end
with reachableAll (es : Entries) : nat :=
  match es with
  | NoMore => 0
  | FileEntry _ rest => reachableAll rest
  | SubDir _ sub rest => S (reachable sub + reachableAll rest)
  end.

(** Whether a listing holds no directory. *)
Fixpoint noSubDir (es : Entries) : bool :=
  match es with
  | NoMore => true
  | FileEntry _ rest => noSubDir rest
  | SubDir _ _ _ => false
  end.

(** An address whose first position is at least [i]. *)
Definition startsFrom (i : nat) (a : list nat) : Prop :=
  match a with
  | j :: _ => (i <= j)%nat
  | [] => False
  end.

Section Range.
Context {FS : Type} {os : OS FS}.
Variables (fs_ : FS) (cwd_ : string) (baseDir : string).

(** The loop over the entries of a directory, as [findAllFolders] runs it
    with fuel for the directories below. *)
Definition rangeEntries (fuel' : nat) (fullPath relativePath : string) :=
  fix range (entries : list DirEntry) (folders : list cmd.FolderOption)
    : option (list cmd.FolderOption) :=
    match entries with
    | [] => Some folders
    | entry :: rest =>
      if IsDir entry then
        let folders :=
          (folders ++ [cmd.folderOption fullPath relativePath (Name entry)])%list in
        match cmd.findAllFolders fuel' fs_ cwd_ baseDir
                                 (cmd.entryRelativePath relativePath (Name entry)) with
        | None => None
        | Some subfolders => range rest (folders ++ subfolders)%list
        end
      else range rest folders
    end.

End Range.

(** The tree under SuiteScripts in [Demo.treeWorld], in which [vendor]
    cannot be read. *)
Definition demoTree : Dir :=
  Listing
    (FileEntry "README.md"
       (SubDir "lib"
          (Listing (SubDir "utils" (Listing NoMore) (FileEntry "a.ts" NoMore)))
          (SubDir "vendor" Unreadable NoMore))).

(** ** Script identifiers *)

(** A rune that has an encoding of its own: a code point that is no
    surrogate. *)
Definition validRune (r : Z) : Prop :=
  0 <= r <= utf8.MaxRune /\ ~ (0xD800 <= r <= 0xDFFF).

(** The replacement of a space by an underscore, on a byte and on a rune. *)
Definition underscoreByte (c : ascii) : ascii :=
  if Ascii.eqb c " "%char then "_"%char else c.

Definition underscoreRune (r : Z) : Z := if r =? 32 then 95 else r.

(** The encodings of a sequence of runes, one after the other. *)
Definition encodeAll (rs : list Z) : string :=
  fold_right (fun c acc => utf8.EncodeRune c ++ acc) EmptyString rs.

(** What the identifiers need of the case tables, which are not part of
    the program: the lower case of a rune is a rune, and is its own lower
    case. *)
Definition foldsOnce (U : UnicodeTables) : Prop :=
  forall r : Z, validRune r -> 0x7F < r ->
    validRune (tblToLower r) /\ unicode.ToLower (tblToLower r) = tblToLower r.

(** The rune of an identifier that comes of a rune of the name, and the
    byte that comes of a byte of an ASCII name. *)
Definition identifierRune {U : UnicodeTables} (r : Z) : Z :=
  underscoreRune (unicode.ToLower r).

Definition identifierByte (c : ascii) : ascii :=
  underscoreByte (strings.lowerByte c).

(** A name with a letter beyond ASCII: [U+00C9] and [cole Admin]. *)
Definition ecoleAdmin : string := utf8.EncodeRune 0xC9 ++ "cole Admin".

(** ** The working directory during [create] *)





(** ** The folder menu as a whole *)

(** A selection the menu may return: the root, or the path of a folder of
    the list. *)
Definition listedSelection (folders : list cmd.FolderOption) (sel : string) : Prop :=
  sel = EmptyString \/ exists f, In f folders /\ sel = cmd.Path f.

(** How the menu started in [w] may end: with a listed selection, or with
    exit status 1 once the input is used up; the outside world and the
    working directory are as before, and what was done is pauses of one
    second. *)
Definition menuEnds {FS : Type} (folders : list cmd.FolderOption)
           (scriptPathPrefix : string) (w : World FS)
           (r : Outcome (string * string) * World FS) : Prop :=
  fs (snd r) = fs w /\ cwd (snd r) = cwd w
  /\ (exists n, events (snd r) = (events w ++ repeat (EvSleep 1) n)%list)
  /\ ((exists sel, fst r = Returned (sel, scriptPathPrefix) /\ listedSelection folders sel)
      \/ (fst r = Exited 1 /\ stdin (snd r) = [])).

(** ** Snake case *)

(** The bytes of a snake-case name: lower-case letters, digits, and the
    underscore. *)
Definition snakeByte (c : ascii) : bool :=
  inRange 97 122 c || inRange 48 57 c || Ascii.eqb c "_"%char.

Definition endsWithUnderscore (s : string) : bool :=
  match cmd.lastByte s with
  | Some c => Ascii.eqb c "_"%char
  | None => false
  end.

Fixpoint noDoubleUnderscore (s : string) : bool :=
  match s with
  | EmptyString => true
  | String c t =>
    negb (Ascii.eqb c "_"%char && strings.HasPrefix t "_") && noDoubleUnderscore t
  end.

(** A snake-case name: snake bytes only, no underscore at either end, no
    two underscores in a row. *)
Definition snakeCase (s : string) : bool :=
  forallBytes snakeByte s
  && negb (strings.HasPrefix s "_")
  && negb (endsWithUnderscore s)
  && noDoubleUnderscore s.

(** The values of the bytes of a string. *)
Fixpoint bytesZ (s : string) : list Z :=
  match s with
  | EmptyString => []
  | String c t => byteZ c :: bytesZ t
  end.

(** What the loop keeps of its builder. *)
Definition snakeState (st : string * bool * Z) : Prop :=
  let '(result, prevLower, i) := st in
  forallBytes snakeByte result = true
  /\ strings.HasPrefix result "_" = false
  /\ noDoubleUnderscore result = true
  /\ (prevLower = true -> result <> "" /\ endsWithUnderscore result = false).

(** ** What [create] refuses, and what it runs *)

(** A run that ended with exit status 1 and left the outside world, the
    working directory and the record of what was done as they were. *)
Definition refused {FS A : Type} (w : World FS) (r : Outcome A * World FS) : Prop :=
  fst r = Exited 1
  /\ fs (snd r) = fs w /\ cwd (snd r) = cwd w /\ events (snd r) = events w.

(** A computation that refuses in every world over the outside world
    [fs0] with working directory [cwd0]. *)
Definition refusesFrom {FS A : Type} (fs0 : FS) (cwd0 : string) (m : Prog FS A) : Prop :=
  forall w : World FS, fs w = fs0 -> cwd w = cwd0 -> refused w (m w).

(** A computation that only reads and prints, and returns or exits with
    status 1. *)
Definition silent {FS A : Type} (m : Prog FS A) : Prop :=
  forall w : World FS,
    fs (snd (m w)) = fs w /\ cwd (snd (m w)) = cwd w
    /\ events (snd (m w)) = events w
    /\ match fst (m w) with
       | Returned _ => True
       | Exited c => c = 1
       | _ => False
       end.

(** The output directory as [runInit] resolves the flag [--output] in the
    working directory [wd]. *)
Definition outputDirOf (wd outputDirFlag : string) : string :=
  if String.eqb outputDirFlag "." then wd
  else if negb (filepath.IsAbs outputDirFlag) then filepath.Join [wd; outputDirFlag]
  else outputDirFlag.

(** The programs [create] may run: [suitecloud], for [project:create] with
    a project name that is not empty and holds no invalid character, and,
    unless [--skip-setup] was given, for [account:setup]. *)
Definition createRuns (skipSetupFlag : bool) (e : Event) : Prop :=
  match e with
  | EvRun c _ =>
    (cmdName c = "suitecloud" \/ cmdName c = "suitecloud.cmd")
    /\ ((exists name,
           name <> EmptyString
           /\ strings.ContainsAny name cmd.invalidNameChars = false
           /\ cmdArgs c = ["project:create"; "--type"; "ACCOUNTCUSTOMIZATION";
                           "--projectname"; name]
           /\ cmdDir c = EmptyString)
        \/ (skipSetupFlag = false /\ cmdArgs c = ["account:setup"]))
  | _ => True
  end.

(** ** Locating a directory *)
Section Locating.
Context {FS : Type} {os : OS FS}.

(** Whether [os.Stat] finds a directory at [path]. *)
Definition isDirAt (f : FS) (c : string) (path : string) : bool :=
  match sys_Stat f c path with
  | Ok true => true
  | _ => false
  end.

(** What the two directory finders do with their candidates, in this
    order of preference: the first candidate that is a directory is
    returned and nothing is touched; when there is none, one candidate is
    created with [os.MkdirAll] and returned, or the error of the creation
    is.  Nothing is printed or read, and the process goes on. *)
Definition findsOrCreates (candidates : list string) (m : Prog FS (result string))
           (w : World FS) : Prop :=
  exists r w',
    m w = (Returned r, w')
    /\ cwd w' = cwd w /\ stdin w' = stdin w /\ stdout w' = stdout w
    /\ (forall p, r = Ok p -> In p candidates)
    /\ match find (isDirAt (fs w) (cwd w)) candidates with
       | Some p => r = Ok p /\ w' = w
       | None =>
         exists base,
           In base candidates
           /\ events w'
              = (events w
                 ++ [EvMkdirAll base (match r with Ok _ => true | Err _ => false end)])%list
           /\ fs w' = snd (sys_MkdirAll (fs w) (cwd w) base)
           /\ (forall p, r = Ok p -> p = base)
       end.

End Locating.

(** ** The pages of the menu *)





(** ** What a run of [create] that returns has done *)



(** * The library model on concrete inputs *)

Module LibraryExamples.
Import Demo.

Example clean1 : filepath.Clean "a//b/./c/../d" = "a/b/d". Proof. reflexivity. Qed.
Example clean2 : filepath.Clean "/../a/.." = "/". Proof. reflexivity. Qed.
Example clean3 : filepath.Clean "../../a/../../b" = "../../../b". Proof. reflexivity. Qed.
Example clean4 : filepath.Clean "a/.." = ".". Proof. reflexivity. Qed.
Example join1 : filepath.Join [""; "a"; ""; "b"] = "a/b". Proof. reflexivity. Qed.
Example join2 : filepath.Join ["SuiteScripts"; ""] = "SuiteScripts". Proof. reflexivity. Qed.
Example atoi1 : strconv.Atoi "+12" = Some 12. Proof. reflexivity. Qed.
Example atoi2 : strconv.Atoi "-0" = Some 0. Proof. reflexivity. Qed.
Example atoi3 : strconv.Atoi "1_0" = None. Proof. reflexivity. Qed.
Example atoi4 : strconv.Atoi "9223372036854775808" = None. Proof. reflexivity. Qed.
Example atoi5 : strconv.Atoi "-9223372036854775808" = Some (- 2 ^ 63). Proof. reflexivity. Qed.
Example atoi6 : strconv.Atoi "+" = None. Proof. reflexivity. Qed.
Example itoa1 : strconv.Itoa 120 = "120". Proof. reflexivity. Qed.
Example itoa2 : strconv.Itoa 0 = "0". Proof. reflexivity. Qed.
Example itoa3 : strconv.Itoa (-45) = "-45". Proof. reflexivity. Qed.
Example trim1 : strings.TrimSpace "  a b  " = "a b". Proof. reflexivity. Qed.
Example trim2 : strings.TrimSpace "   " = "". Proof. reflexivity. Qed.
Example repl1 : strings.ReplaceAll "My  Report x" " " "_" = "My__Report_x". Proof. reflexivity. Qed.
Example repl2 : strings.ReplaceAll "abc" "" "-" = "-a-b-c-". Proof. reflexivity. Qed.
Example cnt1 : strings.Count "a/b/c" "/" = 2. Proof. reflexivity. Qed.
Example trimc : strings.Trim "__a_b__" "_" = "a_b". Proof. reflexivity. Qed.
Example split1 : strings.splitByte "\"%char "DOM\user" = ["DOM"; "user"]. Proof. reflexivity. Qed.
Example runes1 :
  utf8.runes ecoleAdmin = [0xC9; 99; 111; 108; 101; 32; 65; 100; 109; 105; 110].
Proof. reflexivity. Qed.
Example surrogate1 :
  utf8.DecodeRuneInString
    (String (zbyte 0xED) (String (zbyte 0xA0) (String (zbyte 0x80) EmptyString)))
  = (utf8.RuneError, 1%nat).
Proof. reflexivity. Qed.
Example lower1 :
  strings.ToLower (String (zbyte 0xFF) "AB") = utf8.EncodeRune utf8.RuneError ++ "ab".
Proof. reflexivity. Qed.
Example snake1 : cmd.toSnakeCase "MapReduce Script" = "map_reduce_script".
Proof. reflexivity. Qed.
Example snake2 : cmd.toSnakeCase "my-HTTPServer 2" = "my_httpserver_2".
Proof. reflexivity. Qed.
Example record1 : cmd.getRecordType "suitelet" = "suitelet". Proof. reflexivity. Qed.
Example record2 : cmd.getRecordType "nothing" = "". Proof. reflexivity. Qed.
Example prefix1 : cmd.GetCompanyPrefix "  Acme Corp " = "acm". Proof. reflexivity. Qed.

End LibraryExamples.

(** * Properties *)


(** ** Bytes and strings *)



Lemma append_assoc (a b c : string) : (a ++ b) ++ c = a ++ (b ++ c).
Proof. induction a as [|x a IH]; simpl; [reflexivity|]. rewrite IH; reflexivity. Qed.

Lemma length_append (a b : string) :
  String.length (a ++ b) = (String.length a + String.length b)%nat.
Proof. induction a as [|c a IH]; simpl; auto. Qed.

Lemma len_nonneg (s : string) : 0 <= len s.
Proof. unfold len; lia. Qed.


(** ** The company prefix *)
Section CompanyPrefix.
Context {U : UnicodeTables}.


End CompanyPrefix.


(** ** Loading the preference files *)
Section Preferences.
Context {L : cmd.Lib} {FS : Type} {os : OS FS}.


End Preferences.


#[local] Arguments String.append : simpl never.

(** ** Integers that do not wrap *)

Lemma wrap_small (z : Z) :
  strconv.MinInt <= z <= strconv.MaxInt -> wrap z = z.
Proof.
  unfold wrap, strconv.MinInt, strconv.MaxInt; intros H.
  rewrite Z.mod_small; lia.
Qed.

Lemma intAdd_small (a b : Z) :
  strconv.MinInt <= a + b <= strconv.MaxInt -> intAdd a b = a + b.
Proof. apply wrap_small. Qed.

Lemma intSub_small (a b : Z) :
  strconv.MinInt <= a - b <= strconv.MaxInt -> intSub a b = a - b.
Proof. apply wrap_small. Qed.

Lemma intMul_small (a b : Z) :
  strconv.MinInt <= a * b <= strconv.MaxInt -> intMul a b = a * b.
Proof. apply wrap_small. Qed.

(** ** What printing and reading do to the world *)
Section Worlds.
Context {FS : Type}.


Lemma addOut_nil (w : World FS) : addOut w [] = w.
Proof. destruct w; unfold addOut; simpl; rewrite app_nil_r; reflexivity. Qed.

Lemma addOut_addOut (w : World FS) (a b : list string) :
  addOut (addOut w a) b = addOut w (a ++ b)%list.
Proof. unfold addOut; simpl; rewrite app_assoc; reflexivity. Qed.

Lemma Print_eq (s : string) (w : World FS) : Print s w = (Returned tt, addOut w [s]).
Proof. reflexivity. Qed.

Lemma Println_eq (s : string) (w : World FS) :
  Println s w = (Returned tt, addOut w [s ++ nl]).
Proof. reflexivity. Qed.

Lemma time_Sleep_eq (n : Z) (w : World FS) :
  time_Sleep n w = (Returned tt, addEv w (EvSleep n)).
Proof. reflexivity. Qed.

Lemma ReadString_eq (reader : string) (w : World FS) :
  ReadString reader w =
    (let '(r, buf, input) := fillLine reader (stdin w) in
     (Returned (r, buf), setIn w input)).
Proof. reflexivity. Qed.

Lemma bind_Returned {A B} (m : Prog FS A) (k : A -> Prog FS B) (w w' : World FS) (a : A) :
  m w = (Returned a, w') -> bind m k w = k a w'.
Proof. unfold bind; intros ->; reflexivity. Qed.

Lemma bind_Exited {A B} (m : Prog FS A) (k : A -> Prog FS B) (w w' : World FS) (c : Z) :
  m w = (Exited c, w') -> bind m k w = (Exited c, w').
Proof. unfold bind; intros ->; reflexivity. Qed.

Lemma forLoop_S {S R} (fuel : nat) (body : S -> Prog FS (LoopStep S R)) (s : S)
      (w : World FS) :
  forLoop (Datatypes.S fuel) body s w =
    match body s w with
    | (Returned (Continue s'), w') => forLoop fuel body s' w'
    | (Returned (Break r), w') => (Returned r, w')
    | (Exited c, w') => (Exited c, w')
    | (Panicked, w') => (Panicked, w')
    | (OutOfFuel, w') => (OutOfFuel, w')
    end.
Proof. reflexivity. Qed.

End Worlds.

Section PrintsOnly.
Context {FS : Type}.


Lemma printsOnly_ret : @printsOnly FS (ret tt).
Proof. intros w; exists []; unfold ret; rewrite addOut_nil; reflexivity. Qed.

Lemma printsOnly_Print (s : string) : @printsOnly FS (Print s).
Proof. intros w; exists [s]; reflexivity. Qed.

Lemma printsOnly_bind (m : Prog FS unit) (k : unit -> Prog FS unit) :
  printsOnly m -> printsOnly (k tt) -> printsOnly (bind m k).
Proof.
  intros Hm Hk w. destruct (Hm w) as [o1 E1].
  destruct (Hk (addOut w o1)) as [o2 E2].
  exists (o1 ++ o2)%list. rewrite (bind_Returned _ _ _ _ _ E1), E2, addOut_addOut.
  reflexivity.
Qed.

Lemma printsOnly_if (b : bool) (m1 m2 : Prog FS unit) :
  printsOnly m1 -> printsOnly m2 -> printsOnly (if b then m1 else m2).
Proof. destruct b; auto. Qed.

End PrintsOnly.

(** Runs the printing and sleeping steps at the head of a computation. *)
Ltac run_prints :=
  repeat (erewrite bind_Returned
            by first [apply Print_eq | apply Println_eq | apply time_Sleep_eq];
          cbv beta).

(** ** The folder menu *)
Section Menu.
Context {U : UnicodeTables} {FS : Type}.


Lemma lenL_nonneg {A} (l : list A) : 0 <= cmd.lenL l.
Proof. unfold cmd.lenL; lia. Qed.

(** The page count as the code computes it, without wrap-around. *)
Lemma totalPagesOf_eq (folders : list cmd.FolderOption) :
  folders_fit folders ->
  cmd.totalPagesOf folders = (cmd.lenL folders + 19) / 20.
Proof.
  intros Hfit. pose proof (lenL_nonneg folders) as Hn.
  unfold folders_fit, cmd.totalPagesOf, cmd.pageSize, strconv.MaxInt in *.
  rewrite intAdd_small by (unfold strconv.MinInt, strconv.MaxInt; lia).
  rewrite intSub_small by (unfold strconv.MinInt, strconv.MaxInt; lia).
  unfold intDiv.
  rewrite Z.quot_div_nonneg by lia.
  replace (cmd.lenL folders + 20 - 1) with (cmd.lenL folders + 19) by lia.
  apply wrap_small.
  unfold strconv.MinInt, strconv.MaxInt.
  assert (0 <= (cmd.lenL folders + 19) / 20 <= cmd.lenL folders + 19).
  { split; [apply Z.div_pos; lia|apply Z.div_le_upper_bound; lia]. }
  lia.
Qed.

(** The page count is the ceiling of [entryCount / 20],
    the least number of pages of 20 that hold all entries. *)
Lemma totalPagesOf_ceiling (folders : list cmd.FolderOption) :
  folders_fit folders ->
  20 * (cmd.totalPagesOf folders - 1) < cmd.lenL folders <= 20 * cmd.totalPagesOf folders.
Proof.
  intros Hfit. rewrite (totalPagesOf_eq _ Hfit).
  pose proof (Z.div_mod (cmd.lenL folders + 19) 20 ltac:(lia)) as E.
  pose proof (Z.mod_pos_bound (cmd.lenL folders + 19) 20 ltac:(lia)) as B.
  lia.
Qed.

Lemma index_in_range {A} (l : list A) (i : Z) :
  0 <= i < cmd.lenL l -> exists x, cmd.index l i = Some x.
Proof.
  unfold cmd.index, cmd.lenL; intros [H0 H1].
  destruct (i <? 0) eqn:E; [apply Z.ltb_lt in E; lia|].
  destruct (nth_error l (Z.to_nat i)) eqn:N; eauto.
  apply nth_error_None in N; lia.
Qed.

Lemma printEntries_ok (n : nat) (folders : list cmd.FolderOption) (i : Z) (w : World FS) :
  0 <= i -> i + Z.of_nat n <= cmd.lenL folders -> folders_fit folders ->
  exists out, cmd.printEntries n folders i w = (Returned tt, addOut w out).
Proof.
  revert i w; induction n as [|n IH]; intros i w H0 H1 Hfit.
  - exists []; simpl; unfold ret; rewrite addOut_nil; reflexivity.
  - pose proof Hfit as Hfit'. unfold folders_fit in Hfit'.
    simpl cmd.printEntries.
    destruct (index_in_range folders i) as [f Hf]; [lia|]. rewrite Hf.
    assert (Hi : intAdd i 1 = i + 1).
    { apply intAdd_small; unfold strconv.MinInt, cmd.pageSize in *; lia. }
    rewrite Hi.
    destruct (IH (i + 1) (addOut w ["  " ++ strconv.Itoa (i + 1) ++ ". " ++ cmd.Display f ++ nl]))
      as [out Ho]; try lia; auto.
    eexists. erewrite bind_Returned by apply Print_eq.
    cbv beta. rewrite addOut_addOut in Ho. exact Ho.
Qed.

(** Showing a page that exists prints and does nothing else. *)
Lemma menuDisplay_ok (folders : list cmd.FolderOption) (page : Z) :
  folders_fit folders -> 0 <= page < cmd.totalPagesOf folders ->
  @printsOnly FS (cmd.menuDisplay folders (cmd.totalPagesOf folders) page).
Proof.
  intros Hfit Hpage.
  pose proof (totalPagesOf_ceiling _ Hfit) as Hc.
  pose proof (lenL_nonneg folders) as Hn.
  pose proof Hfit as Hfit'.
  unfold folders_fit, cmd.pageSize, strconv.MaxInt in Hfit'.
  unfold cmd.menuDisplay.
  assert (Hs : intMul page cmd.pageSize = page * 20).
  { apply intMul_small; unfold strconv.MinInt, strconv.MaxInt, cmd.pageSize; lia. }
  rewrite Hs.
  assert (He : intAdd (page * 20) cmd.pageSize = page * 20 + 20).
  { apply intAdd_small; unfold strconv.MinInt, strconv.MaxInt, cmd.pageSize; lia. }
  rewrite He.
  set (end_ := if page * 20 + 20 >? cmd.lenL folders then cmd.lenL folders else page * 20 + 20).
  assert (Hend : page * 20 <= end_ <= cmd.lenL folders).
  { subst end_. destruct (page * 20 + 20 >? cmd.lenL folders) eqn:G.
    - lia.
    - rewrite Z.gtb_ltb, Z.ltb_ge in G. lia. }
  repeat first [ apply printsOnly_bind | apply printsOnly_Print
               | apply printsOnly_ret | apply printsOnly_if ].
  intros w. apply printEntries_ok; [lia| rewrite Z2Nat.id by lia; lia | exact Hfit].
Qed.


Lemma Atoi_not_nav (token : string) (i : Z) :
  strconv.Atoi token = Some i -> token <> "n" /\ token <> "p".
Proof. intros H; split; intros ->; discriminate H. Qed.

Lemma eqb_neq_false (a b : string) : a <> b -> String.eqb a b = false.
Proof. intros H; destruct (String.eqb_spec a b); congruence. Qed.

(** One pass of the menu loop on a page that exists, when the reader
    delivers [line]. *)
Section Transition.
Variables (folders : list cmd.FolderOption) (scriptPathPrefix reader : string).
Variables (page : Z) (w : World FS) (line reader' : string) (input' : list string).
Hypothesis Hnonempty : 0 < cmd.lenL folders.
Hypothesis Hfit : folders_fit folders.
Hypothesis Hpage : 0 <= page < cmd.totalPagesOf folders.
Hypothesis Hread : fillLine reader (stdin w) = (Ok line, reader', input').

Let N := cmd.lenL folders.
Let totalPages := cmd.totalPagesOf folders.
Let token := strings.TrimSpace (strings.ToLower line).
Let pass := cmd.menuBody folders scriptPathPrefix totalPages (reader, page) w.

(** The pass shows the page, reads the line, and goes on as the code after
    the read says. *)
Lemma menuBody_read :
  exists out,
    pass =
      (let w2 := setIn (addOut w out) input' in
       if (totalPages >? 1) && String.eqb token "n" && (page <? totalPages - 1)
       then (Returned (Continue (reader', page + 1)), w2)
       else if (totalPages >? 1) && String.eqb token "p" && (page >? 0)
       then (Returned (Continue (reader', page - 1)), w2)
       else
         match strconv.Atoi token with
         | None =>
           (Returned (Continue (reader', page)),
            addEv (addOut w2 (notANumber totalPages)) (EvSleep 1))
         | Some selection =>
           if selection =? 0 then (Returned (Break (EmptyString, scriptPathPrefix)), w2)
           else if (selection <? 1) || (selection >? N) then
             (Returned (Continue (reader', page)),
              addEv (addOut w2 (outOfRange folders)) (EvSleep 1))
           else
             match cmd.index folders (selection - 1) with
             | None => (Panicked, w2)
             | Some f => (Returned (Break (cmd.Path f, scriptPathPrefix)), w2)
             end
         end).
Proof using Hfit Hpage Hread.
  clear Hnonempty.
  destruct (menuDisplay_ok folders page Hfit Hpage w) as [out Hout].
  exists out. subst pass. unfold cmd.menuBody.
  erewrite bind_Returned by exact Hout. cbv beta.
  erewrite bind_Returned
    by (rewrite ReadString_eq; simpl stdin; rewrite Hread; reflexivity).
  cbv beta iota zeta. fold token. fold totalPages. fold N.
  pose proof (totalPagesOf_ceiling _ Hfit) as Hc. fold totalPages N in Hc.
  pose proof Hfit as Hfit'. unfold folders_fit, cmd.pageSize, strconv.MaxInt in Hfit'.
  fold N in Hfit'.
  assert (E1 : intSub totalPages 1 = totalPages - 1).
  { apply intSub_small; unfold strconv.MinInt, strconv.MaxInt; fold totalPages in Hpage; lia. }
  assert (E2 : intAdd page 1 = page + 1).
  { apply intAdd_small; unfold strconv.MinInt, strconv.MaxInt; fold totalPages in Hpage; lia. }
  assert (E3 : intSub page 1 = page - 1).
  { apply intSub_small; unfold strconv.MinInt, strconv.MaxInt; fold totalPages in Hpage; lia. }
  rewrite E1, E2, E3.
  destruct ((totalPages >? 1) && String.eqb token "n" && (page <? totalPages - 1));
    [reflexivity|].
  destruct ((totalPages >? 1) && String.eqb token "p" && (page >? 0)); [reflexivity|].
  destruct (strconv.Atoi token) as [selection|].
  - destruct (selection =? 0); [reflexivity|].
    destruct ((selection <? 1) || (selection >? N)) eqn:R.
    + reflexivity.
    + apply orb_false_iff in R as [R1 R2].
      rewrite Z.ltb_ge in R1. rewrite Z.gtb_ltb, Z.ltb_ge in R2.
      rewrite intSub_small by (unfold strconv.MinInt, strconv.MaxInt; lia).
      destruct (cmd.index folders (selection - 1)); reflexivity.
  - unfold notANumber.
    destruct (totalPages >? 1); run_prints; rewrite ?addOut_addOut; reflexivity.
Qed.

(** C2.  For a non-empty folder list of length [N], on a page that
    exists, with [token] the line read, lowercased and trimmed:
    - the token ["n"] moves to the next page exactly when a next page
      exists, and otherwise is answered by an error message and the same
      page;
    - a token that is the integer 0 ends the selection with the root (the
      empty path);
    - a token that is an integer [i] with [1 <= i <= N] ends it with the
      path of entry [i - 1];
    - an integer outside [[0, N]] is answered by the out-of-range message, a
      pause, and the same page;
    - a token that is no integer and neither ["n"] nor ["p"] is answered by
      the not-a-number message, a pause, and the same page.
    In every case the world changes by the menu text, the line consumed,
    and (in the error cases) the message and the pause. *)
Theorem menu_transition :
  exists out,
    let w2 := setIn (addOut w out) input' in
    (token = "n" ->
       (page < totalPages - 1 -> pass = (Returned (Continue (reader', page + 1)), w2))
       /\ (totalPages - 1 <= page ->
             pass = (Returned (Continue (reader', page)),
                     addEv (addOut w2 (notANumber totalPages)) (EvSleep 1))))
    /\ (strconv.Atoi token = Some 0 ->
          pass = (Returned (Break (EmptyString, scriptPathPrefix)), w2))
    /\ (forall i, strconv.Atoi token = Some i -> 1 <= i <= N ->
          exists f, nth_error folders (Z.to_nat (i - 1)) = Some f
                    /\ pass = (Returned (Break (cmd.Path f, scriptPathPrefix)), w2))
    /\ (forall i, strconv.Atoi token = Some i -> i < 0 \/ N < i ->
          pass = (Returned (Continue (reader', page)),
                  addEv (addOut w2 (outOfRange folders)) (EvSleep 1)))
    /\ (strconv.Atoi token = None -> token <> "n" -> token <> "p" ->
          pass = (Returned (Continue (reader', page)),
                  addEv (addOut w2 (notANumber totalPages)) (EvSleep 1))).
Proof using Hnonempty Hfit Hpage Hread.
  destruct menuBody_read as [out Hpass]. exists out. cbv zeta in *.
  pose proof (totalPagesOf_ceiling _ Hfit) as Hc. fold totalPages N in Hc.
  fold totalPages in Hpage.
  repeat split.
  - (* "n", a next page exists *)
    intros Hn. rewrite Hpass, H; simpl String.eqb.
    replace (totalPages >? 1) with true by (symmetry; apply Z.gtb_lt; lia).
    replace (page <? totalPages - 1) with true by (symmetry; apply Z.ltb_lt; lia).
    reflexivity.
  - (* "n", on the last page *)
    intros Hn. rewrite Hpass, H; simpl String.eqb.
    replace (page <? totalPages - 1) with false by (symmetry; apply Z.ltb_ge; lia).
    rewrite andb_false_r, andb_false_r. reflexivity.
  - (* 0 *)
    intros H0. destruct (Atoi_not_nav _ _ H0) as [Nn Np].
    rewrite Hpass, (eqb_neq_false _ _ Nn), (eqb_neq_false _ _ Np), H0.
    rewrite !andb_false_r. reflexivity.
  - (* an entry *)
    intros i Hi Hr. destruct (Atoi_not_nav _ _ Hi) as [Nn Np].
    destruct (index_in_range folders (i - 1)) as [f Hf]; [fold N; lia|].
    exists f. split.
    + unfold cmd.index in Hf. destruct (i - 1 <? 0); [discriminate|exact Hf].
    + rewrite Hpass, (eqb_neq_false _ _ Nn), (eqb_neq_false _ _ Np), Hi, Hf.
      rewrite !andb_false_r.
      replace (i =? 0) with false by (symmetry; apply Z.eqb_neq; lia).
      replace (i <? 1) with false by (symmetry; apply Z.ltb_ge; lia).
      replace (i >? N) with false by (rewrite Z.gtb_ltb; symmetry; apply Z.ltb_ge; lia).
      reflexivity.
  - (* a number that is no entry *)
    intros i Hi Hr. destruct (Atoi_not_nav _ _ Hi) as [Nn Np].
    rewrite Hpass, (eqb_neq_false _ _ Nn), (eqb_neq_false _ _ Np), Hi.
    rewrite !andb_false_r.
    replace (i =? 0) with false by (symmetry; apply Z.eqb_neq; unfold N in *; pose proof (lenL_nonneg folders); lia).
    replace ((i <? 1) || (i >? N)) with true; [reflexivity|].
    symmetry; apply orb_true_iff. rewrite Z.ltb_lt, Z.gtb_ltb, Z.ltb_lt.
    pose proof (lenL_nonneg folders); fold N in H. lia.
  - (* no number *)
    intros Hi Nn Np.
    rewrite Hpass, (eqb_neq_false _ _ Nn), (eqb_neq_false _ _ Np), Hi.
    rewrite !andb_false_r. reflexivity.
Qed.

End Transition.


(** A pass of the menu loop whose read fails ends the process with status 1. *)
Lemma menuBody_eof (folders : list cmd.FolderOption) (scriptPathPrefix reader : string)
      (page : Z) (w : World FS) (e : goerror) (reader' : string) (input' : list string) :
  folders_fit folders -> 0 <= page < cmd.totalPagesOf folders ->
  fillLine reader (stdin w) = (Err e, reader', input') ->
  exists w',
    cmd.menuBody folders scriptPathPrefix (cmd.totalPagesOf folders) (reader, page) w
    = (Exited 1, w').
Proof.
  intros Hfit Hpage Hread.
  destruct (menuDisplay_ok folders page Hfit Hpage w) as [out Hout].
  unfold cmd.menuBody.
  erewrite bind_Returned by exact Hout. cbv beta.
  erewrite bind_Returned
    by (rewrite ReadString_eq; simpl stdin; rewrite Hread; reflexivity).
  cbv beta iota zeta. run_prints. eexists; reflexivity.
Qed.

Lemma cutLine_length (s l r : string) :
  cutLine s = Some (l, r) ->
  String.length s = (String.length l + String.length r)%nat /\ (0 < String.length l)%nat.
Proof.
  revert l r; induction s as [|c t IH]; simpl; intros l r H; [discriminate|].
  destruct (Ascii.eqb c "010"%char).
  - inversion H; subst; simpl; lia.
  - destruct (cutLine t) as [[l' r']|]; [|discriminate].
    inversion H; subst. destruct (IH l' r eq_refl). simpl; lia.
Qed.

(** A line read uses up at least one of the bytes still to come. *)
Lemma fillLine_consumes (input : list string) (buf line buf' : string) (input' : list string) :
  fillLine buf input = (Ok line, buf', input') ->
  (String.length buf' + cmd.pending input' < String.length buf + cmd.pending input)%nat.
Proof.
  revert buf; induction input as [|chunk input IH]; intros buf H; simpl in H.
  - destruct (cutLine buf) as [[l r]|] eqn:C; [|discriminate].
    inversion H; subst. destruct (cutLine_length _ _ _ C). simpl; lia.
  - destruct (cutLine buf) as [[l r]|] eqn:C.
    + inversion H; subst. destruct (cutLine_length _ _ _ C). simpl; lia.
    + apply IH in H. rewrite length_append in H. simpl; lia.
Qed.

(** The menu loop ends: with a selection, or with exit status 1 when the
    input ends.  It never runs out of fuel and never indexes out of
    range. *)
Lemma menuLoop_total (fuel : nat) (folders : list cmd.FolderOption)
      (scriptPathPrefix reader : string) (page : Z) (w : World FS) :
  folders_fit folders -> 0 <= page < cmd.totalPagesOf folders ->
  (String.length reader + cmd.pending (stdin w) < fuel)%nat ->
  exists w',
    (exists sel, forLoop fuel (cmd.menuBody folders scriptPathPrefix (cmd.totalPagesOf folders))
                         (reader, page) w = (Returned (sel, scriptPathPrefix), w'))
    \/ forLoop fuel (cmd.menuBody folders scriptPathPrefix (cmd.totalPagesOf folders))
                (reader, page) w = (Exited 1, w').
Proof.
  intros Hfit. revert reader page w.
  induction fuel as [|fuel IH]; intros reader page w Hpage Hfuel; [lia|].
  pose proof (totalPagesOf_ceiling _ Hfit) as Hc.
  rewrite forLoop_S.
  destruct (fillLine reader (stdin w)) as [[[line|e] reader'] input'] eqn:Hread.
  - destruct (menuBody_read folders scriptPathPrefix reader page w line reader' input'
                Hfit Hpage Hread) as [out Hpass].
    rewrite Hpass. cbv zeta.
    apply fillLine_consumes in Hread.
    set (w2 := setIn (addOut w out) input').
    assert (Hm : forall o e0, (String.length reader' + cmd.pending (stdin (addEv (addOut w2 o) e0)) < fuel)%nat).
    { intros; simpl; lia. }
    assert (Hm2 : (String.length reader' + cmd.pending (stdin w2) < fuel)%nat).
    { simpl; lia. }
    destruct ((cmd.totalPagesOf folders >? 1) && String.eqb _ "n"
              && (page <? cmd.totalPagesOf folders - 1)) eqn:G1.
    { apply andb_true_iff in G1 as [_ G1]. apply Z.ltb_lt in G1.
      apply IH; [lia|exact Hm2]. }
    destruct ((cmd.totalPagesOf folders >? 1) && String.eqb _ "p" && (page >? 0)) eqn:G2.
    { apply andb_true_iff in G2 as [_ G2]. rewrite Z.gtb_ltb in G2. apply Z.ltb_lt in G2.
      apply IH; [lia|exact Hm2]. }
    destruct (strconv.Atoi _) as [selection|].
    + destruct (selection =? 0); [eexists; left; eexists; reflexivity|].
      destruct ((selection <? 1) || (selection >? cmd.lenL folders)) eqn:R.
      * apply IH; [lia|apply Hm].
      * apply orb_false_iff in R as [R1 R2].
        rewrite Z.ltb_ge in R1. rewrite Z.gtb_ltb, Z.ltb_ge in R2.
        destruct (index_in_range folders (selection - 1)) as [f Hf]; [lia|].
        rewrite Hf. eexists; left; eexists; reflexivity.
    + apply IH; [lia|apply Hm].
  - destruct (menuBody_eof folders scriptPathPrefix reader page w e reader' input'
                Hfit Hpage Hread) as [w' Hw'].
    rewrite Hw'. exists w'; right; reflexivity.
Qed.

Lemma displayScrollableMenu_total (folders : list cmd.FolderOption)
      (scriptPathPrefix : string) (w : World FS) :
  0 < cmd.lenL folders -> folders_fit folders ->
  exists w',
    (exists sel, cmd.displayScrollableMenu folders scriptPathPrefix w
                 = (Returned (sel, scriptPathPrefix), w'))
    \/ cmd.displayScrollableMenu folders scriptPathPrefix w = (Exited 1, w').
Proof.
  intros Hpos Hfit. unfold cmd.displayScrollableMenu.
  apply menuLoop_total.
  - exact Hfit.
  - pose proof (totalPagesOf_ceiling _ Hfit). lia.
  - unfold bufio_NewReader; simpl; lia.
Qed.

(** C5.  With [folders] the catalog found: when it is not empty, the
    selector is the paginated menu, whose page count is the ceiling of
    [entryCount / 20] (the least [p] with [entryCount <= 20 * p]); when it
    is empty, the selector is the root-placement question and the menu is
    not displayed. *)
Theorem selector_pages (depth : nat) {os : OS FS} (suiteScriptsDir : string) (w : World FS)
        (folders : list cmd.FolderOption) :
  cmd.findAllFolders depth (fs w) (cwd w) suiteScriptsDir "" = Some folders ->
  folders_fit folders ->
  (0 < cmd.lenL folders ->
     20 * (cmd.totalPagesOf folders - 1) < cmd.lenL folders <= 20 * cmd.totalPagesOf folders
     /\ cmd.selectScriptFolder depth suiteScriptsDir w
        = forLoop (S (cmd.pending (stdin w)))
                  (cmd.menuBody folders "SuiteScripts/" (cmd.totalPagesOf folders))
                  (bufio_NewReader, 0) w)
  /\ (cmd.lenL folders = 0 ->
        cmd.selectScriptFolder depth suiteScriptsDir w = rootPlacement w).
Proof.
  intros Hfind Hfit. split.
  - intros Hpos. split; [apply totalPagesOf_ceiling, Hfit|].
    unfold cmd.selectScriptFolder, bind, getWorld. rewrite Hfind.
    replace (cmd.lenL folders =? 0) with false by (symmetry; apply Z.eqb_neq; lia).
    reflexivity.
  - intros Hz.
    unfold cmd.selectScriptFolder, bind, getWorld. rewrite Hfind, Hz. simpl (0 =? 0).
    cbv iota. unfold rootPlacement.
    rewrite Print_eq, ReadString_eq. simpl stdin.
    destruct (fillLine bufio_NewReader (stdin w)) as [[[line|e] buf] rest]; cbv iota beta.
    + unfold affirmative.
      destruct (String.eqb _ "y"); simpl; [reflexivity|].
      destruct (String.eqb _ "yes"); reflexivity.
    + reflexivity.
Qed.

End Menu.

(** ** The laws of sequencing, at a world *)
Section Laws.
Context {FS : Type}.

Lemma bind_assoc_at {A B C} (m : Prog FS A) (f : A -> Prog FS B) (g : B -> Prog FS C)
      (w : World FS) :
  bind (bind m f) g w = bind m (fun a => bind (f a) g) w.
Proof. unfold bind; destruct (m w) as [[a|c| |] w']; reflexivity. Qed.

Lemma bind_cong_at {A B} (m : Prog FS A) (f g : A -> Prog FS B) (w : World FS) :
  (forall a w', f a w' = g a w') -> bind m f w = bind m g w.
Proof. intros H; unfold bind; destruct (m w) as [[a|c| |] w']; auto. Qed.

Lemma bind_ret_at {A B} (a : A) (f : A -> Prog FS B) (w : World FS) :
  bind (ret a) f w = f a w.
Proof. reflexivity. Qed.

Lemma bind_exit_at {A B} (c : Z) (f : A -> Prog FS B) (w : World FS) :
  bind (os_Exit c) f w = os_Exit c w.
Proof. reflexivity. Qed.

Lemma bind_diverge_at {A B} (f : A -> Prog FS B) (w : World FS) :
  bind diverge f w = diverge w.
Proof. reflexivity. Qed.

End Laws.

(** Proves two computations equal at every world when they run the same
    steps in the same order and differ in how the steps are grouped. *)
Ltac same_steps :=
  cbv beta zeta;
  cbn [pre_config pre_scriptName pre_description pre_recordType pre_today
       pre_templates pre_suiteScriptsDir fst snd
       cmd.Project cmd.ProjectName cmd.Description cmd.Date cmd.CompanyName
       cmd.UserName cmd.UserEmail cmd.ScriptName cmd.ScriptId cmd.ScriptPath
       cmd.DeploymentId cmd.RecordType];
  lazymatch goal with
  | |- bind (bind _ _) _ _ = _ => rewrite bind_assoc_at; same_steps
  | |- _ = bind (bind _ _) _ _ => rewrite (bind_assoc_at _ _ _ _); same_steps
  | |- bind (ret _) _ _ = _ => rewrite bind_ret_at; same_steps
  | |- _ = bind (ret _) _ _ => rewrite (bind_ret_at _ _ _); same_steps
  | |- bind (os_Exit _) _ _ = _ => rewrite bind_exit_at; same_steps
  | |- _ = bind (os_Exit _) _ _ => rewrite (bind_exit_at _ _ _); same_steps
  | |- bind diverge _ _ = _ => rewrite bind_diverge_at; same_steps
  | |- _ = bind diverge _ _ => rewrite (bind_diverge_at _ _); same_steps
  | |- bind (match ?x with Ok _ => _ | Err _ => _ end) _ _ = _ => destruct x; same_steps
  | |- (match ?x with Ok _ => _ | Err _ => _ end) _ = _ => destruct x; same_steps
  | |- bind (match ?x with Some _ => _ | None => _ end) _ _ = _ => destruct x; same_steps
  | |- (match ?x with Some _ => _ | None => _ end) _ = _ => destruct x; same_steps
  | |- bind (let '(_, _) := ?x in _) _ _ = _ => destruct x; same_steps
  | |- (let '(_, _) := ?x in _) _ = _ => destruct x; same_steps
  | |- bind (if ?b then _ else _) _ _ = _ => destruct b; same_steps
  | |- (if ?b then _ else _) _ = _ => destruct b; same_steps
  | |- bind ?m _ _ = bind ?m _ _ => apply bind_cong_at; intros; same_steps
  | |- ?x = ?x => reflexivity
  | |- context [if ?b then _ else _] => destruct b; same_steps
  | |- _ => reflexivity
  end.

(** ** Which events a computation appends *)
Section Frame.
Context {FS : Type}.
Variable P : Event -> Prop.

Lemma adds_ret {A} (a : A) : @adds FS A P (ret a).
Proof. intros w o w' H; inversion H; subst; exists []; rewrite app_nil_r; auto. Qed.

Lemma adds_exit {A} (c : Z) : @adds FS A P (os_Exit c).
Proof. intros w o w' H; inversion H; subst; exists []; rewrite app_nil_r; auto. Qed.

Lemma adds_panic {A} : @adds FS A P panic.
Proof. intros w o w' H; inversion H; subst; exists []; rewrite app_nil_r; auto. Qed.

Lemma adds_diverge {A} : @adds FS A P diverge.
Proof. intros w o w' H; inversion H; subst; exists []; rewrite app_nil_r; auto. Qed.

Lemma adds_getWorld : @adds FS _ P getWorld.
Proof. intros w o w' H; inversion H; subst; exists []; rewrite app_nil_r; auto. Qed.

Lemma adds_Print (s : string) : @adds FS _ P (Print s).
Proof. intros w o w' H; inversion H; subst; exists []; simpl; rewrite app_nil_r; auto. Qed.

Lemma adds_Println (s : string) : @adds FS _ P (Println s).
Proof. apply adds_Print. Qed.

Lemma adds_ReadString (reader : string) : @adds FS _ P (ReadString reader).
Proof.
  intros w o w' H. unfold ReadString in H.
  destruct (fillLine reader (stdin w)) as [[r buf] input].
  inversion H; subst; exists []; simpl; rewrite app_nil_r; auto.
Qed.

Lemma adds_logEvent (e : Event) : P e -> @adds FS _ P (logEvent e).
Proof. intros He w o w' H; inversion H; subst; exists [e]; simpl; auto. Qed.

Lemma adds_bind {A B} (m : Prog FS A) (k : A -> Prog FS B) :
  adds P m -> (forall a, adds P (k a)) -> adds P (bind m k).
Proof.
  intros Hm Hk w o w' H. unfold bind in H.
  destruct (m w) as [[a|c| |] w1] eqn:E; destruct (Hm _ _ _ E) as [l1 [E1 F1]].
  - destruct (Hk a _ _ _ H) as [l2 [E2 F2]].
    exists (l1 ++ l2)%list. rewrite E2, E1, app_assoc. split; auto using Forall_app.
    apply Forall_app; auto.
  - inversion H; subst; eauto.
  - inversion H; subst; eauto.
  - inversion H; subst; eauto.
Qed.

Lemma adds_forLoop {S R} (fuel : nat) (body : S -> Prog FS (LoopStep S R)) (s : S) :
  (forall s, adds P (body s)) -> adds P (forLoop fuel body s).
Proof.
  intros Hb. revert s; induction fuel as [|fuel IH]; intros s.
  - apply adds_diverge.
  - intros w o w' H. rewrite forLoop_S in H.
    destruct (body s w) as [[[s'|r]|c| |] w1] eqn:E; destruct (Hb _ _ _ _ E) as [l1 [E1 F1]].
    + destruct (IH _ _ _ _ H) as [l2 [E2 F2]].
      exists (l1 ++ l2)%list. rewrite E2, E1, app_assoc. split; auto.
      apply Forall_app; auto.
    + inversion H; subst; eauto.
    + inversion H; subst; eauto.
    + inversion H; subst; eauto.
    + inversion H; subst; eauto.
Qed.

End Frame.

Lemma adds_weaken {FS A} (P Q : Event -> Prop) (m : Prog FS A) :
  (forall e, P e -> Q e) -> adds P m -> adds Q m.
Proof.
  intros HPQ Hm w o w' H. destruct (Hm _ _ _ H) as [l [E F]].
  exists l; split; auto. eapply Forall_impl; eauto.
Qed.

(** The calls of the operating system and what they append. *)
Section FrameOS.
Context {U : UnicodeTables} {L : cmd.Lib} {FS : Type} {os : OS FS}.
Variable P : Event -> Prop.

Ltac quiet_call :=
  intros w o w' H; inversion H; subst; exists []; rewrite app_nil_r; auto.

Lemma adds_os_Getwd : adds P (@cmd.os_Getwd FS os).
Proof.
  intros w o w' H. unfold cmd.os_Getwd in H.
  destruct (sys_Getwd_err (fs w) (cwd w)); inversion H; subst; exists [];
    rewrite app_nil_r; auto.
Qed.

Lemma adds_os_UserHomeDir : adds P (@cmd.os_UserHomeDir FS os).
Proof. quiet_call. Qed.

Lemma adds_os_Stat (path : string) : adds P (@cmd.os_Stat FS os path).
Proof. quiet_call. Qed.

Lemma adds_os_ReadFile (path : string) : adds P (@cmd.os_ReadFile FS os path).
Proof. quiet_call. Qed.

Lemma adds_time_Today : adds P (@cmd.time_Today FS os).
Proof. quiet_call. Qed.

Lemma adds_os_MkdirAll (path : string) :
  (forall ok, P (EvMkdirAll path ok)) -> adds P (@cmd.os_MkdirAll FS os path).
Proof.
  intros HP w o w' H. unfold cmd.os_MkdirAll in H.
  destruct (sys_MkdirAll (fs w) (cwd w) path) as [e fs'].
  inversion H; subst. simpl. eexists; split; [reflexivity|]. auto.
Qed.

Lemma adds_os_WriteFile (path data : string) :
  (forall ok, P (EvWriteFile path data ok)) -> adds P (@cmd.os_WriteFile FS os path data).
Proof.
  intros HP w o w' H. unfold cmd.os_WriteFile in H.
  destruct (sys_WriteFile (fs w) (cwd w) path data) as [e fs'].
  inversion H; subst. simpl. eexists; split; [reflexivity|]. auto.
Qed.

End FrameOS.

(** Proves that a computation appends only events of a kind, step by
    step. *)
Ltac adds_step :=
  first
    [ apply adds_ret | apply adds_exit | apply adds_panic | apply adds_diverge
    | apply adds_getWorld | apply adds_Print | apply adds_Println
    | apply adds_ReadString | apply adds_os_Getwd | apply adds_os_UserHomeDir
    | apply adds_os_Stat | apply adds_os_ReadFile | apply adds_time_Today
    | apply adds_bind; [|intros]
    | match goal with
      | |- adds _ (match ?x with Ok _ => _ | Err _ => _ end) => destruct x
      | |- adds _ (match ?x with Some _ => _ | None => _ end) => destruct x
      | |- adds _ (let '(_, _) := ?x in _) => destruct x
      | |- adds _ (if ?b then _ else _) => destruct b
      end ].

(** ** The phases of [runAdd] *)
Section RunAdd.
Context {U : UnicodeTables} {L : cmd.Lib} {FS : Type} {os : OS FS}.

(** [runAdd] is its prelude, the folder selection, and its finish. *)
Lemma runAdd_phases (depth : nat) (scriptType : string) (args : list string) (w : World FS) :
  cmd.runAdd depth scriptType args w = runAddPhases depth scriptType args w.
Proof.
  unfold cmd.runAdd, runAddPhases, runAddPrelude, runAddFinish, templateDataOf,
    tsPathOf, tsFileNameOf, xmlPathOf, xmlTargetDirOf, targetDirOf, prefixedFileNameOf,
    companyPrefixOf.
  same_steps.
Qed.


Lemma adds_LoadConfig (P : Event -> Prop) : adds P (@cmd.LoadConfig L FS os).
Proof. unfold cmd.LoadConfig. repeat adds_step. Qed.

Lemma adds_GetTemplates (P : Event -> Prop) (scriptType : string) :
  adds P (@cmd.GetTemplates L FS scriptType).
Proof. unfold cmd.GetTemplates. repeat adds_step. Qed.

Lemma adds_firstExistingDir (P : Event -> Prop) (paths : list string) :
  adds P (@cmd.firstExistingDir FS os paths).
Proof.
  induction paths as [|p r IH]; simpl.
  - apply adds_ret.
  - apply adds_bind; [apply adds_os_Stat|]. intros [[|]|e]; auto using adds_ret.
Qed.

(** [findSuiteScriptsDir] and [findObjectsDir] create at most one
    directory, the one they return, and touch nothing else. *)
Lemma adds_findSuiteScriptsDir :
  adds isMkdir (@cmd.findSuiteScriptsDir FS os).
Proof.
  unfold cmd.findSuiteScriptsDir.
  repeat first [ apply adds_firstExistingDir | apply adds_os_MkdirAll; intros; exact I
               | adds_step ].
Qed.

(** The prelude of [runAdd] writes no file: the only event it may append
    is the creation of the SuiteScripts directory. *)
Lemma adds_runAddPrelude (scriptType : string) (args : list string) :
  adds isMkdir (@runAddPrelude U L FS os scriptType args).
Proof.
  unfold runAddPrelude.
  repeat first [ apply adds_LoadConfig | apply adds_GetTemplates
               | apply adds_findSuiteScriptsDir | adds_step ].
Qed.

Lemma adds_printEntries (P : Event -> Prop) (n : nat) (folders : list cmd.FolderOption)
      (i : Z) :
  adds P (@cmd.printEntries FS n folders i).
Proof.
  revert i; induction n as [|n IH]; intros i; simpl.
  - apply adds_ret.
  - destruct (cmd.index folders i); [|apply adds_panic].
    apply adds_bind; [apply adds_Print|intros; apply IH].
Qed.

Lemma adds_menuBody (folders : list cmd.FolderOption) (scriptPathPrefix : string)
      (totalPages : Z) (st : string * Z) :
  adds isSleep (@cmd.menuBody U FS folders scriptPathPrefix totalPages st).
Proof.
  unfold cmd.menuBody, cmd.menuDisplay. destruct st as [reader page].
  repeat first [ apply adds_printEntries | apply adds_logEvent; exact I | adds_step ].
Qed.

(** The folder selection touches neither files nor directories: it only
    prints, reads, and pauses after a wrong answer. *)
Lemma adds_selectScriptFolder (depth : nat) (suiteScriptsDir : string) :
  adds isSleep (@cmd.selectScriptFolder U FS os depth suiteScriptsDir).
Proof.
  unfold cmd.selectScriptFolder.
  apply adds_bind; [apply adds_getWorld|]. intros w0.
  destruct (cmd.findAllFolders depth (fs w0) (cwd w0) suiteScriptsDir "");
    [|apply adds_diverge].
  destruct (cmd.lenL l =? 0).
  - repeat adds_step.
  - unfold cmd.displayScrollableMenu. intros w o w' H.
    eapply adds_forLoop; [|exact H]. intros; apply adds_menuBody.
Qed.


Lemma bind_Returned_inv {A B} (m : Prog FS A) (k : A -> Prog FS B) (w w' : World FS) (b : B) :
  bind m k w = (Returned b, w') ->
  exists a w1, m w = (Returned a, w1) /\ k a w1 = (Returned b, w').
Proof.
  unfold bind; destruct (m w) as [[a|c| |] w1]; intros H; try discriminate; eauto.
Qed.

Lemma Print_inv {A} (s : string) (k : unit -> Prog FS A) (w w' : World FS) (o : Outcome A) :
  bind (Print s) k w = (o, w') -> k tt (addOut w [s]) = (o, w').
Proof. intros H; exact H. Qed.

(** [renderAndWrite], when it returns, has written the rendered text, and
    done nothing else. *)
Lemma renderAndWrite_returns (path tmplStr : string) (data : cmd.TemplateData)
      (w w' : World FS) :
  cmd.renderAndWrite path tmplStr data w = (Returned tt, w') ->
  exists text,
    cmd.template_Execute tmplStr data = Ok text
    /\ events w' = (events w ++ [EvWriteFile path text true])%list
    /\ stdout w' = stdout w /\ stdin w' = stdin w /\ cwd w' = cwd w.
Proof.
  unfold cmd.renderAndWrite.
  destruct (cmd.template_Parse tmplStr); [intros H; discriminate H|].
  destruct (cmd.template_Execute tmplStr data) as [text|e]; [|intros H; discriminate H].
  unfold bind, cmd.os_WriteFile.
  destruct (sys_WriteFile (fs w) (cwd w) path text) as [[e|] fs'];
    intros H; inversion H; subst.
  exists text; simpl; auto.
Qed.

Lemma firstExistingDir_spec (paths : list string) (w w' : World FS)
      (o : Outcome (option string)) :
  cmd.firstExistingDir paths w = (o, w') ->
  w' = w /\ exists r, o = Returned r /\ match r with Some d => In d paths | None => True end.
Proof.
  revert w w' o; induction paths as [|p r IH]; simpl; intros w w' o H.
  - inversion H; subst; split; auto. exists None; auto.
  - unfold bind, cmd.os_Stat in H.
    destruct (sys_Stat (fs w) (cwd w) p) as [[|]|e].
    + inversion H; subst; split; auto. exists (Some p); simpl; auto.
    + destruct (IH _ _ _ H) as [-> [x [-> Hx]]]. split; auto.
      exists x; split; auto. destruct x; simpl; auto.
    + destruct (IH _ _ _ H) as [-> [x [-> Hx]]]. split; auto.
      exists x; split; auto. destruct x; simpl; auto.
Qed.

(** [findObjectsDir], when it returns a directory, has found it or created
    it. *)
Lemma findObjectsDir_returns (w w' : World FS) (dir : string) :
  cmd.findObjectsDir w = (Returned (Ok dir), w') ->
  exists l, objectsRootEvents dir l /\ events w' = (events w ++ l)%list
            /\ stdout w' = stdout w /\ stdin w' = stdin w /\ cwd w' = cwd w.
Proof.
  unfold cmd.findObjectsDir. intros H.
  apply bind_Returned_inv in H as [found [w1 [Hf H]]].
  apply firstExistingDir_spec in Hf as [-> [r [Er Hr]]]. inversion Er; subst r.
  destruct found as [d|].
  - inversion H; subst. exists []. rewrite app_nil_r. repeat split; auto.
    constructor; exact Hr.
  - unfold bind, cmd.os_Stat, cmd.os_MkdirAll in H.
    destruct (cmd.statOk (sys_Stat (fs w) (cwd w) "src"));
      match type of H with context [sys_MkdirAll ?a ?b ?c] =>
        destruct (sys_MkdirAll a b c) as [[e|] fs'] end;
      inversion H; subst; simpl; eexists; (split; [apply objectsRootCreated|auto]);
      simpl; auto.
Qed.

(** A warning or error path of [findObjectsDir] that does not return a
    directory does not return at all in [runAdd]; what it appends is a
    directory creation at most. *)
Lemma adds_findObjectsDir : adds isMkdir (@cmd.findObjectsDir FS os).
Proof.
  unfold cmd.findObjectsDir.
  repeat first [ apply adds_firstExistingDir | apply adds_os_MkdirAll; intros; exact I
               | adds_step ].
Qed.

(** The finish of [runAdd], when it returns: the target directory was
    created and the primary artifact written there; then, if the secondary
    artifact applies, the objects root was located, the directory of the
    record-type tag created under it, and the secondary artifact written
    there; if the category has an XML template but no record-type tag, the
    objects root was located and nothing else; otherwise nothing. *)
Lemma runAddFinish_returns (scriptType : string) (p : Prelude) (sel : string * string)
      (w w' : World FS) :
  runAddFinish scriptType p sel w = (Returned tt, w') ->
  exists tsText tail,
    cmd.template_Execute (cmd.TypeScript (pre_templates p)) (templateDataOf scriptType p sel)
      = Ok tsText
    /\ events w' = (events w ++ primaryEvents scriptType p (fst sel) tsText ++ tail)%list
    /\ (if secondaryApplies scriptType p then
          exists dir found xmlText,
            objectsRootEvents dir found
            /\ cmd.template_Execute (cmd.XML (pre_templates p))
                                    (templateDataOf scriptType p sel) = Ok xmlText
            /\ tail = (found ++ secondaryEvents scriptType p dir xmlText)%list
        else if negb (String.eqb (cmd.XML (pre_templates p)) "")
                && negb (String.eqb scriptType "common")
        then exists dir, objectsRootEvents dir tail
        else tail = []).
Proof.
  unfold runAddFinish. intros H.
  apply bind_Returned_inv in H as [e [w1 [Hm H]]].
  unfold cmd.os_MkdirAll in Hm.
  destruct (sys_MkdirAll (fs w) (cwd w) (targetDirOf p (fst sel))) as [e0 fs1].
  inversion Hm; subst e w1; clear Hm.
  destruct e0 as [err|]; [discriminate H|].
  apply bind_Returned_inv in H as [[] [w2 [Hr H]]].
  apply renderAndWrite_returns in Hr as [tsText [Hts [Ev2 _]]].
  simpl in Ev2.
  apply Print_inv in H.
  exists tsText.
  unfold secondaryApplies.
  destruct (negb (String.eqb (cmd.XML (pre_templates p)) "")
            && negb (String.eqb scriptType "common")) eqn:C.
  - apply bind_Returned_inv in H as [od [w3 [Ho H]]].
    destruct od as [dir|err]; [|discriminate H].
    apply findObjectsDir_returns in Ho as [found [Hfound [Ev3 _]]].
    simpl in Ev3.
    destruct (String.eqb (cmd.getRecordType scriptType) "") eqn:G; simpl.
    + inversion H; subst w'. simpl.
      exists found. split; [exact Hts|]. split.
      * rewrite Ev3, Ev2. unfold primaryEvents. rewrite <- !app_assoc. reflexivity.
      * exists dir; exact Hfound.
    + apply bind_Returned_inv in H as [e [w4 [Hm H]]].
      unfold cmd.os_MkdirAll in Hm.
      destruct (sys_MkdirAll (fs w3) (cwd w3) (xmlTargetDirOf scriptType p dir)) as [e1 fs4].
      inversion Hm; subst e w4; clear Hm.
      destruct e1 as [err|]; [discriminate H|].
      apply bind_Returned_inv in H as [[] [w5 [Hr H]]].
      apply renderAndWrite_returns in Hr as [xmlText [Hxml [Ev5 _]]].
      simpl in Ev5. inversion H; subst w'. simpl.
      exists (found ++ secondaryEvents scriptType p dir xmlText)%list.
      split; [exact Hts|]. split.
      * rewrite Ev5, Ev3, Ev2. unfold primaryEvents, secondaryEvents.
        rewrite <- !app_assoc. reflexivity.
      * exists dir, found, xmlText. auto.
  - simpl. inversion H; subst w'. simpl. exists []. split; [exact Hts|]. split; auto.
    rewrite Ev2, <- app_assoc. reflexivity.
Qed.


Lemma getRecordType_common : cmd.getRecordType "common" = "".
Proof. reflexivity. Qed.


Lemma isMkdir_no_write (l : list Event) : Forall isMkdir l -> filter isWrite l = [].
Proof.
  induction 1 as [|e l He _ IH]; simpl; auto.
  destruct e; simpl in *; try contradiction; auto.
Qed.

Lemma isSleep_no_write (l : list Event) : Forall isSleep l -> filter isWrite l = [].
Proof.
  induction 1 as [|e l He _ IH]; simpl; auto.
  destruct e; simpl in *; try contradiction; auto.
Qed.

(** A run of [runAdd] from its prelude's result and the selection made. *)
Lemma runAdd_from_phases (depth : nat) (scriptType : string) (args : list string)
      (w w1 w2 : World FS) (p : Prelude) (sel : string * string) :
  runAddPrelude scriptType args w = (Returned p, w1) ->
  cmd.selectScriptFolder depth (pre_suiteScriptsDir p) w1 = (Returned sel, w2) ->
  cmd.runAdd depth scriptType args w = runAddFinish scriptType p sel w2.
Proof.
  intros Hp Hs. rewrite runAdd_phases. unfold runAddPhases.
  rewrite (bind_Returned _ _ _ _ _ Hp). rewrite (bind_Returned _ _ _ _ _ Hs). reflexivity.
Qed.


(** C6.  When the prelude has run, the folder catalog is empty, and the
    line answered to the root-placement question is no affirmative, the
    [add] operation ends with exit status 0, having asked the question and
    reported the cancellation, and having written no file: all it may have
    done is create the SuiteScripts directory. *)
Theorem add_cancelled (depth : nat) (scriptType : string) (args : list string)
        (w w1 : World FS) (p : Prelude) (line buf : string) (rest : list string) :
  runAddPrelude scriptType args w = (Returned p, w1) ->
  cmd.findAllFolders depth (fs w1) (cwd w1) (pre_suiteScriptsDir p) "" = Some [] ->
  fillLine bufio_NewReader (stdin w1) = (Ok line, buf, rest) ->
  affirmative line = false ->
  exists w' done,
    cmd.runAdd depth scriptType args w = (Exited 0, w')
    /\ events w' = (events w ++ done)%list
    /\ Forall isMkdir done
    /\ filter isWrite done = []
    /\ stdout w' = (stdout w1 ++ [rootQuestion; cancelledMessage])%list.
Proof.
  intros Hp Hfind Hread Hno.
  destruct (adds_runAddPrelude _ _ _ _ _ Hp) as [l1 [E1 F1]].
  rewrite runAdd_phases. unfold runAddPhases.
  rewrite (bind_Returned _ _ _ _ _ Hp).
  assert (Hsel : cmd.selectScriptFolder depth (pre_suiteScriptsDir p) w1 = rootPlacement w1).
  { apply (selector_pages depth _ w1 [] Hfind).
    - unfold folders_fit, cmd.lenL, cmd.pageSize, strconv.MaxInt; simpl; lia.
    - reflexivity. }
  unfold rootPlacement in Hsel. rewrite Hread, Hno in Hsel.
  rewrite (bind_Exited _ _ _ _ _ Hsel).
  eexists; exists l1. split; [reflexivity|]. simpl.
  repeat split; auto using isMkdir_no_write.
  rewrite <- app_assoc. reflexivity.
Qed.


(** Takes a returning [bind] apart. *)
Ltac inv_bind H :=
  let a := fresh "a" in let w := fresh "w" in let Hm := fresh "Hm" in
  apply bind_Returned_inv in H as [a [w [Hm H]]].

(** The prelude carries the record type answered at its prompt: for
    [userevent] and [workflowaction] the prompt is printed, a line is read,
    and the record type is that line trimmed, which is not empty; for the
    other categories nothing is asked and the record type is empty. *)
Lemma prelude_recordType (scriptType : string) (args : list string) (w w1 : World FS)
      (p : Prelude) :
  runAddPrelude scriptType args w = (Returned p, w1) ->
  if asksRecordType scriptType then
    exists (w0 : World FS) reader line reader' rest,
      fillLine reader (stdin (addOut w0 [recordTypeQuestion])) = (Ok line, reader', rest)
      /\ pre_recordType p = strings.TrimSpace line
      /\ pre_recordType p <> ""
  else pre_recordType p = "".
Proof.
  unfold runAddPrelude, asksRecordType. intros H.
  inv_bind H. destruct a as [config|err]; [|discriminate H].
  inv_bind H. clear Hm0.
  destruct (String.eqb a "") eqn:En; [discriminate H|].
  apply Print_inv in H. cbv beta in H.
  inv_bind H. clear Hm0.
  apply Print_inv in H. cbv beta in H.
  inv_bind H. clear Hm0.
  destruct a1 as [[description|err] reader]; [|discriminate H].
  inv_bind H.
  assert (Hrt : pre_recordType p = a1).
  { repeat inv_bind H. destruct a4 as [d|err]; [|discriminate H].
    inversion H; subst; reflexivity. }
  clear H. rewrite Hrt.
  destruct (String.eqb scriptType "userevent" || String.eqb scriptType "workflowaction").
  - apply Print_inv in Hm0. cbv beta in Hm0. inv_bind Hm0.
    destruct a2 as [[line|err] reader']; [|discriminate Hm0].
    destruct (String.eqb (strings.TrimSpace line) "") eqn:Et; [discriminate Hm0|].
    inversion Hm0; subst a1 w6.
    unfold ReadString in Hm1.
    match type of Hm1 with context [fillLine ?r (stdin ?ww)] =>
      destruct (fillLine r (stdin ww)) as [[r0 b0] i0] eqn:Hfill end.
    inversion Hm1; subst.
    eexists _, _, line, _, _. split; [exact Hfill|]. split; [reflexivity|].
    intros E; rewrite E in Et; discriminate Et.
  - inversion Hm0; reflexivity.
Qed.

(** C10.  In a run of [add] for [userevent] or [workflowaction] that
    completes, with a non-empty XML template: the secondary artifact goes to
    the directory named by the category's fixed tag ([usereventscript] or
    [workflowactionscript]) under [<objectsRoot>/<projectName>], whatever
    record type was answered at the prompt; the answer, trimmed, is the
    [RecordType] field of the data both templates are rendered with, and
    appears nowhere else. *)
Theorem record_type_directory (depth : nat) (scriptType : string) (args : list string)
        (w w1 w2 w' : World FS) (p : Prelude) (sel : string * string) :
  scriptType = "userevent" \/ scriptType = "workflowaction" ->
  cmd.XML (pre_templates p) <> "" ->
  runAddPrelude scriptType args w = (Returned p, w1) ->
  cmd.selectScriptFolder depth (pre_suiteScriptsDir p) w1 = (Returned sel, w2) ->
  cmd.runAdd depth scriptType args w = (Returned tt, w') ->
  let tag := if String.eqb scriptType "userevent"
             then "usereventscript" else "workflowactionscript" in
  exists before tsText dir found xmlText (w0 : World FS) reader line reader' rest,
    events w' =
      (events w ++ before ++ primaryEvents scriptType p (fst sel) tsText ++ found
       ++ secondaryEvents scriptType p dir xmlText)%list
    /\ xmlTargetDirOf scriptType p dir
       = filepath.Join [dir; cmd.pc_ProjectName (pre_config p); tag]
    /\ xmlPathOf scriptType p dir
       = filepath.Join [filepath.Join [dir; cmd.pc_ProjectName (pre_config p); tag];
                        prefixedFileNameOf p ++ ".xml"]
    /\ filter isWrite before = []
    /\ objectsRootEvents dir found
    /\ cmd.template_Execute (cmd.XML (pre_templates p)) (templateDataOf scriptType p sel)
       = Ok xmlText
    /\ cmd.RecordType (templateDataOf scriptType p sel) = strings.TrimSpace line
    /\ fillLine reader (stdin (addOut w0 [recordTypeQuestion])) = (Ok line, reader', rest)
    /\ strings.TrimSpace line <> "".
Proof.
  intros Ht Hxml Hp Hs Hrun tag.
  pose proof (prelude_recordType _ _ _ _ _ Hp) as Hrt.
  assert (Hasks : asksRecordType scriptType = true).
  { destruct Ht as [-> | ->]; reflexivity. }
  rewrite Hasks in Hrt.
  destruct Hrt as [w0 [reader [line [reader' [rest [Hfill [Hrt Hne]]]]]]].
  assert (Htag : cmd.getRecordType scriptType = tag).
  { subst tag. destruct Ht as [-> | ->]; reflexivity. }
  rewrite (runAdd_from_phases _ _ _ _ _ _ _ _ Hp Hs) in Hrun.
  destruct (adds_runAddPrelude _ _ _ _ _ Hp) as [l1 [E1 F1]].
  destruct (adds_selectScriptFolder _ _ _ _ _ Hs) as [l2 [E2 F2]].
  destruct (runAddFinish_returns _ _ _ _ _ Hrun) as [tsText [tail [Hts [E3 Htail]]]].
  assert (Happ : secondaryApplies scriptType p = true).
  { unfold secondaryApplies. rewrite Htag, (eqb_neq_false _ _ Hxml).
    destruct Ht as [-> | ->]; reflexivity. }
  rewrite Happ in Htail.
  destruct Htail as [dir [found [xmlText [Hfound [Hx ->]]]]].
  exists (l1 ++ l2)%list, tsText, dir, found, xmlText, w0, reader, line, reader', rest.
  split.
  { rewrite E3, E2, E1, <- !app_assoc. reflexivity. }
  split; [unfold xmlTargetDirOf; rewrite Htag; reflexivity|].
  split; [unfold xmlPathOf, xmlTargetDirOf; rewrite Htag; reflexivity|].
  split.
  { rewrite filter_app, (isMkdir_no_write _ F1), (isSleep_no_write _ F2). reflexivity. }
  split; [exact Hfound|].
  split; [exact Hx|].
  split; [exact Hrt|].
  split; [exact Hfill|].
  rewrite <- Hrt. exact Hne.
Qed.

End RunAdd.

(** ** The folder catalog *)
Section Catalog.
Context {FS : Type} {os : OS FS}.
Variables (fs_ : FS) (cwd_ : string) (baseDir : string).

Lemma findAllFolders_S (fuel' : nat) (relativePath : string) :
  cmd.findAllFolders (S fuel') fs_ cwd_ baseDir relativePath =
    match sys_ReadDir fs_ cwd_ (fullPathOf baseDir relativePath) with
    | Err _ => Some []
    | Ok entries =>
      rangeEntries fs_ cwd_ baseDir fuel' (fullPathOf baseDir relativePath) relativePath entries []
    end.
Proof. reflexivity. Qed.

(** With fuel for its depth, the search of a tree the file system holds
    returns the folders of the pre-order walk. *)
Lemma findAllFolders_walk :
  (forall d relativePath fuel,
      holds fs_ cwd_ baseDir relativePath d -> (height d <= fuel)%nat ->
      cmd.findAllFolders fuel fs_ cwd_ baseDir relativePath
      = Some (map snd (walk baseDir relativePath d)))
  /\ (forall es relativePath fuel' i acc,
         holdsAll fs_ cwd_ baseDir relativePath es -> (heightAll es <= fuel')%nat ->
         rangeEntries fs_ cwd_ baseDir fuel' (fullPathOf baseDir relativePath) relativePath (entriesOf es) acc
         = Some (acc ++ map snd (walkAll baseDir relativePath i es))%list).
Proof.
  apply Dir_Entries_ind.
  - (* a directory that cannot be read *)
    intros rel fuel [e He] Hh. destruct fuel as [|fuel']; [simpl in Hh; lia|].
    rewrite findAllFolders_S, He. reflexivity.
  - (* a listing *)
    intros es IH rel fuel [Hread Hall] Hh.
    destruct fuel as [|fuel']; [simpl in Hh; lia|].
    rewrite findAllFolders_S, Hread.
    rewrite (IH rel fuel' O []); auto. simpl in Hh; lia.
  - (* no more entries *)
    intros rel fuel' i acc _ _. simpl. rewrite app_nil_r. reflexivity.
  - (* a file *)
    intros name rest IH rel fuel' i acc Hall Hh. simpl in *.
    apply IH; auto.
  - (* a directory *)
    intros name sub IHsub rest IHrest rel fuel' i acc [Hsub Hall] Hh.
    simpl in Hh. simpl entriesOf. simpl rangeEntries.
    rewrite (IHsub _ fuel' Hsub) by lia.
    fold (rangeEntries fs_ cwd_ baseDir fuel' (fullPathOf baseDir rel) rel).
    rewrite (IHrest rel fuel' (S i)) by (auto; lia).
    f_equal. simpl walkAll. simpl map. rewrite map_app, map_map. simpl.
    rewrite <- !app_assoc. reflexivity.
Qed.


Lemma StronglySorted_app {A} (R : A -> A -> Prop) (l1 l2 : list A) :
  StronglySorted R l1 -> StronglySorted R l2 ->
  (forall x y, In x l1 -> In y l2 -> R x y) ->
  StronglySorted R (l1 ++ l2).
Proof.
  induction l1 as [|a l1 IH]; simpl; intros H1 H2 H; auto.
  inversion H1; subst. constructor.
  - apply IH; auto.
  - apply Forall_app; split; auto.
    apply Forall_forall; intros y Hy; apply H; auto.
Qed.

Lemma StronglySorted_inside (i : nat) (l : list (list nat)) :
  StronglySorted before l -> StronglySorted before (map (cons i) l).
Proof.
  induction 1 as [|a l Hs IH Hf]; simpl; constructor; auto.
  apply Forall_map. eapply Forall_impl; [|exact Hf].
  intros b Hb; apply before_inside, Hb.
Qed.

(** The addresses of the walk are in pre-order. *)
Lemma walk_sorted :
  (forall d relativePath,
      StronglySorted before (map fst (walk baseDir relativePath d))
      /\ Forall (startsFrom 0) (map fst (walk baseDir relativePath d)))
  /\ (forall es relativePath i,
         StronglySorted before (map fst (walkAll baseDir relativePath i es))
         /\ Forall (startsFrom i) (map fst (walkAll baseDir relativePath i es))).
Proof.
  apply Dir_Entries_ind.
  - intros rel; simpl; split; constructor.
  - intros es IH rel; simpl; apply IH.
  - intros rel i; simpl; split; constructor.
  - intros name rest IH rel i; simpl.
    destruct (IH rel (S i)) as [Hs Hf]. split; auto.
    eapply Forall_impl; [|exact Hf]. intros [|j a]; simpl; auto; lia.
  - intros name sub IHsub rest IHrest rel i. simpl walkAll. simpl map.
    rewrite map_app, map_map. simpl.
    destruct (IHsub (cmd.entryRelativePath rel name)) as [Ss Fs].
    destruct (IHrest rel (S i)) as [Sr Fr].
    set (below := map fst (walk baseDir (cmd.entryRelativePath rel name) sub)) in *.
    set (later := map fst (walkAll baseDir rel (S i) rest)) in *.
    assert (Hmap : map (fun x => i :: fst x) (walk baseDir (cmd.entryRelativePath rel name) sub)
                   = map (cons i) below).
    { subst below. rewrite map_map. reflexivity. }
    rewrite Hmap.
    split.
    + constructor.
      * apply StronglySorted_app; auto using StronglySorted_inside.
        intros x y Hx Hy. apply in_map_iff in Hx as [a [<- Ha]].
        rewrite Forall_forall in Fr. specialize (Fr _ Hy).
        destruct y as [|j b]; simpl in Fr; [contradiction|].
        apply before_sibling; lia.
      * apply Forall_app; split.
        -- apply Forall_map. eapply Forall_impl; [|exact Fs].
           intros [|j a] Ha; simpl in Ha; [contradiction|].
           apply before_inside, before_below.
        -- eapply Forall_impl; [|exact Fr].
           intros [|j b] Hb; simpl in Hb; [contradiction|].
           apply before_sibling; lia.
    + constructor; [simpl; lia|].
      apply Forall_app; split.
      * apply Forall_map, Forall_forall. intros a _; simpl; lia.
      * eapply Forall_impl; [|exact Fr]. intros [|j b]; simpl; auto; lia.
Qed.

(** The walk holds every directory the search can reach, once. *)
Lemma walk_length :
  (forall d relativePath, List.length (walk baseDir relativePath d) = reachable d)
  /\ (forall es relativePath i,
         List.length (walkAll baseDir relativePath i es) = reachableAll es).
Proof.
  apply Dir_Entries_ind; simpl; auto.
  intros name sub IHsub rest IHrest rel i.
  rewrite length_app, length_map, IHsub, IHrest. reflexivity.
Qed.

Lemma walkAll_noSubDir (es : Entries) (relativePath : string) (i : nat) :
  noSubDir es = true -> walkAll baseDir relativePath i es = [].
Proof.
  revert i; induction es as [|name rest IH|name sub rest IH]; simpl; intros i H; auto.
  discriminate H.
Qed.

(** C4.  When the file system holds the tree [d] at the root directory and
    the fuel covers its depth, the search of the root returns a list, the
    folders of the pre-order walk of [d]: their addresses are strictly
    sorted in pre-order (a directory before everything below it, the
    entries of a listing, with everything below them, in listing order),
    and there is one folder for every directory that is not below an
    unreadable one.  A directory that cannot be read is listed itself and
    contributes nothing else; a root that cannot be read, and a root whose
    listing holds no directory, give the empty list. *)
Theorem folder_catalog (d : Dir) (fuel : nat) :
  holds fs_ cwd_ baseDir "" d -> (height d <= fuel)%nat ->
  cmd.findAllFolders fuel fs_ cwd_ baseDir "" = Some (map snd (walk baseDir "" d))
  /\ StronglySorted before (map fst (walk baseDir "" d))
  /\ List.length (walk baseDir "" d) = reachable d
  /\ (forall relativePath i name rest,
        walkAll baseDir relativePath i (SubDir name Unreadable rest)
        = ([i], cmd.folderOption (fullPathOf baseDir relativePath) relativePath name)
            :: walkAll baseDir relativePath (S i) rest)
  /\ (d = Unreadable -> cmd.findAllFolders fuel fs_ cwd_ baseDir "" = Some [])
  /\ (forall es, d = Listing es -> noSubDir es = true ->
        cmd.findAllFolders fuel fs_ cwd_ baseDir "" = Some []).
Proof.
  intros Hholds Hfuel.
  pose proof (proj1 findAllFolders_walk d "" fuel Hholds Hfuel) as Hfind.
  split; [exact Hfind|].
  split; [apply (proj1 walk_sorted)|].
  split; [apply (proj1 walk_length)|].
  split; [reflexivity|].
  split.
  - intros ->. exact Hfind.
  - intros es -> Hno. rewrite Hfind. simpl. rewrite walkAll_noSubDir by exact Hno.
    reflexivity.
Qed.

End Catalog.

(** ** The working directory during [create] *)
Section Defer.
Context {FS : Type}.

(** A deferred call does not run when the process exits inside the body
    it was deferred around. *)
Lemma defer_exit {A} (f : Prog FS unit) (body : Prog FS A) (w w' : World FS) (c : Z) :
  body w = (Exited c, w') -> defer f body w = (Exited c, w').
Proof. unfold defer; intros ->; reflexivity. Qed.

(** A deferred call runs when the body returns. *)
Lemma defer_return {A} (f : Prog FS unit) (body : Prog FS A) (w w' w'' : World FS) (a : A) :
  body w = (Returned a, w') -> f w' = (Returned tt, w'') ->
  defer f body w = (Returned a, w'').
Proof. unfold defer; intros -> ->; reflexivity. Qed.

End Defer.

(** ** Steps that change no directory *)
Section Calm.
Context {FS : Type}.








End Calm.

Section CalmOS.
Context {U : UnicodeTables} {L : cmd.Lib} {FS : Type} {os : OS FS}.











End CalmOS.


Section CalmCreate.
Context {U : UnicodeTables} {L : cmd.Lib} {FS : Type} {os : OS FS}.







End CalmCreate.

(** ** How a run of [create] ends *)
Section CreateShape.
Context {U : UnicodeTables} {L : cmd.Lib} {FS : Type} {os : OS FS}.






End CreateShape.



Section CreateRun.
Context {U : UnicodeTables} {L : cmd.Lib} {FS : Type} {os : OS FS}.


End CreateRun.

(** ** UTF-8 *)

Lemma byteZ_range (c : ascii) : 0 <= byteZ c < 256.
Proof.
  unfold byteZ. pose proof (N_ascii_bounded c). lia.
Qed.

Lemma byteZ_zbyte (z : Z) : 0 <= z < 256 -> byteZ (zbyte z) = z.
Proof.
  intros H. unfold byteZ, zbyte. rewrite Z.mod_small by lia.
  rewrite N_ascii_embedding by lia. lia.
Qed.

Lemma zbyte_byteZ (c : ascii) : zbyte (byteZ c) = c.
Proof.
  unfold byteZ, zbyte. pose proof (N_ascii_bounded c).
  rewrite Z.mod_small by lia. rewrite N2Z.id. apply ascii_N_embedding.
Qed.

(** Decides the comparisons of a goal by the arithmetic of its context. *)
Ltac decide_tests :=
  repeat match goal with
         | |- context [?a <? ?b] =>
           destruct (Z.ltb_spec a b); try lia
         | |- context [?a <=? ?b] =>
           destruct (Z.leb_spec a b); try lia
         | |- context [?a =? ?b] =>
           destruct (Z.eqb_spec a b); try lia
         end.

Lemma first_1 (b : ascii) : byteZ b < 0x80 -> utf8.first b = Some (1%nat, 0, 0).
Proof. intros H; unfold utf8.first; cbv zeta; decide_tests; reflexivity. Qed.

Lemma first_2 (b : ascii) :
  0xC2 <= byteZ b <= 0xDF -> utf8.first b = Some (2%nat, 0x80, 0xBF).
Proof. intros H; unfold utf8.first; cbv zeta; decide_tests; reflexivity. Qed.

Lemma first_3 (b : ascii) :
  0xE0 <= byteZ b <= 0xEF ->
  utf8.first b = Some (3%nat, (if byteZ b =? 0xE0 then 0xA0 else 0x80),
                       (if byteZ b =? 0xED then 0x9F else 0xBF)).
Proof. intros H; unfold utf8.first; cbv zeta; decide_tests; reflexivity. Qed.

Lemma first_4 (b : ascii) :
  0xF0 <= byteZ b <= 0xF4 ->
  utf8.first b = Some (4%nat, (if byteZ b =? 0xF0 then 0x90 else 0x80),
                       (if byteZ b =? 0xF4 then 0x8F else 0xBF)).
Proof. intros H; unfold utf8.first; cbv zeta; decide_tests; reflexivity. Qed.

Lemma first_none (b : ascii) :
  0x80 <= byteZ b < 0xC2 \/ 0xF4 < byteZ b -> utf8.first b = None.
Proof. intros H; unfold utf8.first; cbv zeta; decide_tests; reflexivity. Qed.

Lemma inRange_true (lo hi : Z) (c : ascii) :
  lo <= byteZ c <= hi -> inRange lo hi c = true.
Proof.
  intros H; unfold inRange. apply andb_true_iff; split; apply Z.leb_le; lia.
Qed.

Lemma inRange_iff (lo hi : Z) (c : ascii) :
  inRange lo hi c = true <-> lo <= byteZ c <= hi.
Proof.
  unfold inRange. rewrite andb_true_iff, !Z.leb_le. tauto.
Qed.

(** Linear arithmetic with quotients and remainders by constants. *)
Ltac dlia := Z.to_euclidean_division_equations; lia.

Lemma append_String (a : ascii) (s t : string) :
  String a s ++ t = String a (s ++ t).
Proof. reflexivity. Qed.

Lemma append_Empty (t : string) : "" ++ t = t.
Proof. reflexivity. Qed.

(** Unfolds one decoding step on a string whose first bytes are known. *)
Ltac decode_step :=
  rewrite ?append_String, ?append_Empty; unfold utf8.DecodeRuneInString.

Ltac decode_done :=
  cbv beta iota; cbn [Nat.eqb negb String.length].

(** Decoding an encoded rune gives the rune back, and its width. *)
Lemma decode_encode (r : Z) (rest : string) :
  validRune r ->
  utf8.DecodeRuneInString (utf8.EncodeRune r ++ rest)
  = (r, String.length (utf8.EncodeRune r))
  /\ (1 <= String.length (utf8.EncodeRune r) <= 4)%nat.
Proof.
  intros [[H0 H1] Hs]. unfold utf8.MaxRune in H1.
  unfold utf8.EncodeRune, utf8.MaxRune. cbv zeta.
  destruct ((0 <=? r) && (r <=? 0x7F)) eqn:C1.
  { apply andb_true_iff in C1 as [_ C1]. apply Z.leb_le in C1.
    decode_step. rewrite first_1 by (rewrite byteZ_zbyte; lia).
    decode_done.
    rewrite byteZ_zbyte by lia. split; [reflexivity|lia]. }
  assert (0x80 <= r).
  { apply andb_false_iff in C1 as [C1|C1];
      [apply Z.leb_gt in C1|apply Z.leb_gt in C1]; lia. }
  destruct ((0 <=? r) && (r <=? 0x7FF)) eqn:C2.
  { apply andb_true_iff in C2 as [_ C2]. apply Z.leb_le in C2.
    decode_step. rewrite first_2 by (rewrite byteZ_zbyte; dlia).
    rewrite inRange_true by (rewrite byteZ_zbyte; dlia). decode_done.
    rewrite !byteZ_zbyte by dlia.
    split; [|lia]. f_equal. dlia. }
  assert (0x800 <= r).
  { apply andb_false_iff in C2 as [C2|C2];
      [apply Z.leb_gt in C2|apply Z.leb_gt in C2]; lia. }
  replace ((r <? 0) || (1114111 <? r) || ((55296 <=? r) && (r <=? 57343))) with false.
  2:{ symmetry. apply orb_false_iff; split; [apply orb_false_iff; split|].
      - apply Z.ltb_ge; lia.
      - apply Z.ltb_ge; lia.
      - apply andb_false_iff.
        destruct (Z.leb_spec 55296 r); [right; apply Z.leb_gt; lia|left; reflexivity]. }
  destruct (r <=? 0xFFFF) eqn:C3.
  { apply Z.leb_le in C3.
    decode_step. rewrite first_3 by (rewrite byteZ_zbyte; dlia).
    rewrite !byteZ_zbyte by dlia.
    rewrite inRange_true.
    2:{ rewrite byteZ_zbyte by dlia. decide_tests; dlia. }
    rewrite inRange_true by (rewrite byteZ_zbyte; dlia). decode_done.
    split; [|lia]. f_equal. dlia. }
  apply Z.leb_gt in C3.
  decode_step. rewrite first_4 by (rewrite byteZ_zbyte; dlia).
  rewrite !byteZ_zbyte by dlia.
  rewrite inRange_true.
  2:{ rewrite byteZ_zbyte by dlia. decide_tests; dlia. }
  rewrite inRange_true by (rewrite byteZ_zbyte; dlia).
  rewrite inRange_true by (rewrite byteZ_zbyte; dlia). decode_done.
  split; [|lia]. f_equal. dlia.
Qed.

Lemma validRune_RuneError : validRune utf8.RuneError.
Proof. unfold validRune, utf8.RuneError, utf8.MaxRune. lia. Qed.

(** Whatever the bytes, a decoding step yields a rune that has an encoding,
    and consumes at least one byte and no more than there are. *)
Lemma decode_valid (s : string) (r : Z) (w : nat) :
  s <> "" ->
  utf8.DecodeRuneInString s = (r, w) ->
  validRune r /\ (1 <= w <= String.length s)%nat.
Proof.
  intros Hne H. destruct s as [|b0 t]; [congruence|]. clear Hne.
  pose proof (byteZ_range b0) as R0.
  assert (E : forall x : Z * nat,
             x = (utf8.RuneError, 1%nat) -> x = (r, w) ->
             validRune r /\ (1 <= w <= String.length (String b0 t))%nat).
  { intros x -> [= <- <-]. split; [apply validRune_RuneError|cbn [String.length]; lia]. }
  unfold utf8.DecodeRuneInString in H.
  destruct (Z.lt_ge_cases (byteZ b0) 0x80) as [C|C].
  { rewrite first_1 in H by lia. injection H as <- <-.
    split; [unfold validRune, utf8.MaxRune; lia|cbn [String.length]; lia]. }
  destruct (Z.lt_ge_cases (byteZ b0) 0xC2) as [C2|C2].
  { rewrite first_none in H by lia. eapply E; [reflexivity|exact H]. }
  destruct (Z.le_gt_cases (byteZ b0) 0xDF) as [C3|C3].
  { rewrite first_2 in H by lia. cbv beta iota in H.
    destruct t as [|b1 t1]; [eapply E; [reflexivity|exact H]|].
    destruct (inRange 128 191 b1) eqn:I1; cbn [negb Nat.eqb] in H;
      [|eapply E; [reflexivity|exact H]].
    apply inRange_iff in I1. injection H as <- <-.
    split; [unfold validRune, utf8.MaxRune; dlia|cbn [String.length]; lia]. }
  destruct (Z.le_gt_cases (byteZ b0) 0xEF) as [C4|C4].
  { rewrite first_3 in H by lia. cbv beta iota in H.
    destruct t as [|b1 t1]; [eapply E; [reflexivity|exact H]|].
    match type of H with context [inRange ?lo ?hi b1] =>
      destruct (inRange lo hi b1) eqn:I1 end; cbn [negb Nat.eqb] in H;
      [|eapply E; [reflexivity|exact H]].
    apply inRange_iff in I1.
    destruct t1 as [|b2 t2]; [eapply E; [reflexivity|exact H]|].
    destruct (inRange 128 191 b2) eqn:I2; cbn [negb Nat.eqb] in H;
      [|eapply E; [reflexivity|exact H]].
    apply inRange_iff in I2. injection H as <- <-.
    split; [|cbn [String.length]; lia].
    unfold validRune, utf8.MaxRune.
    destruct (Z.eqb_spec (byteZ b0) 224), (Z.eqb_spec (byteZ b0) 237); dlia. }
  destruct (Z.le_gt_cases (byteZ b0) 0xF4) as [C5|C5].
  2:{ rewrite first_none in H by lia. eapply E; [reflexivity|exact H]. }
  rewrite first_4 in H by lia. cbv beta iota in H.
  destruct t as [|b1 t1]; [eapply E; [reflexivity|exact H]|].
  match type of H with context [inRange ?lo ?hi b1] =>
    destruct (inRange lo hi b1) eqn:I1 end; cbn [negb Nat.eqb] in H;
    [|eapply E; [reflexivity|exact H]].
  apply inRange_iff in I1.
  destruct t1 as [|b2 t2]; [eapply E; [reflexivity|exact H]|].
  destruct (inRange 128 191 b2) eqn:I2; cbn [negb Nat.eqb] in H;
    [|eapply E; [reflexivity|exact H]].
  apply inRange_iff in I2.
  destruct t2 as [|b3 t3]; [eapply E; [reflexivity|exact H]|].
  destruct (inRange 128 191 b3) eqn:I3; cbn [negb Nat.eqb] in H;
    [|eapply E; [reflexivity|exact H]].
  apply inRange_iff in I3. injection H as <- <-.
  split; [|cbn [String.length]; lia].
  unfold validRune, utf8.MaxRune.
  destruct (Z.eqb_spec (byteZ b0) 240), (Z.eqb_spec (byteZ b0) 244); dlia.
Qed.

(** ** The runes of a string *)

Lemma length_drop (n : nat) (s : string) :
  String.length (drop n s) = (String.length s - n)%nat.
Proof.
  revert s; induction n as [|n IH]; intros [|c t]; cbn [drop String.length];
    try rewrite IH; lia.
Qed.

Lemma drop_append (a b : string) : drop (String.length a) (a ++ b) = b.
Proof.
  induction a as [|c a IH]; [reflexivity|].
  rewrite append_String. cbn [String.length drop]. exact IH.
Qed.

(** The byte length is fuel enough: more changes nothing. *)
Lemma runesFuel_indep (f1 f2 : nat) (s : string) :
  (String.length s <= f1)%nat -> (String.length s <= f2)%nat ->
  utf8.runesFuel f1 s = utf8.runesFuel f2 s.
Proof.
  revert f2 s; induction f1 as [|f1 IH]; intros f2 s H1 H2.
  { destruct s; [destruct f2; reflexivity|cbn [String.length] in H1; lia]. }
  destruct s as [|b t]; [destruct f2; reflexivity|].
  destruct f2 as [|f2]; [cbn [String.length] in H2; lia|].
  cbn [utf8.runesFuel].
  destruct (utf8.DecodeRuneInString (String b t)) as [r w] eqn:D.
  destruct (decode_valid (String b t) r w ltac:(discriminate) D) as [_ Hw].
  cbn [String.length] in H1, H2, Hw.
  f_equal. apply IH; rewrite length_drop; cbn [String.length]; lia.
Qed.

Lemma runesFuel_enough (fuel : nat) (s : string) :
  (String.length s <= fuel)%nat ->
  utf8.runesFuel fuel s = utf8.runes s.
Proof.
  intros H. apply runesFuel_indep; [exact H|lia].
Qed.

Lemma runes_empty : utf8.runes "" = [].
Proof. reflexivity. Qed.

(** One step of the [range] loop. *)
Lemma runes_step (s : string) (r : Z) (w : nat) :
  s <> "" ->
  utf8.DecodeRuneInString s = (r, w) ->
  utf8.runes s = r :: utf8.runes (drop w s).
Proof.
  intros Hne D. destruct (decode_valid _ _ _ Hne D) as [_ Hw].
  unfold utf8.runes at 1. destruct s as [|b t]; [congruence|].
  cbn [String.length utf8.runesFuel]. rewrite D. f_equal.
  apply runesFuel_enough. rewrite length_drop. cbn [String.length]. lia.
Qed.

(** Every rune of the loop has an encoding. *)
Lemma runes_valid (s : string) : Forall validRune (utf8.runes s).
Proof.
  remember (String.length s) as n eqn:Hn.
  revert s Hn; induction n as [n IH] using lt_wf_ind; intros s Hn.
  destruct s as [|b t]; [constructor|].
  destruct (utf8.DecodeRuneInString (String b t)) as [r w] eqn:D.
  destruct (decode_valid (String b t) r w ltac:(discriminate) D) as [Hr Hw].
  rewrite (runes_step (String b t) _ _ ltac:(discriminate) D). constructor; [exact Hr|].
  apply (IH (String.length (drop w (String b t)))); [|reflexivity].
  rewrite length_drop. cbn [String.length] in *. lia.
Qed.

Lemma EncodeRune_nonempty (r : Z) (rest : string) :
  validRune r -> utf8.EncodeRune r ++ rest <> "".
Proof.
  intros Hr E. destruct (decode_encode r rest Hr) as [_ Hl].
  destruct (utf8.EncodeRune r); [cbn [String.length] in Hl; lia|].
  rewrite append_String in E. discriminate E.
Qed.

(** The loop over an encoded rune followed by more yields the rune and
    goes on with the rest. *)
Lemma runes_encode (r : Z) (rest : string) :
  validRune r ->
  utf8.runes (utf8.EncodeRune r ++ rest) = r :: utf8.runes rest.
Proof.
  intros Hr. destruct (decode_encode r rest Hr) as [D _].
  rewrite (runes_step _ _ _ (EncodeRune_nonempty r rest Hr) D).
  rewrite drop_append. reflexivity.
Qed.

Lemma runes_encodeAll (rs : list Z) :
  Forall validRune rs -> utf8.runes (encodeAll rs) = rs.
Proof.
  induction 1 as [|r rs Hr _ IH]; [reflexivity|].
  cbn [encodeAll fold_right]. fold (encodeAll rs).
  rewrite runes_encode by exact Hr. rewrite IH. reflexivity.
Qed.

(** [strings.Map] with a mapping that drops nothing encodes the images
    of the runes. *)
Lemma Map_encodeAll (f : Z -> Z) (s : string) :
  (forall r, validRune r -> 0 <= f r) ->
  strings.Map f s = encodeAll (map f (utf8.runes s)).
Proof.
  intros Hf. unfold strings.Map, encodeAll.
  pose proof (runes_valid s) as Hv.
  induction Hv as [|r rs Hr _ IH]; [reflexivity|].
  cbn [fold_right map]. cbv zeta.
  destruct (Z.leb_spec 0 (f r)) as [_|C]; [|specialize (Hf r Hr); lia].
  rewrite IH. reflexivity.
Qed.

Section Lower.
Context {U : UnicodeTables}.
Hypothesis Htables : foldsOnce U.

Lemma ToLower_valid (r : Z) : validRune r -> validRune (unicode.ToLower r).
Proof using Htables.
  intros Hr. unfold unicode.ToLower, unicode.MaxASCII.
  destruct (Z.leb_spec r 127) as [C|C].
  - destruct ((65 <=? r) && (r <=? 90)) eqn:C2; [|exact Hr].
    apply andb_true_iff in C2 as [C2 C3]. apply Z.leb_le in C2, C3.
    unfold validRune, utf8.MaxRune. lia.
  - apply (Htables r Hr). lia.
Qed.

Lemma ToLower_idem (r : Z) :
  validRune r -> unicode.ToLower (unicode.ToLower r) = unicode.ToLower r.
Proof using Htables.
  intros Hr. unfold unicode.ToLower at 2 3. unfold unicode.MaxASCII.
  destruct (Z.leb_spec r 127) as [C|C].
  - unfold unicode.ToLower, unicode.MaxASCII.
    destruct ((65 <=? r) && (r <=? 90)) eqn:C2.
    + apply andb_true_iff in C2 as [C2 C3]. apply Z.leb_le in C2, C3.
      destruct (Z.leb_spec (r + 32) 127); [|lia].
      destruct (Z.leb_spec (r + 32) 90); [lia|].
      rewrite andb_false_r. reflexivity.
    + destruct (Z.leb_spec r 127); [|lia]. rewrite C2. reflexivity.
  - apply (Htables r Hr). lia.
Qed.

(** The ASCII byte loop of [strings.ToLower] agrees with the rune loop. *)
Lemma runes_ascii (b : ascii) (t : string) :
  byteZ b < 0x80 -> utf8.runes (String b t) = byteZ b :: utf8.runes t.
Proof.
  intros Hb.
  assert (D : utf8.DecodeRuneInString (String b t) = (byteZ b, 1%nat)).
  { unfold utf8.DecodeRuneInString. rewrite first_1 by exact Hb. reflexivity. }
  rewrite (runes_step (String b t) _ _ ltac:(discriminate) D). reflexivity.
Qed.

Lemma EncodeRune_ascii (r : Z) :
  0 <= r <= 0x7F -> utf8.EncodeRune r = String (zbyte r) "".
Proof.
  intros H. unfold utf8.EncodeRune. cbv zeta.
  destruct (Z.leb_spec 0 r); [|lia]. destruct (Z.leb_spec r 127); [|lia].
  reflexivity.
Qed.

Lemma ToLower_ascii_path (s : string) :
  strings.isASCII s = true ->
  strings.Map unicode.ToLower s = mapBytes strings.lowerByte s.
Proof.
  intros Ha.
  assert (Hnn : forall r, validRune r -> 0 <= unicode.ToLower r).
  { intros r Hr. apply ToLower_valid in Hr. destruct Hr as [[? _] _]. assumption. }
  rewrite Map_encodeAll by exact Hnn. clear Hnn.
  induction s as [|b t IH]; [reflexivity|].
  unfold strings.isASCII in Ha. cbn [forallBytes] in Ha.
  apply andb_true_iff in Ha as [Hb Ht].
  unfold strings.isASCIIByte, utf8.RuneSelf in Hb. apply Z.ltb_lt in Hb.
  pose proof (byteZ_range b) as Rb.
  rewrite runes_ascii by exact Hb.
  cbn [map encodeAll fold_right mapBytes]. fold (encodeAll (map unicode.ToLower (utf8.runes t))).
  rewrite (IH Ht).
  unfold unicode.ToLower, unicode.MaxASCII, strings.lowerByte, inRange.
  destruct (Z.leb_spec (byteZ b) 127); [|lia].
  destruct ((65 <=? byteZ b) && (byteZ b <=? 90)) eqn:C.
  - apply andb_true_iff in C as [C2 C3]. apply Z.leb_le in C2, C3.
    rewrite EncodeRune_ascii by lia. reflexivity.
  - rewrite EncodeRune_ascii by lia. rewrite zbyte_byteZ. reflexivity.
Qed.

(** [strings.ToLower] encodes the lower case of every rune, on either of
    its paths. *)
Lemma ToLower_encodeAll (s : string) :
  strings.ToLower s = encodeAll (map unicode.ToLower (utf8.runes s)).
Proof using Htables.
  assert (Hnn : forall r, validRune r -> 0 <= unicode.ToLower r).
  { intros r Hr. apply ToLower_valid in Hr. destruct Hr as [[? _] _]. assumption. }
  unfold strings.ToLower. destruct (strings.isASCII s) eqn:Ha.
  - rewrite <- ToLower_ascii_path by exact Ha. apply Map_encodeAll, Hnn.
  - apply Map_encodeAll, Hnn.
Qed.

End Lower.

(** ** Script identifiers *)

Lemma HasPrefix_empty (s : string) : strings.HasPrefix s "" = true.
Proof. destruct s; reflexivity. Qed.

(** [strings.ReplaceAll(s, " ", "_")] replaces byte by byte. *)
Lemma ReplaceAll_space (s : string) :
  strings.ReplaceAll s " " "_" = mapBytes underscoreByte s.
Proof.
  unfold strings.ReplaceAll.
  induction s as [|c t IH]; [reflexivity|].
  cbn [String.length strings.replaceFuel strings.HasPrefix mapBytes].
  rewrite HasPrefix_empty, andb_true_r. unfold underscoreByte at 1.
  rewrite (Ascii.eqb_sym c). destruct (Ascii.eqb " " c).
  - cbn [drop]. rewrite append_String, append_Empty, IH. reflexivity.
  - rewrite IH. reflexivity.
Qed.

Lemma mapBytes_append (f : ascii -> ascii) (a b : string) :
  mapBytes f (a ++ b) = mapBytes f a ++ mapBytes f b.
Proof.
  induction a as [|c a IH]; [reflexivity|].
  rewrite append_String. cbn [mapBytes]. rewrite append_String, IH. reflexivity.
Qed.

Lemma mapBytes_fixed (f : ascii -> ascii) (p : ascii -> bool) (s : string) :
  (forall c, p c = true -> f c = c) ->
  forallBytes p s = true -> mapBytes f s = s.
Proof.
  intros Hf. induction s as [|c t IH]; [reflexivity|].
  cbn [forallBytes mapBytes]. intros H. apply andb_true_iff in H as [Hc Ht].
  rewrite (Hf c Hc), (IH Ht). reflexivity.
Qed.

Lemma underscoreByte_high (c : ascii) :
  (0x80 <=? byteZ c) = true -> underscoreByte c = c.
Proof.
  intros H. apply Z.leb_le in H. unfold underscoreByte.
  destruct (Ascii.eqb_spec c " ") as [->|_]; [|reflexivity].
  vm_compute in H. exfalso. apply H. reflexivity.
Qed.

Lemma underscoreByte_zbyte (y : Z) :
  0 <= y <= 0x7F -> underscoreByte (zbyte y) = zbyte (underscoreRune y).
Proof.
  intros Hy. unfold underscoreByte, underscoreRune.
  destruct (Z.eqb_spec y 32) as [->|Hne]; [reflexivity|].
  destruct (Ascii.eqb_spec (zbyte y) " ") as [E|_]; [|reflexivity].
  exfalso. apply Hne. rewrite <- (byteZ_zbyte y) by lia. rewrite E. reflexivity.
Qed.

(** The bytes of a rune above ASCII are all above ASCII. *)
Lemma EncodeRune_high (y : Z) :
  validRune y -> 0x80 <= y ->
  forallBytes (fun c => 0x80 <=? byteZ c) (utf8.EncodeRune y) = true.
Proof.
  intros [[H0 H1] Hs] Hy. unfold utf8.MaxRune in H1.
  unfold utf8.EncodeRune, utf8.MaxRune. cbv zeta.
  destruct (Z.leb_spec 0 y); [|lia].
  destruct (Z.leb_spec y 127); [lia|].
  destruct (Z.ltb_spec y 0); [lia|].
  destruct (Z.ltb_spec 1114111 y); [lia|].
  cbn [andb orb].
  destruct (Z.leb_spec y 2047).
  { cbn [forallBytes]. rewrite !byteZ_zbyte by dlia.
    rewrite !andb_true_iff. repeat split; apply Z.leb_le; dlia. }
  destruct (Z.leb_spec 55296 y), (Z.leb_spec y 57343); try lia; cbn [andb];
    (destruct (Z.leb_spec y 65535);
     [cbn [forallBytes]; rewrite !byteZ_zbyte by dlia;
      rewrite !andb_true_iff; repeat split; apply Z.leb_le; dlia
     |cbn [forallBytes]; rewrite !byteZ_zbyte by dlia;
      rewrite !andb_true_iff; repeat split; apply Z.leb_le; dlia]).
Qed.

Lemma validRune_underscore (y : Z) : validRune y -> validRune (underscoreRune y).
Proof.
  unfold underscoreRune. destruct (Z.eqb_spec y 32); [|tauto].
  intros _. unfold validRune, utf8.MaxRune. lia.
Qed.

(** Replacing the space among the bytes of an encoded rune encodes the
    rune with the space replaced. *)
Lemma underscore_encode (y : Z) :
  validRune y ->
  mapBytes underscoreByte (utf8.EncodeRune y) = utf8.EncodeRune (underscoreRune y).
Proof.
  intros Hy. destruct (Z.le_gt_cases y 0x7F) as [C|C].
  - destruct Hy as [[H0 _] _].
    rewrite (EncodeRune_ascii y) by lia. cbn [mapBytes].
    rewrite underscoreByte_zbyte by lia.
    rewrite EncodeRune_ascii; [reflexivity|].
    unfold underscoreRune. destruct (Z.eqb_spec y 32); lia.
  - replace (underscoreRune y) with y
      by (unfold underscoreRune; destruct (Z.eqb_spec y 32); [lia|reflexivity]).
    apply (mapBytes_fixed underscoreByte (fun c => 0x80 <=? byteZ c)).
    + exact underscoreByte_high.
    + apply EncodeRune_high; [exact Hy|lia].
Qed.

Lemma underscore_encodeAll (rs : list Z) :
  Forall validRune rs ->
  mapBytes underscoreByte (encodeAll rs) = encodeAll (map underscoreRune rs).
Proof.
  induction 1 as [|r rs Hr _ IH]; [reflexivity|].
  cbn [encodeAll fold_right map]. fold (encodeAll rs).
  fold (encodeAll (map underscoreRune rs)).
  rewrite mapBytes_append, IH, underscore_encode by exact Hr. reflexivity.
Qed.

Section Identifiers.
Context {U : UnicodeTables}.
Hypothesis Htables : foldsOnce U.

Lemma identifierRune_fixed (x : Z) :
  validRune x ->
  validRune (identifierRune x)
  /\ unicode.ToLower (identifierRune x) = identifierRune x
  /\ underscoreRune (identifierRune x) = identifierRune x.
Proof using Htables.
  intros Hx. unfold identifierRune.
  pose proof (ToLower_valid Htables x Hx) as Hv.
  pose proof (ToLower_idem Htables x Hx) as Hi.
  split; [apply validRune_underscore, Hv|].
  unfold underscoreRune.
  destruct (Z.eqb_spec (unicode.ToLower x) 32) as [E|E].
  - split; reflexivity.
  - split; [exact Hi|].
    destruct (Z.eqb_spec (unicode.ToLower x) 32); [contradiction|reflexivity].
Qed.

Lemma scriptIdOf_encodeAll (s : string) :
  cmd.scriptIdOf s = encodeAll (map identifierRune (utf8.runes s)).
Proof using Htables.
  unfold cmd.scriptIdOf. rewrite ReplaceAll_space.
  rewrite (ToLower_encodeAll Htables).
  rewrite underscore_encodeAll.
  - rewrite map_map. reflexivity.
  - apply Forall_map. eapply Forall_impl; [|apply runes_valid].
    intros r Hr. apply (ToLower_valid Htables r Hr).
Qed.

Lemma identifier_runes_valid (s : string) :
  Forall validRune (map identifierRune (utf8.runes s)).
Proof using Htables.
  apply Forall_map. eapply Forall_impl; [|apply runes_valid].
  intros r Hr. apply (identifierRune_fixed r Hr).
Qed.

End Identifiers.

(** On ASCII names nothing is asked of the case tables. *)
Lemma mapBytes_mapBytes (f g : ascii -> ascii) (s : string) :
  mapBytes f (mapBytes g s) = mapBytes (fun c => f (g c)) s.
Proof.
  induction s as [|c t IH]; [reflexivity|]. cbn [mapBytes]. rewrite IH. reflexivity.
Qed.

Lemma mapBytes_ext (f g : ascii -> ascii) (s : string) :
  (forall c, f c = g c) -> mapBytes f s = mapBytes g s.
Proof.
  intros H. induction s as [|c t IH]; [reflexivity|].
  cbn [mapBytes]. rewrite H, IH. reflexivity.
Qed.

Lemma identifierByte_idem (c : ascii) :
  identifierByte (identifierByte c) = identifierByte c.
Proof.
  destruct c as [[] [] [] [] [] [] [] []]; vm_compute; reflexivity.
Qed.

Lemma identifierByte_ascii (c : ascii) :
  strings.isASCIIByte c = true -> strings.isASCIIByte (identifierByte c) = true.
Proof.
  destruct c as [[] [] [] [] [] [] [] []]; vm_compute; intros H;
    first [reflexivity | discriminate H].
Qed.

Lemma isASCII_identifier (s : string) :
  strings.isASCII s = true -> strings.isASCII (mapBytes identifierByte s) = true.
Proof.
  unfold strings.isASCII. induction s as [|c t IH]; [reflexivity|].
  cbn [forallBytes mapBytes]. intros H. apply andb_true_iff in H as [Hc Ht].
  rewrite (identifierByte_ascii c Hc), (IH Ht). reflexivity.
Qed.

Section AsciiNames.
Context {U : UnicodeTables}.

Lemma scriptIdOf_ascii (s : string) :
  strings.isASCII s = true -> cmd.scriptIdOf s = mapBytes identifierByte s.
Proof.
  intros Ha. unfold cmd.scriptIdOf, strings.ToLower. rewrite Ha.
  rewrite ReplaceAll_space.
  exact (mapBytes_mapBytes underscoreByte strings.lowerByte s).
Qed.

Lemma scriptIdOf_ascii_idem (s : string) :
  strings.isASCII s = true ->
  cmd.scriptIdOf (cmd.scriptIdOf s) = cmd.scriptIdOf s.
Proof.
  intros Ha. rewrite (scriptIdOf_ascii s Ha).
  rewrite scriptIdOf_ascii by (apply isASCII_identifier, Ha).
  rewrite mapBytes_mapBytes. apply mapBytes_ext. intros c. apply identifierByte_idem.
Qed.

End AsciiNames.

(** C8.  The script identifier of a name is the lower case of the name, as
    [strings.ToLower] gives it, with every space byte replaced by an
    underscore, and the deployment identifier is ["customdeploy_"] before
    it.  Deriving the identifier of an identifier changes nothing: outright
    for an ASCII name, and for every name when the case tables of package
    [unicode] send a rune to a rune that is its own lower case ([foldsOnce]);
    the runes of the identifier are then the runes of the name, each in
    lower case and the space replaced. *)
Theorem script_identifiers {U : UnicodeTables} (s : string) :
  cmd.scriptIdOf s = mapBytes underscoreByte (strings.ToLower s)
  /\ cmd.deploymentIdOf (cmd.scriptIdOf s) = "customdeploy_" ++ cmd.scriptIdOf s
  /\ (strings.isASCII s = true ->
      cmd.scriptIdOf s = mapBytes identifierByte s
      /\ cmd.scriptIdOf (cmd.scriptIdOf s) = cmd.scriptIdOf s)
  /\ (foldsOnce U ->
      utf8.runes (cmd.scriptIdOf s) = map identifierRune (utf8.runes s)
      /\ cmd.scriptIdOf (cmd.scriptIdOf s) = cmd.scriptIdOf s).
Proof.
  split; [unfold cmd.scriptIdOf; apply ReplaceAll_space|].
  split; [reflexivity|].
  split; [intros Ha; split; [apply scriptIdOf_ascii, Ha|apply scriptIdOf_ascii_idem, Ha]|].
  intros Htables.
  pose proof (identifier_runes_valid Htables s) as Hv.
  assert (Hr : utf8.runes (cmd.scriptIdOf s) = map identifierRune (utf8.runes s)).
  { rewrite (scriptIdOf_encodeAll Htables). apply runes_encodeAll, Hv. }
  split; [exact Hr|].
  rewrite (scriptIdOf_encodeAll Htables (cmd.scriptIdOf s)), Hr.
  rewrite (scriptIdOf_encodeAll Htables s). f_equal.
  rewrite map_map. apply map_ext_Forall.
  eapply Forall_impl; [|apply runes_valid].
  intros r Hx. destruct (identifierRune_fixed Htables r Hx) as (_ & Hl & Hu).
  unfold identifierRune at 1. rewrite Hl. exact Hu.
Qed.

(** * Further properties *)

(** ** The folder menu as a whole *)
Section MenuEnds.
Context {U : UnicodeTables} {FS : Type}.

(** At the end of input nothing is left to read. *)
Lemma fillLine_err (input : list string) (buf : string) (e : goerror) (buf' : string)
      (input' : list string) :
  fillLine buf input = (Err e, buf', input') -> input' = [].
Proof.
  revert buf; induction input as [|chunk input IH]; intros buf H; simpl in H.
  - destruct (cutLine buf) as [[l r]|]; inversion H; reflexivity.
  - destruct (cutLine buf) as [[l r]|]; [inversion H|]. eapply IH, H.
Qed.

(** A pass of the menu loop whose read fails: the page and the error are
    printed, and the process exits with status 1. *)
Lemma menuBody_eof_world (folders : list cmd.FolderOption) (scriptPathPrefix reader : string)
      (page : Z) (w : World FS) (e : goerror) (reader' : string) (input' : list string) :
  folders_fit folders -> 0 <= page < cmd.totalPagesOf folders ->
  fillLine reader (stdin w) = (Err e, reader', input') ->
  exists out,
    cmd.menuBody folders scriptPathPrefix (cmd.totalPagesOf folders) (reader, page) w
    = (Exited 1, addOut (setIn (addOut w out) input')
                        ["Error reading selection: " ++ Message e ++ nl]).
Proof.
  intros Hfit Hpage Hread.
  destruct (menuDisplay_ok folders page Hfit Hpage w) as [out Hout].
  exists out. unfold cmd.menuBody.
  erewrite bind_Returned by exact Hout. cbv beta.
  erewrite bind_Returned
    by (rewrite ReadString_eq; simpl stdin; rewrite Hread; reflexivity).
  cbv beta iota zeta. run_prints. reflexivity.
Qed.

(** The end of a menu started later is an end of the menu started
    earlier, when only pauses lie between. *)
Lemma menuEnds_later (folders : list cmd.FolderOption) (scriptPathPrefix : string)
      (w w1 : World FS) (k : nat) (r : Outcome (string * string) * World FS) :
  fs w1 = fs w -> cwd w1 = cwd w ->
  events w1 = (events w ++ repeat (EvSleep 1) k)%list ->
  menuEnds folders scriptPathPrefix w1 r -> menuEnds folders scriptPathPrefix w r.
Proof.
  intros Hf Hc He (F & C & (n & E) & O).
  split; [congruence|]. split; [congruence|]. split; [|exact O].
  exists (k + n)%nat. rewrite E, He, <- app_assoc, repeat_app. reflexivity.
Qed.

Lemma menuLoop_ends (fuel : nat) (folders : list cmd.FolderOption)
      (scriptPathPrefix reader : string) (page : Z) (w : World FS) :
  folders_fit folders -> 0 <= page < cmd.totalPagesOf folders ->
  (String.length reader + cmd.pending (stdin w) < fuel)%nat ->
  menuEnds folders scriptPathPrefix w
    (forLoop fuel (cmd.menuBody folders scriptPathPrefix (cmd.totalPagesOf folders))
             (reader, page) w).
Proof.
  intros Hfit. revert reader page w.
  induction fuel as [|fuel IH]; intros reader page w Hpage Hfuel; [lia|].
  pose proof (totalPagesOf_ceiling _ Hfit) as Hc.
  rewrite forLoop_S.
  destruct (fillLine reader (stdin w)) as [[[line|e] reader'] input'] eqn:Hread.
  - destruct (menuBody_read folders scriptPathPrefix reader page w line reader' input'
                Hfit Hpage Hread) as [out Hpass].
    rewrite Hpass. cbv zeta.
    apply fillLine_consumes in Hread.
    set (w2 := setIn (addOut w out) input').
    assert (Hquiet : forall (r : Outcome (string * string) * World FS),
               menuEnds folders scriptPathPrefix w2 r ->
               menuEnds folders scriptPathPrefix w r).
    { intros r. apply (menuEnds_later _ _ w w2 0); try reflexivity.
      simpl. rewrite app_nil_r. reflexivity. }
    assert (Hpause : forall o (r : Outcome (string * string) * World FS),
               menuEnds folders scriptPathPrefix (addEv (addOut w2 o) (EvSleep 1)) r ->
               menuEnds folders scriptPathPrefix w r).
    { intros o r. apply (menuEnds_later _ _ w _ 1); reflexivity. }
    assert (Hm : forall o e0, (String.length reader'
                               + cmd.pending (stdin (addEv (addOut w2 o) e0)) < fuel)%nat).
    { intros; simpl; lia. }
    assert (Hm2 : (String.length reader' + cmd.pending (stdin w2) < fuel)%nat).
    { simpl; lia. }
    assert (Hsel : forall sel, listedSelection folders sel ->
               menuEnds folders scriptPathPrefix w (Returned (sel, scriptPathPrefix), w2)).
    { intros sel Hl. split; [reflexivity|]. split; [reflexivity|].
      split; [exists 0%nat; simpl; rewrite app_nil_r; reflexivity|].
      left. exists sel. split; [reflexivity|exact Hl]. }
    destruct ((cmd.totalPagesOf folders >? 1) && String.eqb _ "n"
              && (page <? cmd.totalPagesOf folders - 1)) eqn:G1.
    { apply andb_true_iff in G1 as [_ G1]. apply Z.ltb_lt in G1.
      apply Hquiet, IH; [lia|exact Hm2]. }
    destruct ((cmd.totalPagesOf folders >? 1) && String.eqb _ "p" && (page >? 0)) eqn:G2.
    { apply andb_true_iff in G2 as [_ G2]. rewrite Z.gtb_ltb in G2. apply Z.ltb_lt in G2.
      apply Hquiet, IH; [lia|exact Hm2]. }
    destruct (strconv.Atoi _) as [selection|].
    + destruct (selection =? 0); [apply Hsel; left; reflexivity|].
      destruct ((selection <? 1) || (selection >? cmd.lenL folders)) eqn:R.
      * eapply Hpause, IH; [lia|apply Hm].
      * apply orb_false_iff in R as [R1 R2].
        rewrite Z.ltb_ge in R1. rewrite Z.gtb_ltb, Z.ltb_ge in R2.
        destruct (index_in_range folders (selection - 1)) as [f Hf]; [lia|].
        rewrite Hf. apply Hsel. right. exists f. split; [|reflexivity].
        unfold cmd.index in Hf. destruct (selection - 1 <? 0); [discriminate|].
        eapply nth_error_In, Hf.
    + eapply Hpause, IH; [lia|apply Hm].
  - destruct (menuBody_eof_world folders scriptPathPrefix reader page w e reader' input'
                Hfit Hpage Hread) as [out Hw'].
    rewrite Hw'. apply fillLine_err in Hread. subst input'.
    split; [reflexivity|]. split; [reflexivity|].
    split; [exists 0%nat; simpl; rewrite app_nil_r; reflexivity|].
    right. split; reflexivity.
Qed.

(** X1.  The folder menu over a non-empty list always ends.  It returns
    the root or the path of a folder of the list, with the prefix it was
    given, or it exits with status 1 when the input is used up.  It never
    indexes out of range; it changes neither the outside world nor the
    working directory, and does nothing but print, read and pause. *)
Theorem menu_selection_listed (folders : list cmd.FolderOption)
        (scriptPathPrefix : string) (w : World FS) :
  0 < cmd.lenL folders -> folders_fit folders ->
  menuEnds folders scriptPathPrefix w
           (cmd.displayScrollableMenu folders scriptPathPrefix w).
Proof.
  intros Hpos Hfit. unfold cmd.displayScrollableMenu.
  apply menuLoop_ends.
  - exact Hfit.
  - pose proof (totalPagesOf_ceiling _ Hfit). lia.
  - unfold bufio_NewReader; simpl; lia.
Qed.

End MenuEnds.

Section PreviousPage.
Context {U : UnicodeTables} {FS : Type}.
Variables (folders : list cmd.FolderOption) (scriptPathPrefix reader : string).
Variables (page : Z) (w : World FS) (line reader' : string) (input' : list string).

(** X2.  One pass of the menu on a page that exists, when the line read,
    lowercased and trimmed, is ["p"]: the menu moves to the page before
    exactly when there is one; on the first page (and so on every menu of a
    single page) ["p"] is answered as any line that is no number, by the
    message, a pause of one second, and the same page.  The reader keeps
    what it has buffered. *)
Theorem menu_previous_page :
  folders_fit folders -> 0 <= page < cmd.totalPagesOf folders ->
  fillLine reader (stdin w) = (Ok line, reader', input') ->
  strings.TrimSpace (strings.ToLower line) = "p" ->
  exists out,
    (0 < page ->
       cmd.menuBody folders scriptPathPrefix (cmd.totalPagesOf folders) (reader, page) w
       = (Returned (Continue (reader', page - 1)), setIn (addOut w out) input'))
    /\ (page = 0 ->
          cmd.menuBody folders scriptPathPrefix (cmd.totalPagesOf folders) (reader, page) w
          = (Returned (Continue (reader', page)),
             addEv (addOut (setIn (addOut w out) input')
                           (notANumber (cmd.totalPagesOf folders)))
                   (EvSleep 1))).
Proof.
  intros Hfit Hpage Hread Htoken.
  destruct (menuBody_read folders scriptPathPrefix reader page w line reader' input'
              Hfit Hpage Hread) as [out Hpass].
  exists out. rewrite Hpass, Htoken. cbv zeta.
  change (String.eqb "p" "n") with false. change (String.eqb "p" "p") with true.
  rewrite andb_false_r. cbn [andb]. split.
  - intros Hp.
    replace (cmd.totalPagesOf folders >? 1) with true
      by (symmetry; apply Z.gtb_lt; lia).
    replace (page >? 0) with true by (symmetry; apply Z.gtb_lt; lia).
    reflexivity.
  - intros Hz. subst page. rewrite andb_false_r.
    change (strconv.Atoi "p") with (@None Z). reflexivity.
Qed.

End PreviousPage.

(** ** The pages of the menu *)
Section Pages.
Context {U : UnicodeTables} {FS : Type}.







End Pages.

(** ** Snake case *)

Lemma append_nil_r (s : string) : s ++ "" = s.
Proof. induction s as [|c t IH]; [reflexivity|]. rewrite append_String, IH. reflexivity. Qed.

Lemma forallBytes_append (p : ascii -> bool) (a b : string) :
  forallBytes p (a ++ b) = forallBytes p a && forallBytes p b.
Proof.
  induction a as [|c a IH]; [reflexivity|].
  rewrite append_String. cbn [forallBytes]. rewrite IH, andb_assoc. reflexivity.
Qed.

Lemma lastByte_snoc (a : string) (c : ascii) : cmd.lastByte (a ++ String c "") = Some c.
Proof.
  induction a as [|d a IH]; [reflexivity|].
  rewrite append_String. cbn [cmd.lastByte]. rewrite IH.
  destruct (a ++ String c "") eqn:E; [|reflexivity].
  destruct a; discriminate E.
Qed.

Lemma endsWithUnderscore_snoc (a : string) (c : ascii) :
  endsWithUnderscore (a ++ String c "") = Ascii.eqb c "_".
Proof. unfold endsWithUnderscore. rewrite lastByte_snoc. reflexivity. Qed.

Lemma HasPrefix_snoc (a : string) (c : ascii) :
  strings.HasPrefix (a ++ String c "") "_"
  = match a with EmptyString => Ascii.eqb "_" c | _ => strings.HasPrefix a "_" end.
Proof.
  destruct a as [|d a]; [rewrite append_Empty; cbn; apply andb_true_r|].
  rewrite append_String. cbn [strings.HasPrefix].
  rewrite !HasPrefix_empty. reflexivity.
Qed.

Lemma noDoubleUnderscore_snoc (a : string) (c : ascii) :
  noDoubleUnderscore (a ++ String c "")
  = noDoubleUnderscore a && negb (endsWithUnderscore a && Ascii.eqb c "_").
Proof.
  induction a as [|d a IH].
  - rewrite append_Empty. cbn. rewrite andb_false_r. reflexivity.
  - rewrite append_String. cbn [noDoubleUnderscore]. rewrite IH.
    rewrite HasPrefix_snoc.
    destruct a as [|e a].
    + unfold endsWithUnderscore. cbn [noDoubleUnderscore cmd.lastByte strings.HasPrefix].
      destruct (Ascii.eqb_spec d "_"), (Ascii.eqb_spec c "_"), (Ascii.eqb_spec "_" c);
        try reflexivity; congruence.
    + replace (endsWithUnderscore (String d (String e a)))
        with (endsWithUnderscore (String e a)) by reflexivity.
      rewrite !andb_assoc. reflexivity.
Qed.

(** *** Reversal and trimming *)

Lemma rev_string_onto_app (s acc : string) :
  rev_string_onto s acc = rev_string_onto s "" ++ acc.
Proof.
  revert acc; induction s as [|c t IH]; intros acc; [reflexivity|].
  cbn [rev_string_onto]. rewrite (IH (String c acc)), (IH (String c "")).
  rewrite append_assoc, append_String, append_Empty. reflexivity.
Qed.

Lemma rev_string_cons (c : ascii) (t : string) :
  rev_string (String c t) = rev_string t ++ String c "".
Proof. unfold rev_string. cbn [rev_string_onto]. apply rev_string_onto_app. Qed.

Lemma rev_string_snoc (a : string) (c : ascii) :
  rev_string (a ++ String c "") = String c (rev_string a).
Proof.
  induction a as [|d a IH]; [reflexivity|].
  rewrite append_String, !rev_string_cons, IH, append_String. reflexivity.
Qed.

Lemma rev_string_involutive (s : string) : rev_string (rev_string s) = s.
Proof.
  induction s as [|c t IH]; [reflexivity|].
  rewrite rev_string_cons, rev_string_snoc, IH. reflexivity.
Qed.

Lemma forallBytes_rev (p : ascii -> bool) (s : string) :
  forallBytes p (rev_string s) = forallBytes p s.
Proof.
  induction s as [|c t IH]; [reflexivity|].
  rewrite rev_string_cons, forallBytes_append, IH. cbn [forallBytes].
  rewrite andb_true_r, andb_comm. reflexivity.
Qed.

Lemma endsWithUnderscore_rev (s : string) :
  endsWithUnderscore (rev_string s) = strings.HasPrefix s "_".
Proof.
  destruct s as [|c t]; [reflexivity|].
  rewrite rev_string_cons, endsWithUnderscore_snoc. cbn [strings.HasPrefix].
  rewrite HasPrefix_empty, andb_true_r. apply Ascii.eqb_sym.
Qed.

Lemma HasPrefix_rev (s : string) :
  strings.HasPrefix (rev_string s) "_" = endsWithUnderscore s.
Proof.
  rewrite <- (rev_string_involutive s) at 2. symmetry. apply endsWithUnderscore_rev.
Qed.

Lemma noDoubleUnderscore_rev (s : string) :
  noDoubleUnderscore (rev_string s) = noDoubleUnderscore s.
Proof.
  induction s as [|c t IH]; [reflexivity|].
  rewrite rev_string_cons, noDoubleUnderscore_snoc, IH, endsWithUnderscore_rev.
  cbn [noDoubleUnderscore]. rewrite andb_comm, (andb_comm (strings.HasPrefix t "_")).
  reflexivity.
Qed.

(** What [trimLeftBytes] with the underscore leaves: a suffix without an
    underscore in front. *)
Lemma trimLeft_underscore (s : string) :
  strings.HasPrefix (strings.trimLeftBytes "_" s) "_" = false
  /\ (forall p, forallBytes p s = true ->
                forallBytes p (strings.trimLeftBytes "_" s) = true)
  /\ (noDoubleUnderscore s = true ->
      noDoubleUnderscore (strings.trimLeftBytes "_" s) = true)
  /\ (strings.trimLeftBytes "_" s <> "" ->
      endsWithUnderscore (strings.trimLeftBytes "_" s) = endsWithUnderscore s)
  /\ (strings.HasPrefix s "_" = false -> strings.trimLeftBytes "_" s = s).
Proof.
  induction s as [|c t (I1 & I2 & I3 & I4 & I5)].
  - cbn. repeat split; auto.
  - cbn [strings.trimLeftBytes strings.containsByte]. rewrite orb_false_r.
    cbn [strings.HasPrefix]. rewrite HasPrefix_empty, andb_true_r.
    rewrite (Ascii.eqb_sym c "_").
    destruct (Ascii.eqb "_" c) eqn:E.
    + split; [exact I1|]. split.
      { intros p H. cbn [forallBytes] in H. apply andb_true_iff in H as [_ H]. auto. }
      split.
      { intros H. cbn [noDoubleUnderscore] in H. apply andb_true_iff in H as [_ H]. auto. }
      split.
      { intros H. rewrite (I4 H). unfold endsWithUnderscore. cbn [cmd.lastByte].
        destruct t; [exfalso; apply H; reflexivity|reflexivity]. }
      intros H; discriminate H.
    + split; [cbn [strings.HasPrefix]; rewrite HasPrefix_empty, andb_true_r; exact E|].
      repeat split; auto.
Qed.

(** *** The loop of [toSnakeCase] on ASCII *)

Lemma len_pos_iff (s : string) : (len s >? 0) = negb (String.eqb s "").
Proof.
  destruct s; [reflexivity|]. unfold len. cbn [String.length String.eqb].
  apply Z.gtb_lt. lia.
Qed.

Section SnakeLoop.
Context {U : UnicodeTables}.

Lemma runes_ascii_all (s : string) :
  strings.isASCII s = true -> utf8.runes s = bytesZ s.
Proof.
  unfold strings.isASCII. induction s as [|b t IH]; [reflexivity|].
  cbn [forallBytes bytesZ]. intros H. apply andb_true_iff in H as [Hb Ht].
  unfold strings.isASCIIByte, utf8.RuneSelf in Hb. apply Z.ltb_lt in Hb.
  rewrite runes_ascii by exact Hb. rewrite (IH Ht). reflexivity.
Qed.

Lemma snakeByte_letter (r : Z) :
  97 <= r <= 122 \/ 48 <= r <= 57 ->
  snakeByte (zbyte r) = true /\ Ascii.eqb (zbyte r) "_" = false
  /\ Ascii.eqb "_" (zbyte r) = false.
Proof.
  intros H.
  assert (E : Ascii.eqb (zbyte r) "_" = false).
  { destruct (Ascii.eqb_spec (zbyte r) "_") as [E|]; [|reflexivity].
    exfalso. assert (byteZ (zbyte r) = 95) by (rewrite E; reflexivity).
    rewrite byteZ_zbyte in H0 by lia. lia. }
  split; [|split; [exact E|rewrite Ascii.eqb_sym; exact E]].
  unfold snakeByte, inRange. rewrite byteZ_zbyte by lia.
  destruct H as [H|H].
  - replace ((97 <=? r) && (r <=? 122)) with true; [reflexivity|].
    symmetry. apply andb_true_iff; split; apply Z.leb_le; lia.
  - replace ((48 <=? r) && (r <=? 57)) with true; [rewrite orb_true_r; reflexivity|].
    symmetry. apply andb_true_iff; split; apply Z.leb_le; lia.
Qed.

(** Appending a letter or digit keeps the state, and the builder then ends
    in that byte. *)
Lemma snakeState_letter (result : string) (pl : bool) (i j : Z) (r : Z) :
  97 <= r <= 122 \/ 48 <= r <= 57 ->
  snakeState (result, pl, i) ->
  snakeState (result ++ String (zbyte r) "", true, j).
Proof.
  intros Hr (F & P & D & _). destruct (snakeByte_letter r Hr) as (S1 & S2 & S3).
  cbn [snakeState]. split.
  { rewrite forallBytes_append, F. cbn [forallBytes]. rewrite S1. reflexivity. }
  split.
  { rewrite HasPrefix_snoc. destruct result; [exact S3|exact P]. }
  split.
  { rewrite noDoubleUnderscore_snoc, D, S2, andb_false_r. reflexivity. }
  intros _. split.
  - destruct result; [rewrite append_Empty|rewrite append_String]; discriminate.
  - rewrite endsWithUnderscore_snoc. exact S2.
Qed.

(** Appending an underscore to a builder that is not empty and does not
    end in one keeps the state. *)
Lemma snakeState_underscore (result : string) (pl : bool) (i j : Z) :
  result <> "" -> endsWithUnderscore result = false ->
  snakeState (result, pl, i) ->
  snakeState (result ++ "_", false, j).
Proof.
  intros Hne He (F & P & D & _). cbn [snakeState]. split.
  { rewrite forallBytes_append, F. reflexivity. }
  split.
  { rewrite HasPrefix_snoc. destruct result; [contradiction|exact P]. }
  split.
  { rewrite noDoubleUnderscore_snoc, D, He. reflexivity. }
  intros H; discriminate H.
Qed.

Lemma snakeState_forget (result : string) (pl : bool) (i j : Z) :
  snakeState (result, pl, i) -> snakeState (result, false, j).
Proof.
  intros (F & P & D & _). cbn [snakeState]. repeat split; auto; discriminate.
Qed.

Lemma snakeStep_ascii (st : string * bool * Z) (b : ascii) :
  byteZ b < 0x80 -> snakeState st -> snakeState (cmd.snakeStep st (byteZ b)).
Proof.
  intros Hb Hst. destruct st as [[result pl] i].
  pose proof (byteZ_range b) as Rb.
  unfold cmd.snakeStep, unicode.IsUpper, unicode.IsLower, unicode.IsDigit, unicode.ToLower,
    unicode.MaxASCII, unicode.MaxLatin1.
  destruct (Z.leb_spec (byteZ b) 127); [|lia].
  destruct (Z.leb_spec (byteZ b) 255); [|lia].
  destruct ((65 <=? byteZ b) && (byteZ b <=? 90)) eqn:Cu.
  - apply andb_true_iff in Cu as [C1 C2]. apply Z.leb_le in C1, C2.
    rewrite EncodeRune_ascii by lia. cbv zeta.
    destruct ((i >? 0) && pl) eqn:G.
    + apply andb_true_iff in G as [_ ->].
      destruct Hst as (F & P & D & L). destruct (L eq_refl) as [Hne He].
      apply (snakeState_forget _ true i).
      apply (snakeState_letter _ false i); [lia|].
      apply (snakeState_underscore result true i); auto.
      cbn [snakeState]. auto.
    + apply (snakeState_forget _ true i).
      apply (snakeState_letter _ pl i); [lia|exact Hst].
  - destruct (((97 <=? byteZ b) && (byteZ b <=? 122)) || ((48 <=? byteZ b) && (byteZ b <=? 57)))
      eqn:Cl.
    + rewrite EncodeRune_ascii by lia.
      apply (snakeState_letter _ pl i); [|exact Hst].
      apply orb_true_iff in Cl as [Cl|Cl]; apply andb_true_iff in Cl as [C1 C2];
        apply Z.leb_le in C1, C2; lia.
    + cbv zeta. rewrite len_pos_iff.
      fold (endsWithUnderscore result).
      destruct ((i >? 0) && negb (String.eqb result "") && negb (endsWithUnderscore result))
        eqn:G.
      * apply andb_true_iff in G as [G G3]. apply andb_true_iff in G as [_ G2].
        apply negb_true_iff in G2, G3.
        apply (snakeState_underscore result pl i); auto.
        intros ->. discriminate G2.
      * apply (snakeState_forget result pl i). exact Hst.
Qed.

Lemma snakeLoop_ascii (s : string) (st : string * bool * Z) :
  strings.isASCII s = true -> snakeState st ->
  snakeState (fold_left cmd.snakeStep (bytesZ s) st).
Proof.
  unfold strings.isASCII. revert st; induction s as [|b t IH]; intros st Ha Hst; [exact Hst|].
  cbn [forallBytes] in Ha. apply andb_true_iff in Ha as [Hb Ht].
  unfold strings.isASCIIByte, utf8.RuneSelf in Hb. apply Z.ltb_lt in Hb.
  cbn [bytesZ fold_left]. apply IH; [exact Ht|]. apply snakeStep_ascii; assumption.
Qed.

End SnakeLoop.

(** *** After the loop *)

Lemma collapseUnderscores_fixed (s : string) :
  noDoubleUnderscore s = true -> cmd.collapseUnderscores s = s.
Proof.
  induction s as [|c t IH]; [reflexivity|].
  cbn [noDoubleUnderscore cmd.collapseUnderscores]. intros H.
  apply andb_true_iff in H as [H1 H2]. apply negb_true_iff in H1.
  rewrite H1, (IH H2). reflexivity.
Qed.

Lemma Trim_fixed (s : string) :
  strings.HasPrefix s "_" = false -> endsWithUnderscore s = false ->
  strings.Trim s "_" = s.
Proof.
  intros Hp He. unfold strings.Trim.
  destruct (trimLeft_underscore s) as (_ & _ & _ & _ & T1). rewrite (T1 Hp).
  destruct (trimLeft_underscore (rev_string s)) as (_ & _ & _ & _ & T2).
  rewrite T2 by (rewrite HasPrefix_rev; exact He).
  apply rev_string_involutive.
Qed.

(** Trimming the underscores of a builder of the loop gives a snake-case
    name. *)
Lemma Trim_snake (s : string) :
  forallBytes snakeByte s = true -> strings.HasPrefix s "_" = false ->
  noDoubleUnderscore s = true ->
  snakeCase (strings.Trim s "_") = true.
Proof.
  intros F P D. unfold strings.Trim.
  destruct (trimLeft_underscore s) as (_ & _ & _ & _ & T1). rewrite (T1 P).
  destruct (trimLeft_underscore (rev_string s)) as (Q1 & Q2 & Q3 & Q4 & _).
  set (t := strings.trimLeftBytes "_" (rev_string s)) in *.
  unfold snakeCase.
  rewrite forallBytes_rev, (Q2 snakeByte) by (rewrite forallBytes_rev; exact F).
  rewrite noDoubleUnderscore_rev, Q3 by (rewrite noDoubleUnderscore_rev; exact D).
  rewrite endsWithUnderscore_rev, Q1, HasPrefix_rev.
  destruct (String.eqb_spec t "") as [E|E].
  - rewrite E. reflexivity.
  - rewrite (Q4 E), endsWithUnderscore_rev, P. reflexivity.
Qed.

Lemma snakeByte_fixed (c : ascii) :
  snakeByte c = true -> strings.isASCIIByte c = true /\ strings.lowerByte c = c.
Proof.
  destruct c as [[] [] [] [] [] [] [] []]; vm_compute; intros H;
    first [discriminate H | split; reflexivity].
Qed.

Section SnakeResult.
Context {U : UnicodeTables}.

Lemma ToLower_snake (s : string) :
  forallBytes snakeByte s = true -> strings.ToLower s = s.
Proof.
  intros F. unfold strings.ToLower.
  assert (Ha : strings.isASCII s = true).
  { unfold strings.isASCII. induction s as [|c t IH]; [reflexivity|].
    cbn [forallBytes] in *. apply andb_true_iff in F as [Fc Ft].
    rewrite (proj1 (snakeByte_fixed c Fc)), (IH Ft). reflexivity. }
  rewrite Ha. apply (mapBytes_fixed strings.lowerByte snakeByte); [|exact F].
  intros c Hc. apply (snakeByte_fixed c Hc).
Qed.

Lemma snakeCase_parts (s : string) :
  snakeCase s = true ->
  forallBytes snakeByte s = true /\ strings.HasPrefix s "_" = false
  /\ endsWithUnderscore s = false /\ noDoubleUnderscore s = true.
Proof.
  unfold snakeCase. intros H.
  apply andb_true_iff in H as [H H4]. apply andb_true_iff in H as [H H3].
  apply andb_true_iff in H as [H1 H2].
  apply negb_true_iff in H2, H3. auto.
Qed.

(** On an ASCII name, [toSnakeCase] gives a snake-case name. *)
Lemma toSnakeCase_snake (s : string) :
  strings.isASCII s = true -> snakeCase (cmd.toSnakeCase s) = true.
Proof.
  intros Ha. unfold cmd.toSnakeCase.
  destruct (String.eqb s ""); [reflexivity|]. cbv zeta.
  rewrite (runes_ascii_all s Ha).
  assert (Hst : snakeState (fold_left cmd.snakeStep (bytesZ s) ("", false, 0))).
  { apply snakeLoop_ascii; [exact Ha|]. cbn [snakeState].
    split; [reflexivity|]. split; [reflexivity|]. split; [reflexivity|].
    intros Hf; discriminate Hf. }
  destruct (fold_left cmd.snakeStep (bytesZ s) ("", false, 0)) as [[result pl] i].
  destruct Hst as (F & P & D & _).
  rewrite (collapseUnderscores_fixed result D).
  pose proof (Trim_snake result F P D) as Hs.
  destruct (snakeCase_parts _ Hs) as (F' & _).
  rewrite (ToLower_snake _ F'). exact Hs.
Qed.

(** The loop over snake bytes copies them. *)
Lemma snakeLoop_copies (rest p : string) (pl : bool) :
  forallBytes snakeByte rest = true ->
  noDoubleUnderscore rest = true ->
  (p = "" -> strings.HasPrefix rest "_" = false) ->
  (endsWithUnderscore p = true -> strings.HasPrefix rest "_" = false) ->
  exists pl' i',
    fold_left cmd.snakeStep (bytesZ rest) (p, pl, len p) = (p ++ rest, pl', i').
Proof.
  revert p pl; induction rest as [|c t IH]; intros p pl F D Hlead Hend.
  - exists pl, (len p). rewrite append_nil_r. reflexivity.
  - cbn [forallBytes] in F. apply andb_true_iff in F as [Fc Ft].
    cbn [noDoubleUnderscore] in D. apply andb_true_iff in D as [Dc Dt].
    apply negb_true_iff in Dc.
    cbn [bytesZ fold_left].
    pose proof (byteZ_range c) as Rc.
    assert (Hnext : forall pl1,
               cmd.snakeStep (p, pl, len p) (byteZ c)
               = (p ++ String c "", pl1, len (p ++ String c "")) ->
               exists pl' i',
                 fold_left cmd.snakeStep (bytesZ t)
                           (cmd.snakeStep (p, pl, len p) (byteZ c))
                 = (p ++ String c t, pl', i')).
    { intros pl1 E. rewrite E.
      destruct (IH (p ++ String c "") pl1 Ft Dt) as (pl' & i' & E').
      - intros Hp. destruct p; [rewrite append_Empty in Hp|rewrite append_String in Hp];
          discriminate Hp.
      - rewrite endsWithUnderscore_snoc. intros Hc. rewrite Hc in Dc.
        cbn [andb] in Dc. exact Dc.
      - exists pl', i'. rewrite E', append_assoc, append_String, append_Empty. reflexivity. }
    assert (Hlen : len (p ++ String c "") = len p + 1).
    { unfold len. rewrite length_append. cbn [String.length]. lia. }
    unfold snakeByte, inRange in Fc.
    destruct (Ascii.eqb_spec c "_") as [Ec|Ec].
    + (* the underscore *)
      subst c. apply (Hnext false).
      assert (Hu : strings.HasPrefix (String "_" t) "_" = true).
      { cbn [strings.HasPrefix]. rewrite HasPrefix_empty. reflexivity. }
      assert (Hp : p <> "").
      { intros ->. specialize (Hlead eq_refl). congruence. }
      assert (He : endsWithUnderscore p = false).
      { destruct (endsWithUnderscore p) eqn:E; [|reflexivity].
        specialize (Hend eq_refl). congruence. }
      unfold cmd.snakeStep. change (byteZ "_") with 95.
      change (unicode.IsUpper 95) with false. change (unicode.IsLower 95) with false.
      change (unicode.IsDigit 95) with false. cbn [orb]. cbv iota zeta.
      rewrite len_pos_iff. fold (endsWithUnderscore p). rewrite He.
      replace (len p >? 0) with true.
      2:{ symmetry. rewrite len_pos_iff. destruct p; [contradiction|reflexivity]. }
      replace (String.eqb p "") with false
        by (symmetry; apply String.eqb_neq; exact Hp).
      cbn [andb negb]. rewrite Hlen. reflexivity.
    + (* a letter or a digit *)
      rewrite orb_false_r in Fc. apply (Hnext true).
      unfold cmd.snakeStep, unicode.IsUpper, unicode.IsLower, unicode.IsDigit,
        unicode.MaxASCII, unicode.MaxLatin1.
      assert (Hr : 97 <= byteZ c <= 122 \/ 48 <= byteZ c <= 57).
      { apply orb_true_iff in Fc as [Fc|Fc]; apply andb_true_iff in Fc as [C1 C2];
          apply Z.leb_le in C1, C2; lia. }
      destruct (Z.leb_spec (byteZ c) 127); [|lia].
      destruct (Z.leb_spec (byteZ c) 255); [|lia].
      replace ((65 <=? byteZ c) && (byteZ c <=? 90)) with false.
      2:{ symmetry. apply andb_false_iff.
          destruct (Z.leb_spec 65 (byteZ c)); [right; apply Z.leb_gt; lia|left; reflexivity]. }
      rewrite Fc. rewrite EncodeRune_ascii by lia. rewrite zbyte_byteZ, Hlen. reflexivity.
Qed.

(** A snake-case name is its own snake case. *)
Lemma toSnakeCase_fixed (s : string) :
  snakeCase s = true -> cmd.toSnakeCase s = s.
Proof.
  intros Hs. destruct (snakeCase_parts s Hs) as (F & P & E & D).
  unfold cmd.toSnakeCase.
  destruct (String.eqb_spec s "") as [->|Hne]; [reflexivity|]. cbv zeta.
  assert (Ha : strings.isASCII s = true).
  { unfold strings.isASCII. clear -F. induction s as [|c t IH]; [reflexivity|].
    cbn [forallBytes] in *. apply andb_true_iff in F as [Fc Ft].
    rewrite (proj1 (snakeByte_fixed c Fc)), (IH Ft). reflexivity. }
  rewrite (runes_ascii_all s Ha).
  destruct (snakeLoop_copies s "" false F D) as (pl' & i' & Hl).
  - intros _. exact P.
  - intros H. discriminate H.
  - change (len "") with 0 in Hl. rewrite Hl, append_Empty.
    rewrite (collapseUnderscores_fixed s D), (Trim_fixed s P E).
    apply ToLower_snake, F.
Qed.

End SnakeResult.

Section SnakeTheorems.
Context {U : UnicodeTables}.

(** X4.  On a project name of ASCII bytes, [toSnakeCase] gives a snake-case
    name: lower-case letters, digits and underscores only, no underscore
    at either end and no two underscores in a row (the empty name
    included); and converting the result again changes nothing. *)
Theorem toSnakeCase_ascii (s : string) :
  strings.isASCII s = true ->
  snakeCase (cmd.toSnakeCase s) = true
  /\ cmd.toSnakeCase (cmd.toSnakeCase s) = cmd.toSnakeCase s.
Proof.
  intros Ha. pose proof (toSnakeCase_snake s Ha) as Hs.
  split; [exact Hs|]. apply toSnakeCase_fixed, Hs.
Qed.

(** X5.  [toSnakeCase] returns a name that is in snake case already as it
    is, whatever the case tables say beyond ASCII. *)
Theorem toSnakeCase_keeps_snake (s : string) :
  snakeCase s = true -> cmd.toSnakeCase s = s.
Proof. intros Hs. apply toSnakeCase_fixed, Hs. Qed.

(** X13.  The script name [runAdd] proposes, the snake case of the
    project name, is its own script identifier when the project name is
    ASCII: lower-casing it and replacing its spaces changes nothing, so the
    deployment identifier is [customdeploy_] and the name. *)
Theorem default_script_identifier (projectName : string) :
  strings.isASCII projectName = true ->
  cmd.scriptIdOf (cmd.toSnakeCase projectName) = cmd.toSnakeCase projectName
  /\ cmd.deploymentIdOf (cmd.scriptIdOf (cmd.toSnakeCase projectName))
     = "customdeploy_" ++ cmd.toSnakeCase projectName.
Proof.
  intros Ha.
  destruct (snakeCase_parts _ (toSnakeCase_snake projectName Ha)) as (F & _).
  assert (E : cmd.scriptIdOf (cmd.toSnakeCase projectName) = cmd.toSnakeCase projectName).
  { unfold cmd.scriptIdOf. rewrite (ToLower_snake _ F), ReplaceAll_space.
    apply (mapBytes_fixed underscoreByte snakeByte); [|exact F].
    intros c. destruct c as [[] [] [] [] [] [] [] []]; vm_compute; intros H;
      first [reflexivity | discriminate H]. }
  split; [exact E|]. unfold cmd.deploymentIdOf. rewrite E. reflexivity.
Qed.

End SnakeTheorems.

(** ** What [create] refuses *)
Section Silent.
Context {FS : Type}.

Ltac silent_prim :=
  intros w; cbn [fst snd fs cwd events]; repeat split.

Lemma silent_ret {A} (a : A) : @silent FS A (ret a).
Proof. silent_prim. Qed.

Lemma silent_exit {A} : @silent FS A (os_Exit 1).
Proof. silent_prim. Qed.

Lemma silent_Print (s : string) : @silent FS _ (Print s).
Proof. silent_prim. Qed.

Lemma silent_Println (s : string) : @silent FS _ (Println s).
Proof. apply silent_Print. Qed.

Lemma silent_ReadString (reader : string) : @silent FS _ (ReadString reader).
Proof.
  intros w. unfold ReadString.
  destruct (fillLine reader (stdin w)) as [[r buf] input].
  cbn [fst snd fs cwd events]. repeat split.
Qed.

Lemma silent_bind {A B} (m : Prog FS A) (k : A -> Prog FS B) :
  silent m -> (forall a, silent (k a)) -> silent (bind m k).
Proof.
  intros Hm Hk w. unfold bind.
  destruct (Hm w) as (F & C & E & O).
  destruct (m w) as [[a|c| |] w1]; cbn [fst snd] in *; try contradiction.
  - destruct (Hk a w1) as (F2 & C2 & E2 & O2).
    split; [congruence|]. split; [congruence|]. split; [congruence|exact O2].
  - auto.
Qed.

End Silent.

Section SilentOS.
Context {U : UnicodeTables} {L : cmd.Lib} {FS : Type} {os : OS FS}.

Lemma silent_os_Getwd : silent (@cmd.os_Getwd FS os).
Proof.
  intros w. unfold cmd.os_Getwd.
  destruct (sys_Getwd_err (fs w) (cwd w)); cbn [fst snd]; repeat split.
Qed.

Lemma silent_os_UserHomeDir : silent (@cmd.os_UserHomeDir FS os).
Proof. intros w; cbn [fst snd]; repeat split. Qed.

Lemma silent_os_Stat (path : string) : silent (@cmd.os_Stat FS os path).
Proof. intros w; cbn [fst snd]; repeat split. Qed.

Lemma silent_os_ReadFile (path : string) : silent (@cmd.os_ReadFile FS os path).
Proof. intros w; cbn [fst snd]; repeat split. Qed.

Lemma silent_exec_LookPath (file : string) : silent (@cmd.exec_LookPath FS os file).
Proof. intros w; cbn [fst snd]; repeat split. Qed.

Lemma silent_user_Current : silent (@cmd.user_Current FS os).
Proof. intros w; cbn [fst snd]; repeat split. Qed.

End SilentOS.

(** Proves that a computation only reads and prints, step by step. *)
Ltac silent_step :=
  first
    [ apply silent_ret | apply silent_exit | apply silent_Print | apply silent_Println
    | apply silent_ReadString | apply silent_os_Getwd | apply silent_os_UserHomeDir
    | apply silent_os_Stat | apply silent_os_ReadFile | apply silent_exec_LookPath
    | apply silent_user_Current
    | apply silent_bind; [|intros]
    | match goal with
      | |- silent (match ?x with Ok _ => _ | Err _ => _ end) => destruct x
      | |- silent (match ?x with Some _ => _ | None => _ end) => destruct x
      | |- silent (match ?x with nil => _ | cons _ _ => _ end) => destruct x
      | |- silent (let '(_, _) := ?x in _) => destruct x
      | |- silent (if ?b then _ else _) => destruct b
      end ].

Section Refuses.
Context {U : UnicodeTables} {L : cmd.Lib} {FS : Type} {os : OS FS}.

Lemma silent_getSuiteCloudCommand : silent (@cmd.getSuiteCloudCommand FS os).
Proof. unfold cmd.getSuiteCloudCommand. repeat silent_step. Qed.

Lemma silent_LoadUserConfig : silent (@cmd.LoadUserConfig L FS os).
Proof. unfold cmd.LoadUserConfig. repeat silent_step. Qed.

Lemma silent_promptWithDefault (reader what What default : string) :
  silent (@cmd.promptWithDefault FS reader what What default).
Proof. unfold cmd.promptWithDefault. cbv zeta. repeat silent_step. Qed.

Variables (fs0 : FS) (cwd0 : string).

Lemma refuses_exit : refusesFrom fs0 cwd0 (@os_Exit FS unit 1).
Proof. intros w F C. repeat split. Qed.

Lemma refuses_bind {A} (m : Prog FS A) (k : A -> Prog FS unit) :
  silent m -> (forall a, refusesFrom fs0 cwd0 (k a)) ->
  refusesFrom fs0 cwd0 (bind m k).
Proof.
  intros Hm Hk w F C. unfold bind.
  destruct (Hm w) as (F1 & C1 & E1 & O).
  destruct (m w) as [[a|c| |] w1]; cbn [fst snd] in *; try contradiction.
  - destruct (Hk a w1) as (R1 & R2 & R3 & R4); [congruence|congruence|].
    split; [exact R1|]. split; [congruence|]. split; congruence.
  - subst c. repeat split; assumption.
Qed.

(** A step that returns a value passes it on. *)
Lemma refuses_ret {A} (a : A) (k : A -> Prog FS unit) :
  refusesFrom fs0 cwd0 (k a) -> refusesFrom fs0 cwd0 (bind (ret a) k).
Proof. intros H. exact H. Qed.

(** [os.Getwd] and [os.Stat] answer from the outside world, which a run
    that has only read and printed has left as it was. *)
Lemma refuses_Getwd (k : result string -> Prog FS unit) :
  sys_Getwd_err fs0 cwd0 = None ->
  refusesFrom fs0 cwd0 (k (Ok cwd0)) ->
  refusesFrom fs0 cwd0 (bind cmd.os_Getwd k).
Proof.
  intros Hg Hk w F C. unfold bind, cmd.os_Getwd. rewrite F, C, Hg.
  apply Hk; assumption.
Qed.

Lemma refuses_Stat (path : string) (k : result bool -> Prog FS unit) :
  refusesFrom fs0 cwd0 (k (sys_Stat fs0 cwd0 path)) ->
  refusesFrom fs0 cwd0 (bind (cmd.os_Stat path) k).
Proof.
  intros Hk w F C. unfold bind, cmd.os_Stat. rewrite F, C.
  apply Hk; assumption.
Qed.

End Refuses.

(** Follows [runInit] through its questions. *)
Ltac silent_create :=
  repeat first
    [ apply silent_getSuiteCloudCommand | apply silent_LoadUserConfig
    | apply silent_promptWithDefault | silent_step ].

Ltac refuse_step :=
  cbv beta;
  first
    [ apply refuses_exit
    | apply refuses_ret
    | apply refuses_bind; [solve [silent_create]|intros ?a]
    | match goal with
      | |- refusesFrom _ _ (if ?b then _ else _) => destruct b
      | |- refusesFrom _ _ (match ?x with Ok _ => _ | Err _ => _ end) => destruct x
      | |- refusesFrom _ _ (match ?x with Some _ => _ | None => _ end) => destruct x
      | |- refusesFrom _ _ (let '(_, _) := ?x in _) => destruct x
      end ].

Section CreateRefuses.
Context {U : UnicodeTables} {L : cmd.Lib} {FS : Type} {os : OS FS}.

Lemma getSuiteCloudCommand_none (w : World FS) :
  sys_LookPath (fs w) (cwd w) "suitecloud" = false ->
  sys_LookPath (fs w) (cwd w) "suitecloud.cmd" = false ->
  cmd.getSuiteCloudCommand w = (Returned "", w).
Proof.
  intros H1 H2. unfold cmd.getSuiteCloudCommand, bind, cmd.exec_LookPath.
  rewrite H1, H2. reflexivity.
Qed.

(** X6.  [create] ends with exit status 1, having changed nothing outside
    the process, changed no directory and run nothing:
    - when neither [suitecloud] nor [suitecloud.cmd] is on the search path;
    - when the project name given by [--name] holds one of the characters
      of [invalidNameChars];
    - when the project directory, the name under the resolved output
      directory, exists already.
    In the last two cases the questions have been asked before. *)
Theorem create_refuses (projectNameFlag : string) (skipSetupFlag : bool)
        (outputDirFlag : string) (w : World FS) :
  (sys_LookPath (fs w) (cwd w) "suitecloud" = false ->
   sys_LookPath (fs w) (cwd w) "suitecloud.cmd" = false ->
   refused w (cmd.runInit projectNameFlag skipSetupFlag outputDirFlag w)
   /\ stdin (snd (cmd.runInit projectNameFlag skipSetupFlag outputDirFlag w)) = stdin w)
  /\ (strings.TrimSpace projectNameFlag <> "" ->
      strings.ContainsAny (strings.TrimSpace projectNameFlag) cmd.invalidNameChars = true ->
      refused w (cmd.runInit projectNameFlag skipSetupFlag outputDirFlag w))
  /\ (strings.TrimSpace projectNameFlag <> "" ->
      sys_Getwd_err (fs w) (cwd w) = None ->
      cmd.statOk (sys_Stat (fs w) (cwd w)
                           (filepath.Join [outputDirOf (cwd w) outputDirFlag;
                                           strings.TrimSpace projectNameFlag])) = true ->
      refused w (cmd.runInit projectNameFlag skipSetupFlag outputDirFlag w)).
Proof.
  split; [|split].
  - intros H1 H2.
    assert (E : exists out,
               cmd.runInit projectNameFlag skipSetupFlag outputDirFlag w
               = (Exited 1, addOut w out)).
    { unfold cmd.runInit. unfold bind at 1.
      rewrite (getSuiteCloudCommand_none w H1 H2). cbn [String.eqb].
      eexists. unfold bind, Println, Print, os_Exit, addOut. cbn [stdout fs cwd stdin events].
      rewrite <- app_assoc. reflexivity. }
    destruct E as [out ->]. split; [repeat split|reflexivity].
  - intros Hname Hbad.
    assert (Hgoal : refusesFrom (fs w) (cwd w)
                      (cmd.runInit projectNameFlag skipSetupFlag outputDirFlag)).
    2:{ apply Hgoal; reflexivity. }
    unfold cmd.runInit. cbv zeta.
    replace (String.eqb (strings.TrimSpace projectNameFlag) "") with false
      by (symmetry; apply String.eqb_neq; exact Hname).
    repeat first [ rewrite Hbad | refuse_step ].
  - intros Hname Hwd Hstat. unfold outputDirOf in Hstat.
    assert (Hgoal : refusesFrom (fs w) (cwd w)
                      (cmd.runInit projectNameFlag skipSetupFlag outputDirFlag)).
    2:{ apply Hgoal; reflexivity. }
    unfold cmd.runInit. cbv zeta.
    replace (String.eqb (strings.TrimSpace projectNameFlag) "") with false
      by (symmetry; apply String.eqb_neq; exact Hname).
    repeat first
      [ apply refuses_Getwd; [exact Hwd|]
      | apply refuses_Stat; rewrite Hstat
      | refuse_step ].
Qed.

End CreateRefuses.

(** ** What [create] runs *)
Section FrameMore.
Context {U : UnicodeTables} {L : cmd.Lib} {FS : Type} {os : OS FS}.
Variable P : Event -> Prop.

Lemma adds_exec_LookPath (file : string) : adds P (@cmd.exec_LookPath FS os file).
Proof. intros w o w' H; inversion H; subst; exists []; rewrite app_nil_r; auto. Qed.

Lemma adds_user_Current : adds P (@cmd.user_Current FS os).
Proof. intros w o w' H; inversion H; subst; exists []; rewrite app_nil_r; auto. Qed.

Lemma adds_os_Chdir (path : string) :
  (forall ok, P (EvChdir path ok)) -> adds P (@cmd.os_Chdir FS os path).
Proof.
  intros HP w o w' H. unfold cmd.os_Chdir in H. cbv zeta in H.
  inversion H; subst. cbn [events]. eexists; split; [reflexivity|]. auto.
Qed.

Lemma adds_exec_Run (c : Cmd) :
  (forall ok, P (EvRun c ok)) -> adds P (@cmd.exec_Run FS os c).
Proof.
  intros HP w o w' H. unfold cmd.exec_Run in H.
  destruct (sys_Run (fs w) (cwd w) c) as [e fs'].
  inversion H; subst. cbn [events]. eexists; split; [reflexivity|]. auto.
Qed.

Lemma adds_defer {A} (f : Prog FS unit) (body : Prog FS A) :
  adds P f -> adds P body -> adds P (defer f body).
Proof.
  intros Hf Hb w o w' H. unfold defer in H.
  destruct (body w) as [[a|c| |] w1] eqn:E; destruct (Hb _ _ _ E) as [l1 [E1 F1]].
  - destruct (f w1) as [[u|c| |] w2] eqn:E2; destruct (Hf _ _ _ E2) as [l2 [E3 F2]];
      inversion H; subst; exists (l1 ++ l2)%list; rewrite E3, E1, app_assoc;
      (split; [reflexivity|apply Forall_app; split; assumption]).
  - inversion H; subst; eauto.
  - destruct (f w1) as [[u|c| |] w2] eqn:E2; destruct (Hf _ _ _ E2) as [l2 [E3 F2]];
      inversion H; subst; exists (l1 ++ l2)%list; rewrite E3, E1, app_assoc;
      (split; [reflexivity|apply Forall_app; split; assumption]).
  - inversion H; subst; eauto.
Qed.

(** A step whose value is known to satisfy [Q] passes that on. *)
Lemma adds_bind_value {A B} (m : Prog FS A) (Q : A -> Prop) (k : A -> Prog FS B) :
  (forall w, exists a, m w = (Returned a, w) /\ Q a) ->
  (forall a, Q a -> adds P (k a)) -> adds P (bind m k).
Proof.
  intros Hm Hk w o w' H. unfold bind in H.
  destruct (Hm w) as (a & E & HQ). rewrite E in H.
  exact (Hk a HQ w o w' H).
Qed.

End FrameMore.

Section CreateRuns.
Context {U : UnicodeTables} {L : cmd.Lib} {FS : Type} {os : OS FS}.

Lemma getSuiteCloudCommand_value (w : World FS) :
  exists c, cmd.getSuiteCloudCommand w = (Returned c, w)
            /\ (c = "suitecloud" \/ c = "suitecloud.cmd" \/ c = "").
Proof.
  unfold cmd.getSuiteCloudCommand, bind, cmd.exec_LookPath.
  destruct (sys_LookPath (fs w) (cwd w) "suitecloud").
  - exists "suitecloud". auto.
  - destruct (sys_LookPath (fs w) (cwd w) "suitecloud.cmd").
    + exists "suitecloud.cmd". auto.
    + exists "". auto.
Qed.

Lemma adds_LoadUserConfig (P : Event -> Prop) : adds P (@cmd.LoadUserConfig L FS os).
Proof. unfold cmd.LoadUserConfig. repeat adds_step. Qed.

Lemma adds_promptWithDefault (P : Event -> Prop) (reader what What default : string) :
  adds P (@cmd.promptWithDefault FS reader what What default).
Proof. unfold cmd.promptWithDefault. cbv zeta. repeat adds_step. Qed.

Lemma adds_createFileFromTemplate (P : Event -> Prop) (path templatePath : string)
      (data : list (string * string)) :
  (forall d ok, P (EvWriteFile path d ok)) ->
  adds P (@cmd.createFileFromTemplate L FS os path templatePath data).
Proof.
  intros HP. unfold cmd.createFileFromTemplate.
  repeat first [ apply adds_os_WriteFile; intros; apply HP | adds_step ].
Qed.

Lemma adds_SaveConfig (P : Event -> Prop) (dir : string) (config : cmd.ProjectConfig) :
  (forall p d ok, P (EvWriteFile p d ok)) ->
  adds P (@cmd.SaveConfig L FS os dir config).
Proof.
  intros HP. unfold cmd.SaveConfig. cbv zeta.
  repeat first [ apply adds_os_WriteFile; intros; apply HP | adds_step ].
Qed.

Lemma adds_SaveUserConfig (P : Event -> Prop) (config : cmd.UserConfig) :
  (forall p d ok, P (EvWriteFile p d ok)) ->
  adds P (@cmd.SaveUserConfig L FS os config).
Proof.
  intros HP. unfold cmd.SaveUserConfig. cbv zeta.
  repeat first [ apply adds_os_WriteFile; intros; apply HP | adds_step ].
Qed.

End CreateRuns.

(** Follows [runInit], keeping what its tests have found. *)
Ltac runs_step :=
  cbv beta;
  first
    [ apply adds_LoadUserConfig | apply adds_promptWithDefault
    | apply adds_createFileFromTemplate; intros; exact I
    | apply adds_SaveConfig; intros; exact I
    | apply adds_SaveUserConfig; intros; exact I
    | apply adds_os_MkdirAll; intros; exact I
    | apply adds_os_Chdir; intros; exact I
    | apply adds_user_Current | apply adds_exec_LookPath
    | apply adds_defer
    | apply adds_ret | apply adds_exit | apply adds_Print | apply adds_Println
    | apply adds_ReadString | apply adds_os_Getwd | apply adds_os_Stat
    | apply adds_bind; [|intros ?a]
    | match goal with
      | |- adds _ (match ?x with Ok _ => _ | Err _ => _ end) => destruct x
      | |- adds _ (match ?x with Some _ => _ | None => _ end) => destruct x
      | |- adds _ (match ?x with nil => _ | cons _ _ => _ end) => destruct x
      | |- adds _ (let '(_, _) := ?x in _) => destruct x
      | |- adds _ (if ?b then _ else _) => destruct b eqn:?
      end ].

Section CreateRunsTheorem.
Context {U : UnicodeTables} {L : cmd.Lib} {FS : Type} {os : OS FS}.

Lemma adds_runInit (projectNameFlag : string) (skipSetupFlag : bool)
      (outputDirFlag : string) :
  adds (createRuns skipSetupFlag)
       (@cmd.runInit L FS os projectNameFlag skipSetupFlag outputDirFlag).
Proof.
  unfold cmd.runInit.
  apply (adds_bind_value _ _ (fun c => c = "suitecloud" \/ c = "suitecloud.cmd" \/ c = ""));
    [exact getSuiteCloudCommand_value|].
  intros c Hc. cbv beta zeta.
  assert (Hrun : forall name ok,
             String.eqb c "" = false -> String.eqb name "" = false ->
             strings.ContainsAny name cmd.invalidNameChars = false ->
             createRuns skipSetupFlag
               (EvRun (mkCmd c ["project:create"; "--type"; "ACCOUNTCUSTOMIZATION";
                                "--projectname"; name] "") ok)).
  { intros name ok Hne Hn Hv. cbn [createRuns cmdName cmdArgs cmdDir]. split.
    - destruct Hc as [ -> | [ -> | -> ] ]; [left|right|discriminate Hne]; reflexivity.
    - left. exists name. apply String.eqb_neq in Hn. auto. }
  assert (Hsetup : forall dir ok,
             String.eqb c "" = false -> negb skipSetupFlag = true ->
             createRuns skipSetupFlag (EvRun (mkCmd c ["account:setup"] dir) ok)).
  { intros dir ok Hne Hs. cbn [createRuns cmdName cmdArgs cmdDir]. split.
    - destruct Hc as [ -> | [ -> | -> ] ]; [left|right|discriminate Hne]; reflexivity.
    - right. apply negb_true_iff in Hs. auto. }
  clear Hc.
  repeat first
    [ apply adds_exec_Run; intros;
      first [ apply Hrun; first [assumption|reflexivity]
            | apply Hsetup; first [assumption|reflexivity] ]
    | runs_step ].
Qed.

(** X7.  Whatever happens, the programs a run of [create] starts are
    [suitecloud] (or [suitecloud.cmd]) only: for [project:create], in the
    directory of the process, with a project name that is not empty and
    holds no invalid character; and for [account:setup], which is not run
    when [--skip-setup] was given. *)
Theorem create_runs (projectNameFlag : string) (skipSetupFlag : bool)
        (outputDirFlag : string) (w : World FS) :
  exists l,
    events (snd (cmd.runInit projectNameFlag skipSetupFlag outputDirFlag w))
    = (events w ++ l)%list
    /\ Forall (createRuns skipSetupFlag) l.
Proof.
  destruct (cmd.runInit projectNameFlag skipSetupFlag outputDirFlag w) as [o w'] eqn:E.
  exact (adds_runInit projectNameFlag skipSetupFlag outputDirFlag w o w' E).
Qed.

End CreateRunsTheorem.

(** ** [add] and the project file *)
Section AddProject.
Context {U : UnicodeTables} {L : cmd.Lib} {FS : Type} {os : OS FS}.

(** [LoadConfig] reads the outside world and the working directory, and
    changes nothing. *)
Lemma LoadConfig_at (f : FS) (c : string) (i o : list string) (e : list Event) :
  cmd.LoadConfig (mkWorld f c i o e)
  = (fst (cmd.LoadConfig (mkWorld f c [] [] [])), mkWorld f c i o e).
Proof.
  unfold cmd.LoadConfig, bind, cmd.os_Getwd, cmd.os_Stat, cmd.os_ReadFile.
  cbn [fs cwd].
  destruct (sys_Getwd_err f c); [reflexivity|]. cbn [fs cwd].
  destruct (sys_Stat f c (filepath.Join [c; ".netsuite-cli"])) as [b|e1];
    [|destruct (IsNotExist e1); [reflexivity|]];
    cbn [fs cwd];
    (destruct (sys_ReadFile f c (filepath.Join [c; ".netsuite-cli"])) as [data|e2];
     [destruct (cmd.json_Unmarshal_ProjectConfig data)|]; reflexivity).
Qed.

Lemma LoadConfig_reads (w : World FS) :
  exists r, forall input,
    cmd.LoadConfig (setIn w input) = (r, setIn w input)
    /\ exists v, r = Returned v.
Proof.
  destruct w as [f c i o e]. unfold setIn. cbn [fs cwd stdout events].
  exists (fst (cmd.LoadConfig (mkWorld f c [] [] []))). intros input.
  split; [apply LoadConfig_at|].
  unfold cmd.LoadConfig, bind, cmd.os_Getwd, cmd.os_Stat, cmd.os_ReadFile.
  cbn [fs cwd].
  destruct (sys_Getwd_err f c); [eexists; reflexivity|]. cbn [fs cwd].
  destruct (sys_Stat f c (filepath.Join [c; ".netsuite-cli"])) as [b|e1];
    [|destruct (IsNotExist e1); [eexists; reflexivity|]];
    cbn [fs cwd];
    (destruct (sys_ReadFile f c (filepath.Join [c; ".netsuite-cli"])) as [data|e2];
     [destruct (cmd.json_Unmarshal_ProjectConfig data)|]; eexists; reflexivity).
Qed.

Lemma setIn_stdin (w : World FS) : setIn w (stdin w) = w.
Proof. destruct w; reflexivity. Qed.

(** X10.  [add] goes on only in a project folder: either the working
    directory is known, its [.netsuite-cli] file is not reported absent,
    can be read and parses as a project configuration, or the run ends with exit
    status 1 having read no input and changed nothing outside the process
    (it has only printed). *)
Theorem add_needs_project (depth : nat) (scriptType : string) (args : list string)
        (w : World FS) :
  (exists data config,
      sys_Getwd_err (fs w) (cwd w) = None
      /\ match sys_Stat (fs w) (cwd w) (filepath.Join [cwd w; ".netsuite-cli"]) with
         | Ok _ => True
         | Err e => IsNotExist e = false
         end
      /\ sys_ReadFile (fs w) (cwd w) (filepath.Join [cwd w; ".netsuite-cli"]) = Ok data
      /\ cmd.json_Unmarshal_ProjectConfig data = Ok config)
  \/ (refused w (cmd.runAdd depth scriptType args w)
      /\ stdin (snd (cmd.runAdd depth scriptType args w)) = stdin w).
Proof.
  assert (Hfail : forall e, cmd.LoadConfig w = (Returned (Err e), w) ->
             refused w (cmd.runAdd depth scriptType args w)
             /\ stdin (snd (cmd.runAdd depth scriptType args w)) = stdin w).
  { intros e He.
    assert (E : exists out, cmd.runAdd depth scriptType args w = (Exited 1, addOut w out)).
    { unfold cmd.runAdd. erewrite bind_Returned by exact He. cbv iota beta.
      run_prints. eexists. rewrite addOut_addOut. reflexivity. }
    destruct E as [out ->]. split; [repeat split|reflexivity]. }
  assert (Hload : forall e,
             (let '(o, w') := cmd.LoadConfig w in o = Returned (Err e) /\ w' = w) ->
             refused w (cmd.runAdd depth scriptType args w)
             /\ stdin (snd (cmd.runAdd depth scriptType args w)) = stdin w).
  { intros e. destruct (cmd.LoadConfig w) as [o w'] eqn:E. intros [-> ->].
    apply (Hfail e). reflexivity. }
  clear Hfail.
  unfold cmd.LoadConfig, bind, cmd.os_Getwd, cmd.os_Stat, cmd.os_ReadFile in Hload.
  destruct (sys_Getwd_err (fs w) (cwd w)) as [e0|] eqn:Eg.
  { right. eapply Hload. split; reflexivity. }
  destruct (sys_Stat (fs w) (cwd w) (filepath.Join [cwd w; ".netsuite-cli"])) as [b|e1] eqn:Es.
  2: destruct (IsNotExist e1) eqn:En.
  2:{ right. eapply Hload. split; reflexivity. }
  all: destruct (sys_ReadFile (fs w) (cwd w) (filepath.Join [cwd w; ".netsuite-cli"]))
         as [data|e2] eqn:Er;
       [destruct (cmd.json_Unmarshal_ProjectConfig data) as [config|e3] eqn:Ej;
        [left; exists data, config; auto|]|];
       right; eapply Hload; split; reflexivity.
Qed.

End AddProject.

(** ** Input typed ahead *)
Section TypedAhead.
Context {U : UnicodeTables} {L : cmd.Lib} {FS : Type} {os : OS FS}.

Lemma cutLine_line (chunk line extra : string) :
  cutLine chunk = Some (line, extra) -> cutLine line = Some (line, "").
Proof.
  revert line; induction chunk as [|c t IH]; intros line H; cbn [cutLine] in H;
    [discriminate|].
  destruct (Ascii.eqb c "010") eqn:E.
  - inversion H; subst. cbn [cutLine]. rewrite E. reflexivity.
  - destruct (cutLine t) as [[l r]|]; [|discriminate]. inversion H; subst.
    cbn [cutLine]. rewrite E, (IH l eq_refl). reflexivity.
Qed.

(** Two runs of the same steps from two worlds go on alike once a step
    has brought them to the same world. *)
Lemma bind_same {A B} (m : Prog FS A) (k : A -> Prog FS B) (w1 w2 w1' w2' : World FS)
      (a1 a2 : A) :
  m w1 = (Returned a1, w1') -> m w2 = (Returned a2, w2') ->
  k a1 w1' = k a2 w2' -> bind m k w1 = bind m k w2.
Proof. unfold bind; intros -> -> H; exact H. Qed.

Lemma ReadString_first (chunk line extra : string) (rest : list string) (w : World FS) :
  stdin w = chunk :: rest ->
  cutLine chunk = Some (line, extra) ->
  ReadString bufio_NewReader w = (Returned (Ok line, extra), setIn w rest).
Proof.
  intros Hs H. rewrite ReadString_eq, Hs. cbn [fillLine cutLine bufio_NewReader].
  rewrite append_Empty.
  destruct rest as [|c r]; cbn [fillLine]; rewrite H; reflexivity.
Qed.

(** X11.  When [add] asks for the script name, what one read of standard
    input delivers after the first line is lost: the reader that holds it
    is dropped, and the description is asked through a new reader.  The
    run is the run in which the read had delivered the first line only. *)
Theorem add_drops_typed_ahead (depth : nat) (scriptType : string) (w : World FS)
        (config : cmd.ProjectConfig) (chunk line extra : string) (rest : list string) :
  fst (cmd.LoadConfig w) = Returned (Ok config) ->
  cutLine chunk = Some (line, extra) ->
  cmd.runAdd depth scriptType [] (setIn w (chunk :: rest))
  = cmd.runAdd depth scriptType [] (setIn w (line :: rest)).
Proof.
  intros Hload Hcut.
  destruct (LoadConfig_reads w) as (r & Hr).
  assert (Er : r = Returned (Ok config)).
  { destruct (Hr (stdin w)) as [E _]. rewrite setIn_stdin in E.
    rewrite E in Hload. exact Hload. }
  subst r.
  unfold cmd.runAdd.
  eapply bind_same; [apply Hr|apply Hr|]. cbv beta iota zeta. cbn [String.eqb].
  rewrite !bind_assoc_at.
  eapply bind_same; [apply Print_eq|apply Print_eq|]. cbv beta.
  rewrite !bind_assoc_at.
  assert (Hline : cutLine line = Some (line, "")) by exact (cutLine_line _ _ _ Hcut).
  destruct (negb (String.eqb (cmd.toSnakeCase (cmd.pc_ProjectName config)) "")).
  - eapply bind_same; [apply Print_eq|apply Print_eq|]. cbv beta.
    rewrite !bind_assoc_at.
    eapply bind_same; [apply Print_eq|apply Print_eq|]. cbv beta.
    rewrite !bind_assoc_at.
    eapply bind_same;
      [apply (ReadString_first chunk line extra rest); [reflexivity|exact Hcut]
      |apply (ReadString_first line line "" rest); [reflexivity|exact Hline]|].
    reflexivity.
  - rewrite !bind_ret_at. cbv beta. rewrite !bind_assoc_at.
    eapply bind_same; [apply Print_eq|apply Print_eq|]. cbv beta.
    rewrite !bind_assoc_at.
    eapply bind_same;
      [apply (ReadString_first chunk line extra rest); [reflexivity|exact Hcut]
      |apply (ReadString_first line line "" rest); [reflexivity|exact Hline]|].
    reflexivity.
Qed.

End TypedAhead.

(** ** Locating the SuiteScripts and Objects directories *)
Section Locate.
Context {FS : Type} {os : OS FS}.

(** The loop over the candidates returns the first that is a directory. *)
Lemma firstExistingDir_find (paths : list string) (w : World FS) :
  cmd.firstExistingDir paths w
  = (Returned (find (isDirAt (fs w) (cwd w)) paths), w).
Proof.
  induction paths as [|p r IH]; [reflexivity|].
  cbn [cmd.firstExistingDir find]. unfold bind, cmd.os_Stat, isDirAt.
  destruct (sys_Stat (fs w) (cwd w) p) as [[|]|e]; try reflexivity; exact IH.
Qed.

(** Creating the candidate [base] and returning it, or the error. *)
Lemma creates_candidate (candidates : list string) (base msg : string) (w : World FS) :
  In base candidates ->
  exists r w',
    bind (cmd.os_MkdirAll base)
         (fun e => match e with
                   | Some err => ret (Err (cmd.Errorf msg err))
                   | None => ret (Ok base)
                   end) w = (Returned r, w')
    /\ cwd w' = cwd w /\ stdin w' = stdin w /\ stdout w' = stdout w
    /\ (forall p, r = Ok p -> In p candidates)
    /\ exists base',
         In base' candidates
         /\ events w'
            = (events w
               ++ [EvMkdirAll base' (match r with Ok _ => true | Err _ => false end)])%list
         /\ fs w' = snd (sys_MkdirAll (fs w) (cwd w) base')
         /\ (forall p, r = Ok p -> p = base').
Proof.
  intros Hin. unfold bind, cmd.os_MkdirAll, ret.
  destruct (sys_MkdirAll (fs w) (cwd w) base) as [[e|] fs'] eqn:Em.
  - eexists; eexists. split; [reflexivity|]. cbn [cwd stdin stdout events fs].
    repeat (split; [reflexivity|]). split; [intros p Hp; discriminate Hp|].
    exists base. split; [exact Hin|]. split; [reflexivity|].
    split; [rewrite Em; reflexivity|intros p Hp; discriminate Hp].
  - eexists; eexists. split; [reflexivity|]. cbn [cwd stdin stdout events fs].
    repeat (split; [reflexivity|]). split; [intros p [= <-]; exact Hin|].
    exists base. split; [exact Hin|]. split; [reflexivity|].
    split; [rewrite Em; reflexivity|intros p [= <-]; reflexivity].
Qed.

(** X12.  [findSuiteScriptsDir] and [findObjectsDir] return the first of
    their candidates that is an existing directory, and then touch
    nothing; only when none is, they create one of the candidates, with
    one call of [os.MkdirAll], and return it, or return the error of that
    call.  They print nothing, read nothing, and never end the process. *)
Theorem directory_finders (w : World FS) :
  findsOrCreates ["src/FileCabinet/SuiteScripts"; "src/SuiteScripts"; "SuiteScripts"]
                 cmd.findSuiteScriptsDir w
  /\ findsOrCreates ["src/Objects"; "Objects"] cmd.findObjectsDir w.
Proof.
  split.
  - unfold findsOrCreates, cmd.findSuiteScriptsDir. cbv zeta.
    erewrite bind_Returned by apply firstExistingDir_find.
    destruct (find _ _) as [p|] eqn:Hf.
    + exists (Ok p), w. split; [reflexivity|]. repeat split; try reflexivity.
      intros q [= <-]. apply find_some in Hf. apply Hf.
    + unfold bind at 1. unfold cmd.os_Stat at 1.
      destruct (cmd.statOk (sys_Stat (fs w) (cwd w) "src/FileCabinet")).
      * rewrite bind_ret_at. apply creates_candidate. cbn; tauto.
      * rewrite bind_assoc_at. unfold bind at 1. unfold cmd.os_Stat at 1.
        destruct (cmd.statOk (sys_Stat (fs w) (cwd w) "src"));
          rewrite bind_ret_at; apply creates_candidate; cbn; tauto.
  - unfold findsOrCreates, cmd.findObjectsDir. cbv zeta.
    erewrite bind_Returned by apply firstExistingDir_find.
    destruct (find _ _) as [p|] eqn:Hf.
    + exists (Ok p), w. split; [reflexivity|]. repeat split; try reflexivity.
      intros q [= <-]. apply find_some in Hf. apply Hf.
    + unfold bind at 1. unfold cmd.os_Stat at 1.
      destruct (cmd.statOk (sys_Stat (fs w) (cwd w) "src"));
        apply creates_candidate; cbn; tauto.
Qed.

End Locate.

(** ** What a run of [create] that returns has done *)


Section CreateReturns.
Context {U : UnicodeTables} {L : cmd.Lib} {FS : Type} {os : OS FS}.











End CreateReturns.





Section CreateReturnsTheorem.
Context {U : UnicodeTables} {L : cmd.Lib} {FS : Type} {os : OS FS}.


End CreateReturnsTheorem.

(** * The program run on the concrete world *)
Import Demo.


(** A witness of C2 on the 25 folders of the demo project, which make two
    pages: ["N"] on the first page moves to the second; ["n"] on the second
    page is answered by the error message; ["0"] selects the root; [" 7 "]
    selects the seventh entry; ["26"] is out of range; ["abc"] is no
    number. *)
Lemma menu_transition_witness :
  (exists out,
     cmd.menuBody demoFolders "SuiteScripts/" (cmd.totalPagesOf demoFolders)
                  (bufio_NewReader, 0) (menuWorld ["N" ++ nl])
     = (Returned (Continue (EmptyString, 1)), setIn (addOut (menuWorld ["N" ++ nl]) out) []))
  /\ (exists out,
        cmd.menuBody demoFolders "SuiteScripts/" (cmd.totalPagesOf demoFolders)
                     (bufio_NewReader, 1) (menuWorld ["n" ++ nl])
        = (Returned (Continue (EmptyString, 1)),
           addEv (addOut (setIn (addOut (menuWorld ["n" ++ nl]) out) []) (notANumber 2))
                 (EvSleep 1)))
  /\ (exists out,
        cmd.menuBody demoFolders "SuiteScripts/" (cmd.totalPagesOf demoFolders)
                     (bufio_NewReader, 0) (menuWorld ["0" ++ nl])
        = (Returned (Break (EmptyString, "SuiteScripts/")),
           setIn (addOut (menuWorld ["0" ++ nl]) out) []))
  /\ (exists out,
        cmd.menuBody demoFolders "SuiteScripts/" (cmd.totalPagesOf demoFolders)
                     (bufio_NewReader, 0) (menuWorld [" 7 " ++ nl])
        = (Returned (Break ("d7", "SuiteScripts/")),
           setIn (addOut (menuWorld [" 7 " ++ nl]) out) []))
  /\ (exists out,
        cmd.menuBody demoFolders "SuiteScripts/" (cmd.totalPagesOf demoFolders)
                     (bufio_NewReader, 0) (menuWorld ["26" ++ nl])
        = (Returned (Continue (EmptyString, 0)),
           addEv (addOut (setIn (addOut (menuWorld ["26" ++ nl]) out) [])
                         (outOfRange demoFolders)) (EvSleep 1)))
  /\ (exists out,
        cmd.menuBody demoFolders "SuiteScripts/" (cmd.totalPagesOf demoFolders)
                     (bufio_NewReader, 0) (menuWorld ["abc" ++ nl])
        = (Returned (Continue (EmptyString, 0)),
           addEv (addOut (setIn (addOut (menuWorld ["abc" ++ nl]) out) []) (notANumber 2))
                 (EvSleep 1))).
Proof.
  assert (Hlen : cmd.lenL demoFolders = 25) by (vm_compute; reflexivity).
  assert (Htp : cmd.totalPagesOf demoFolders = 2) by (vm_compute; reflexivity).
  assert (Hpos : 0 < cmd.lenL demoFolders) by (rewrite Hlen; lia).
  assert (Hfit : folders_fit demoFolders).
  { unfold folders_fit; rewrite Hlen; unfold cmd.pageSize, strconv.MaxInt; lia. }
  assert (Hp0 : 0 <= 0 < cmd.totalPagesOf demoFolders) by (rewrite Htp; lia).
  assert (Hp1 : 0 <= 1 < cmd.totalPagesOf demoFolders) by (rewrite Htp; lia).
  repeat split.
  - destruct (menu_transition demoFolders "SuiteScripts/" bufio_NewReader 0
                (menuWorld ["N" ++ nl]) ("N" ++ nl) EmptyString [] Hpos Hfit Hp0 eq_refl)
      as [out [[Hn _] _]]; [reflexivity|].
    exists out. apply Hn. rewrite Htp; lia.
  - destruct (menu_transition demoFolders "SuiteScripts/" bufio_NewReader 1
                (menuWorld ["n" ++ nl]) ("n" ++ nl) EmptyString [] Hpos Hfit Hp1 eq_refl)
      as [out [[_ Hn] _]]; [reflexivity|].
    exists out. rewrite <- Htp. apply Hn. rewrite Htp; lia.
  - destruct (menu_transition demoFolders "SuiteScripts/" bufio_NewReader 0
                (menuWorld ["0" ++ nl]) ("0" ++ nl) EmptyString [] Hpos Hfit Hp0 eq_refl)
      as [out [_ [H0 _]]].
    exists out. apply H0. reflexivity.
  - destruct (menu_transition demoFolders "SuiteScripts/" bufio_NewReader 0
                (menuWorld [" 7 " ++ nl]) (" 7 " ++ nl) EmptyString [] Hpos Hfit Hp0 eq_refl)
      as [out [_ [_ [Hi _]]]].
    exists out. destruct (Hi 7) as [f [Hf Hpass]]; [reflexivity|rewrite Hlen; lia|].
    vm_compute in Hf. inversion Hf; subst f. exact Hpass.
  - destruct (menu_transition demoFolders "SuiteScripts/" bufio_NewReader 0
                (menuWorld ["26" ++ nl]) ("26" ++ nl) EmptyString [] Hpos Hfit Hp0 eq_refl)
      as [out [_ [_ [_ [Ho _]]]]].
    exists out. apply (Ho 26); [reflexivity|rewrite Hlen; lia].
  - destruct (menu_transition demoFolders "SuiteScripts/" bufio_NewReader 0
                (menuWorld ["abc" ++ nl]) ("abc" ++ nl) EmptyString [] Hpos Hfit Hp0 eq_refl)
      as [out [_ [_ [_ [_ Hx]]]]].
    exists out. rewrite <- Htp. apply Hx; [reflexivity|discriminate|discriminate].
Defined.

(** A witness of C5: the 25 folders of the demo project make 2 pages, and
    the selector is the menu; with no folder, the selector is the
    root-placement question, which the answer ["n"] ends with status 0. *)
Lemma selector_pages_witness :
  (20 * (cmd.totalPagesOf demoFolders - 1) < cmd.lenL demoFolders
     <= 20 * cmd.totalPagesOf demoFolders
   /\ cmd.totalPagesOf demoFolders = 2
   /\ cmd.selectScriptFolder 2 "src/FileCabinet/SuiteScripts" (menuWorld ["0" ++ nl])
      = forLoop 3 (cmd.menuBody demoFolders "SuiteScripts/" (cmd.totalPagesOf demoFolders))
                (bufio_NewReader, 0) (menuWorld ["0" ++ nl]))
  /\ (cmd.selectScriptFolder 2 "src/FileCabinet/SuiteScripts" (emptyWorld ["n" ++ nl])
      = rootPlacement (emptyWorld ["n" ++ nl])
      /\ rootPlacement (emptyWorld ["n" ++ nl])
         = (Exited 0, addOut (setIn (addOut (emptyWorld ["n" ++ nl]) [rootQuestion]) [])
                             [cancelledMessage])).
Proof.
  assert (Hlen : cmd.lenL demoFolders = 25) by (vm_compute; reflexivity).
  assert (Hfit : folders_fit demoFolders).
  { unfold folders_fit; rewrite Hlen; unfold cmd.pageSize, strconv.MaxInt; lia. }
  split.
  - destruct (selector_pages 2 "src/FileCabinet/SuiteScripts" (menuWorld ["0" ++ nl])
                demoFolders) as [Hmenu _]; [vm_compute; reflexivity|exact Hfit|].
    destruct Hmenu as [Hc Hs]; [rewrite Hlen; lia|].
    split; [exact Hc|]. split; [vm_compute; reflexivity|exact Hs].
  - destruct (selector_pages 2 "src/FileCabinet/SuiteScripts" (emptyWorld ["n" ++ nl]) [])
      as [_ Hroot]; [vm_compute; reflexivity| |].
    + unfold folders_fit, cmd.pageSize, strconv.MaxInt; simpl; lia.
    + split; [apply Hroot; reflexivity|reflexivity].
Defined.

(** Evaluates a closed computation and records its value. *)
Ltac run_to H term :=
  let v := eval vm_compute in term in
  assert (H : term = v) by (vm_compute; reflexivity).


(** A witness of C6: no folder under SuiteScripts, and the answer ["n"]. *)
Lemma add_cancelled_witness :
  exists p w1 w' done,
    runAddPrelude "suitelet" ["My Report"] (emptyWorld [nl; "n" ++ nl]) = (Returned p, w1)
    /\ cmd.findAllFolders 3 (fs w1) (cwd w1) (pre_suiteScriptsDir p) "" = Some []
    /\ affirmative ("n" ++ nl) = false
    /\ cmd.runAdd 3 "suitelet" ["My Report"] (emptyWorld [nl; "n" ++ nl]) = (Exited 0, w')
    /\ events w' = done
    /\ filter isWrite done = []
    /\ stdout w' = (stdout w1 ++ [rootQuestion; cancelledMessage])%list.
Proof.
  run_to H1 (runAddPrelude "suitelet" ["My Report"] (emptyWorld [nl; "n" ++ nl])).
  match type of H1 with _ = (Returned ?p, ?w1) =>
    assert (H2 : cmd.findAllFolders 3 (fs w1) (cwd w1) (pre_suiteScriptsDir p) "" = Some [])
      by (vm_compute; reflexivity);
    assert (H3 : fillLine bufio_NewReader (stdin w1) = (Ok ("n" ++ nl), EmptyString, []))
      by (vm_compute; reflexivity)
  end.
  destruct (add_cancelled 3 _ _ _ _ _ _ _ _ H1 H2 H3 eq_refl)
    as [w' [done [Hrun [Ev [_ [Hw Hout]]]]]].
  do 2 eexists. exists w', done.
  split; [exact H1|]. split; [exact H2|]. split; [reflexivity|].
  split; [exact Hrun|]. split; [exact Ev|]. split; [exact Hw|exact Hout].
Defined.

(** A witness of C10: category [userevent], script name [On Save], the
    record type [SALESORDER] answered, and the second folder of the menu
    selected. *)
Lemma record_type_directory_witness :
  exists p w1 sel w2 w' dir xmlText line,
    runAddPrelude "userevent" ["On Save"] (treeWorld [nl; "SALESORDER" ++ nl; "2" ++ nl])
      = (Returned p, w1)
    /\ cmd.selectScriptFolder 3 (pre_suiteScriptsDir p) w1 = (Returned sel, w2)
    /\ cmd.runAdd 3 "userevent" ["On Save"] (treeWorld [nl; "SALESORDER" ++ nl; "2" ++ nl])
       = (Returned tt, w')
    /\ xmlTargetDirOf "userevent" p dir
       = filepath.Join [dir; cmd.pc_ProjectName (pre_config p); "usereventscript"]
    /\ cmd.template_Execute (cmd.XML (pre_templates p)) (templateDataOf "userevent" p sel)
       = Ok xmlText
    /\ cmd.RecordType (templateDataOf "userevent" p sel) = strings.TrimSpace line
    /\ strings.TrimSpace line <> ""
    /\ pre_recordType p = "SALESORDER"
    /\ events w' =
         [ EvMkdirAll "src/FileCabinet/SuiteScripts/lib/utils" true;
           EvWriteFile "src/FileCabinet/SuiteScripts/lib/utils/acm_On Save_userevent.ts"
                       "userevent ts customscript_on_save SALESORDER" true;
           EvMkdirAll "src/Objects/acme-proj/usereventscript" true;
           EvWriteFile "src/Objects/acme-proj/usereventscript/acm_On Save.xml"
                       "userevent xml customscript_on_save SALESORDER" true ].
Proof.
  run_to H1 (runAddPrelude "userevent" ["On Save"]
                           (treeWorld [nl; "SALESORDER" ++ nl; "2" ++ nl])).
  match type of H1 with _ = (Returned ?p, ?w1) =>
    run_to H2 (cmd.selectScriptFolder 3 (pre_suiteScriptsDir p) w1) end.
  run_to H3 (cmd.runAdd 3 "userevent" ["On Save"]
                        (treeWorld [nl; "SALESORDER" ++ nl; "2" ++ nl])).
  match type of H1 with _ = (Returned ?p, _) =>
    assert (Hxml : cmd.XML (pre_templates p) <> "") by (vm_compute; discriminate) end.
  destruct (record_type_directory 3 "userevent" _ _ _ _ _ _ _ (or_introl eq_refl) Hxml
              H1 H2 H3)
    as [before [tsText [dir [found [xmlText [w0 [reader [line [reader' [rest
        [Ev [Hdir [Hpath [Hb [Hfound [Hx [Hrt [Hfill Hne]]]]]]]]]]]]]]]]]].
  do 5 eexists. exists dir, xmlText, line.
  split; [exact H1|]. split; [exact H2|]. split; [exact H3|].
  split; [exact Hdir|]. split; [exact Hx|]. split; [exact Hrt|]. split; [exact Hne|].
  split; vm_compute; reflexivity.
Defined.

(** A witness of C4: the search of [demoTree], in which [vendor] cannot be
    read, finds [lib], [lib/utils] and [vendor], in this order. *)
Lemma folder_catalog_witness :
  holds (fs (treeWorld [])) "/work/acme-proj" "src/FileCabinet/SuiteScripts" "" demoTree
  /\ (height demoTree <= 3)%nat
  /\ cmd.findAllFolders 3 (fs (treeWorld [])) "/work/acme-proj"
                        "src/FileCabinet/SuiteScripts" ""
     = Some (map snd (walk "src/FileCabinet/SuiteScripts" "" demoTree))
  /\ StronglySorted before (map fst (walk "src/FileCabinet/SuiteScripts" "" demoTree))
  /\ map fst (walk "src/FileCabinet/SuiteScripts" "" demoTree)
     = [[1%nat]; [1%nat; 0%nat]; [2%nat]]
  /\ map cmd.Path (map snd (walk "src/FileCabinet/SuiteScripts" "" demoTree))
     = ["lib"; "lib/utils"; "vendor"].
Proof.
  assert (H : holds (fs (treeWorld [])) "/work/acme-proj" "src/FileCabinet/SuiteScripts"
                    "" demoTree).
  { simpl. repeat split; try reflexivity. exists EACCES; reflexivity. }
  assert (Hh : (height demoTree <= 3)%nat) by (simpl; lia).
  destruct (folder_catalog (fs (treeWorld [])) "/work/acme-proj"
              "src/FileCabinet/SuiteScripts" demoTree 3 H Hh) as [Hf [Hs _]].
  split; [exact H|]. split; [exact Hh|]. split; [exact Hf|]. split; [exact Hs|].
  split; vm_compute; reflexivity.
Defined.

(** C7 fails on the code.  [create --name newproj --skip-setup --output out]
    is run in [/work]; the working directory is changed to [/work/out];
    [suitecloud project:create] fails; the process exits with status 1
    through [os.Exit], which skips the deferred [os.Chdir(originalDir)]: the
    working directory is still [/work/out] and no second [Chdir] was made.
    When [suitecloud] succeeds, the run returns and the deferred call
    restores [/work]. *)
Lemma runInit_exit_skips_restore :
  cwd (initWorld true initAnswers) = "/work"
  /\ fst (cmd.runInit "newproj" true "out" (initWorld true initAnswers)) = Exited 1
  /\ cwd (snd (cmd.runInit "newproj" true "out" (initWorld true initAnswers))) = "/work/out"
  /\ events (snd (cmd.runInit "newproj" true "out" (initWorld true initAnswers)))
     = [EvChdir "/work/out" true; EvRun createCmd false]
  /\ fst (cmd.runInit "newproj" true "out" (initWorld false initAnswers)) = Returned tt
  /\ cwd (snd (cmd.runInit "newproj" true "out" (initWorld false initAnswers))) = "/work"
  /\ last (events (snd (cmd.runInit "newproj" true "out" (initWorld false initAnswers))))
          (EvSleep 0)
     = EvChdir "/work" true.
Proof.
  repeat split; vm_compute; reflexivity.
Qed.

(** The Latin-1 case table folds once. *)
Lemma latin1_foldsOnce : foldsOnce latin1Tables.
Proof.
  intros r [[H0 H1] Hs] Hgt. unfold utf8.MaxRune in H1.
  unfold unicode.ToLower, unicode.MaxASCII, validRune, utf8.MaxRune.
  cbn [tblToLower latin1Tables]. unfold latin1Upper.
  destruct (Z.leb_spec 192 r), (Z.leb_spec r 222), (Z.eqb_spec r 215);
    cbn [andb negb];
    repeat match goal with
           | |- context [?a <=? ?b] => destruct (Z.leb_spec a b); try lia
           | |- context [?a =? ?b] => destruct (Z.eqb_spec a b); try lia
           end; cbn [andb negb]; repeat split; try lia.
Qed.

(** A witness of C8: the identifiers of [My Report] and of a name with a
    Latin-1 capital. *)
Lemma script_identifiers_witness :
  strings.isASCII "My Report" = true
  /\ foldsOnce latin1Tables
  /\ cmd.scriptIdOf "My Report" = "my_report"
  /\ cmd.scriptIdOf (cmd.scriptIdOf "My Report") = cmd.scriptIdOf "My Report"
  /\ cmd.deploymentIdOf (cmd.scriptIdOf "My Report") = "customdeploy_my_report"
  /\ cmd.scriptIdOf ecoleAdmin = utf8.EncodeRune 0xE9 ++ "cole_admin"
  /\ utf8.runes (cmd.scriptIdOf ecoleAdmin) = map identifierRune (utf8.runes ecoleAdmin)
  /\ cmd.scriptIdOf (cmd.scriptIdOf ecoleAdmin) = cmd.scriptIdOf ecoleAdmin.
Proof.
  destruct (script_identifiers (U := latin1Tables) "My Report") as (E1 & D1 & A1 & _).
  destruct (script_identifiers (U := latin1Tables) ecoleAdmin) as (E2 & _ & _ & T2).
  destruct (A1 eq_refl) as (B1 & I1).
  destruct (T2 latin1_foldsOnce) as (R2 & I2).
  split; [reflexivity|]. split; [exact latin1_foldsOnce|].
  split; [rewrite B1; reflexivity|]. split; [exact I1|].
  split; [rewrite D1, B1; reflexivity|].
  split; [rewrite E2; vm_compute; reflexivity|].
  split; [exact R2|exact I2].
Defined.

(** * The further properties on the concrete world *)

(** A witness of X1: on the 25 folders of the demo project, the answer
    [abc] and then [7] end the menu with the folder [d7], after one
    pause. *)
Lemma menu_selection_listed_witness :
  0 < cmd.lenL demoFolders
  /\ folders_fit demoFolders
  /\ menuEnds demoFolders "SuiteScripts/" (menuWorld ["abc" ++ nl; "7" ++ nl])
              (cmd.displayScrollableMenu demoFolders "SuiteScripts/"
                                         (menuWorld ["abc" ++ nl; "7" ++ nl]))
  /\ fst (cmd.displayScrollableMenu demoFolders "SuiteScripts/"
                                    (menuWorld ["abc" ++ nl; "7" ++ nl]))
     = Returned ("d7", "SuiteScripts/").
Proof.
  assert (Hlen : cmd.lenL demoFolders = 25) by (vm_compute; reflexivity).
  assert (Hpos : 0 < cmd.lenL demoFolders) by (rewrite Hlen; lia).
  assert (Hfit : folders_fit demoFolders).
  { unfold folders_fit; rewrite Hlen; unfold cmd.pageSize, strconv.MaxInt; lia. }
  split; [exact Hpos|]. split; [exact Hfit|].
  split; [exact (menu_selection_listed demoFolders "SuiteScripts/"
                   (menuWorld ["abc" ++ nl; "7" ++ nl]) Hpos Hfit)|].
  vm_compute. reflexivity.
Defined.

(** A witness of X2: [P] on the second page of the 25 folders moves to
    the first; [p] on the first page is answered by the message. *)
Lemma menu_previous_page_witness :
  (exists out,
      cmd.menuBody demoFolders "SuiteScripts/" (cmd.totalPagesOf demoFolders)
                   (bufio_NewReader, 1) (menuWorld ["P" ++ nl])
      = (Returned (Continue (EmptyString, 0)), setIn (addOut (menuWorld ["P" ++ nl]) out) []))
  /\ (exists out,
         cmd.menuBody demoFolders "SuiteScripts/" (cmd.totalPagesOf demoFolders)
                      (bufio_NewReader, 0) (menuWorld ["p" ++ nl])
         = (Returned (Continue (EmptyString, 0)),
            addEv (addOut (setIn (addOut (menuWorld ["p" ++ nl]) out) [])
                          (notANumber (cmd.totalPagesOf demoFolders)))
                  (EvSleep 1))).
Proof.
  assert (Hlen : cmd.lenL demoFolders = 25) by (vm_compute; reflexivity).
  assert (Htp : cmd.totalPagesOf demoFolders = 2) by (vm_compute; reflexivity).
  assert (Hfit : folders_fit demoFolders).
  { unfold folders_fit; rewrite Hlen; unfold cmd.pageSize, strconv.MaxInt; lia. }
  assert (Hp0 : 0 <= 0 < cmd.totalPagesOf demoFolders) by (rewrite Htp; lia).
  assert (Hp1 : 0 <= 1 < cmd.totalPagesOf demoFolders) by (rewrite Htp; lia).
  split.
  - destruct (menu_previous_page demoFolders "SuiteScripts/" bufio_NewReader 1
                (menuWorld ["P" ++ nl]) ("P" ++ nl) EmptyString [] Hfit Hp1
                eq_refl eq_refl) as [out [Hp _]].
    exists out. apply Hp. lia.
  - destruct (menu_previous_page demoFolders "SuiteScripts/" bufio_NewReader 0
                (menuWorld ["p" ++ nl]) ("p" ++ nl) EmptyString [] Hfit Hp0
                eq_refl eq_refl) as [out [_ Hz]].
    exists out. apply Hz. reflexivity.
Defined.


(** A witness of X4: the snake case of [Acme Proj-2]. *)
Lemma toSnakeCase_ascii_witness :
  strings.isASCII "Acme Proj-2" = true
  /\ cmd.toSnakeCase "Acme Proj-2" = "acme_proj_2"
  /\ snakeCase (cmd.toSnakeCase "Acme Proj-2") = true
  /\ cmd.toSnakeCase (cmd.toSnakeCase "Acme Proj-2") = cmd.toSnakeCase "Acme Proj-2".
Proof.
  split; [reflexivity|]. split; [vm_compute; reflexivity|].
  exact (toSnakeCase_ascii "Acme Proj-2" eq_refl).
Defined.

(** A witness of X5: [acme_proj_2] is in snake case. *)
Lemma toSnakeCase_keeps_snake_witness :
  snakeCase "acme_proj_2" = true /\ cmd.toSnakeCase "acme_proj_2" = "acme_proj_2".
Proof.
  split; [reflexivity|]. exact (toSnakeCase_keeps_snake "acme_proj_2" eq_refl).
Defined.

(** A witness of X6: [create] without [suitecloud] on the search path;
    with the name [bad/name]; and for the project [out] in [/work], where
    [/work/out] exists. *)
Lemma create_refuses_witness :
  refused (mkWorld (mkMemFS [("/work", [])] [] [] None [] false None "2024-05-01")
                   "/work" initAnswers [] [])
          (cmd.runInit "newproj" true "."
             (mkWorld (mkMemFS [("/work", [])] [] [] None [] false None "2024-05-01")
                      "/work" initAnswers [] []))
  /\ refused (initWorld false initAnswers)
             (cmd.runInit "bad/name" true "out" (initWorld false initAnswers))
  /\ refused (initWorld false initAnswers)
             (cmd.runInit "out" true "." (initWorld false initAnswers)).
Proof.
  split; [|split].
  - destruct (create_refuses "newproj" true "."
                (mkWorld (mkMemFS [("/work", [])] [] [] None [] false None "2024-05-01")
                         "/work" initAnswers [] [])) as (H1 & _ & _).
    apply H1; reflexivity.
  - destruct (create_refuses "bad/name" true "out" (initWorld false initAnswers))
      as (_ & H2 & _).
    apply H2; [intros E; vm_compute in E; discriminate E|reflexivity].
  - destruct (create_refuses "out" true "." (initWorld false initAnswers))
      as (_ & _ & H3).
    apply H3; [intros E; vm_compute in E; discriminate E|reflexivity|reflexivity].
Defined.


(** A witness of X11: in the demo project, the script name arrives in one
    read together with the line meant as the description; that line is
    lost, and the run is the run without it. *)
Lemma add_drops_typed_ahead_witness :
  fst (cmd.LoadConfig (emptyWorld [])) = Returned (Ok acme)
  /\ cutLine ("My Report" ++ nl ++ "The report" ++ nl)
     = Some ("My Report" ++ nl, "The report" ++ nl)
  /\ cmd.runAdd 2 "suitelet" []
       (setIn (emptyWorld []) [("My Report" ++ nl ++ "The report" ++ nl); nl; "y" ++ nl])
     = cmd.runAdd 2 "suitelet" []
         (setIn (emptyWorld []) ["My Report" ++ nl; nl; "y" ++ nl]).
Proof.
  split; [vm_compute; reflexivity|]. split; [vm_compute; reflexivity|].
  apply (add_drops_typed_ahead 2 "suitelet" (emptyWorld []) acme
           ("My Report" ++ nl ++ "The report" ++ nl) ("My Report" ++ nl)
           ("The report" ++ nl) [nl; "y" ++ nl]);
    vm_compute; reflexivity.
Defined.

(** A witness of X13: the project [Acme Proj-2]. *)
Lemma default_script_identifier_witness :
  strings.isASCII "Acme Proj-2" = true
  /\ cmd.scriptIdOf (cmd.toSnakeCase "Acme Proj-2") = "acme_proj_2"
  /\ cmd.deploymentIdOf (cmd.scriptIdOf (cmd.toSnakeCase "Acme Proj-2"))
     = "customdeploy_acme_proj_2".
Proof.
  destruct (default_script_identifier "Acme Proj-2" eq_refl) as [E D].
  split; [reflexivity|]. split.
  - rewrite E. vm_compute. reflexivity.
  - rewrite D. vm_compute. reflexivity.
Defined.
